(** * Integration-test result summaries: [scripts/gha/summarize_test_results.py]

    A shallow embedding of the summary script and the properties of its
    configuration compaction, its aggregation and its three renderings.

    Conventions of the embedding.
    - A Python [str] is a [string]; each character stands for the code point
      of the same number (0..255).
    - A Python [dict] is an association list with pairwise distinct keys, in
      insertion order (the order in which [items()] and [keys()] iterate).
    - A Python [set] of strings is a duplicate-free list in insertion order.
      The order in which Python iterates over a set is not fixed by the
      language (it follows the string hashes); it is the parameter
      [set_iter] of the development.
    - A raised exception is the [Err] case of [result].
    - [BUILD_CONFIGS] and [TEST_DEVICES] come from the module
      [print_matrix_configuration]; they are parameters. *)

From Stdlib Require Import String Ascii List Bool Arith Lia.
From Stdlib Require DecimalString.
From Stdlib Require Import Permutation Sorted.
Import ListNotations.
Open Scope list_scope.
Open Scope string_scope.

Set Implicit Arguments.

(** ** Exceptions *)

Inductive exn : Type :=
| IndexError
| KeyError
| TypeError
| AttributeError
| JSONDecodeError.

Inductive result (A : Type) : Type :=
| Ok (a : A)
| Err (e : exn).

Arguments Ok {A} a.
Arguments Err {A} e.

Definition bind {A B : Type} (r : result A) (k : A -> result B) : result B :=
  match r with
  | Ok a => k a
  | Err e => Err e
  end.

Notation "x <- r ;; k" := (bind r (fun x => k))
  (at level 61, r at next level, right associativity).

Definition is_ok {A : Type} (r : result A) : bool :=
  match r with Ok _ => true | Err _ => false end.

(** [for x in xs: acc = f(acc, x)], leaving at the first exception. *)
Fixpoint foldM {A B : Type} (f : A -> B -> result A) (acc : A) (xs : list B)
  : result A :=
  match xs with
  | [] => Ok acc
  | x :: xs' => acc' <- f acc x ;; foldM f acc' xs'
  end.

(** ** Python strings *)

Module PyStr.

Local Open Scope nat_scope.

Definition code (c : ascii) : nat := nat_of_ascii c.

Definition between (lo hi n : nat) : bool := (lo <=? n) && (n <=? hi).

(** [str.isspace] on one character, as [str.split()] uses it. *)
Definition is_space (c : ascii) : bool :=
  let n := code c in
  between 9 13 n || between 28 32 n || (n =? 133) || (n =? 160).

(** The class [\w] of a [str] pattern: alphanumeric characters and [_]. *)
Definition is_word (c : ascii) : bool :=
  let n := code c in
  between 48 57 n || between 65 90 n || between 97 122 n || (n =? 95)
  || (n =? 170) || (n =? 178) || (n =? 179) || (n =? 181) || (n =? 185)
  || (n =? 186) || between 188 190 n || between 192 214 n
  || between 216 246 n || between 248 255 n.

(** [str.isprintable] on one character, as [repr] uses it. *)
Definition is_printable (c : ascii) : bool :=
  let n := code c in
  between 32 126 n || (between 161 255 n && negb (n =? 173)).

Definition newline : ascii := ascii_of_nat 10.
Definition quote : ascii := "'"%char.
Definition dquote : ascii := ascii_of_nat 34.
Definition backslash : ascii := "\"%char.

Fixpoint has_char (c : ascii) (s : string) : bool :=
  match s with
  | EmptyString => false
  | String d s' => Ascii.eqb c d || has_char c s'
  end.

(** [s.replace(c, '')] for a one-character [c]. *)
Fixpoint remove_char (c : ascii) (s : string) : string :=
  match s with
  | EmptyString => EmptyString
  | String d s' =>
      if Ascii.eqb c d then remove_char c s' else String d (remove_char c s')
  end.

(** [re.sub(c, d, s)] for one-character, non-special [c] and [d]. *)
Fixpoint replace_char (c d : ascii) (s : string) : string :=
  match s with
  | EmptyString => EmptyString
  | String e s' =>
      String (if Ascii.eqb c e then d else e) (replace_char c d s')
  end.

Fixpoint repeat_char (c : ascii) (n : nat) : string :=
  match n with
  | O => EmptyString
  | S n' => String c (repeat_char c n')
  end.

(** [s.ljust(width)] *)
Definition ljust (s : string) (width : nat) : string :=
  s ++ repeat_char " "%char (width - String.length s).

(** [sep.join(parts)] *)
Definition join (sep : string) (parts : list string) : string :=
  String.concat sep parts.

(** [sub in s] *)
Fixpoint py_in (sub s : string) : bool :=
  String.prefix sub s ||
  match s with
  | EmptyString => false
  | String _ s' => py_in sub s'
  end.

(** ["%d" % n] for a length [n]. *)
Definition dec (n : nat) : string := DecimalString.NilEmpty.string_of_uint (Nat.to_uint n).

Definition hex_digit (n : nat) : ascii :=
  if n <? 10 then ascii_of_nat (48 + n) else ascii_of_nat (87 + n).

(** One character of [repr(s)], [q] being the delimiter [repr] chose. *)
Definition repr_char (q : ascii) (c : ascii) : string :=
  let n := code c in
  if Ascii.eqb c q || Ascii.eqb c backslash then String backslash (String c EmptyString)
  else if n =? 9 then String backslash "t"
  else if n =? 10 then String backslash "n"
  else if n =? 13 then String backslash "r"
  else if is_printable c then String c EmptyString
  else String backslash
         (String "x" (String (hex_digit (n / 16)) (String (hex_digit (n mod 16)) EmptyString))).

Fixpoint repr_body (q : ascii) (s : string) : string :=
  match s with
  | EmptyString => EmptyString
  | String c s' => repr_char q c ++ repr_body q s'
  end.

(** [repr(s)]: single quotes unless [s] holds a single and no double quote. *)
Definition repr (s : string) : string :=
  let q := if has_char quote s && negb (has_char dquote s) then dquote else quote in
  String q (repr_body q s ++ String q EmptyString).

(** [str(l)] for a list [l] of strings. *)
Definition str_of_list (l : list string) : string :=
  "[" ++ join ", " (map repr l) ++ "]".

(** [s.split()]: the maximal runs of non-whitespace characters.  [cur] is
    the run being read, reversed. *)
Fixpoint split_aux (cur : list ascii) (s : string) : list string :=
  match s with
  | EmptyString =>
      match cur with
      | [] => []
      | _ => [string_of_list_ascii (List.rev cur)]
      end
  | String c s' =>
      if is_space c then
        match cur with
        | [] => split_aux [] s'
        | _ => string_of_list_ascii (List.rev cur) :: split_aux [] s'
        end
      else split_aux (c :: cur) s'
  end.

Definition split (s : string) : list string := split_aux [] s.

Definition is_word_opt (c : option ascii) : bool :=
  match c with
  | Some c => is_word c
  | None => false
  end.

Definition head (s : string) : option ascii :=
  match s with
  | EmptyString => None
  | String c _ => Some c
  end.

(** [re.sub(r'\b \b', repl, s)], for a replacement [repl] without
    backslash: every space between two word characters becomes [repl].
    [prev] is the character before [s].  A replacement with a backslash is
    a template for [re.sub], which expands or refuses its escapes; the
    embedding does not cover it, and the statements on a replacement that
    is not fixed assume that it has no backslash.  The program passes " "
    and "&nbsp;". *)
Fixpoint sub_word_space_from (repl : string) (prev : option ascii) (s : string)
  : string :=
  match s with
  | EmptyString => EmptyString
  | String c s' =>
      if Ascii.eqb c " "%char && is_word_opt prev && is_word_opt (head s')
      then repl ++ sub_word_space_from repl (Some c) s'
      else String c (sub_word_space_from repl (Some c) s')
  end.

Definition sub_word_space (repl s : string) : string :=
  sub_word_space_from repl None s.

(** [re.sub("[^|]", "-", s)] *)
Fixpoint dash_all_but_bar (s : string) : string :=
  match s with
  | EmptyString => EmptyString
  | String c s' =>
      String (if Ascii.eqb c "|"%char then c else "-"%char) (dash_all_but_bar s')
  end.

(** [sorted(l)] on strings: insertion into an ascending list. *)
Fixpoint insert_sorted (x : string) (l : list string) : list string :=
  match l with
  | [] => [x]
  | y :: l' => if String.leb x y then x :: l else y :: insert_sorted x l'
  end.

Fixpoint sorted (l : list string) : list string :=
  match l with
  | [] => []
  | x :: l' => insert_sorted x (sorted l')
  end.

End PyStr.

Example repr_plain : PyStr.repr "All 3 os" = "'All 3 os'".
Proof. reflexivity. Qed.

Example repr_quote :
  PyStr.str_of_list ["it's"; "a"]
  = "[" ++ String PyStr.dquote "it's" ++ String PyStr.dquote ", 'a']".
Proof. reflexivity. Qed.

(** ** Dictionaries, in insertion order *)

Section Dict.

Variable V : Type.

Definition dict : Type := list (string * V).

Fixpoint dict_get (d : dict) (k : string) : option V :=
  match d with
  | [] => None
  | (k', v) :: d' => if k' =? k then Some v else dict_get d' k
  end.

Definition dict_keys (d : dict) : list string := map fst d.

(** [d.setdefault(k, default)] followed by the in-place update [f] of the
    value it returns: a new key goes to the end, an old one keeps its place. *)
Fixpoint dict_update (d : dict) (k : string) (default : V) (f : V -> V) : dict :=
  match d with
  | [] => [(k, f default)]
  | (k', v) :: d' =>
      if k' =? k then (k', f v) :: d'
      else (k', v) :: dict_update d' k default f
  end.

(** [d.setdefault(k, default)], for its effect on [d]. *)
Definition dict_setdefault (d : dict) (k : string) (default : V) : dict :=
  dict_update d k default (fun v => v).

(** What is left of [d] after [d.pop(k)]. *)
Definition dict_pop (d : dict) (k : string) : dict :=
  filter (fun kv => negb (fst kv =? k)) d.

End Dict.

(** ** Sets of strings, in insertion order *)

Abbreviation pyset := (list string) (only parsing).

Definition set_mem (x : string) (s : list string) : bool :=
  existsb (String.eqb x) s.

Definition set_add (x : string) (s : pyset) : pyset :=
  if set_mem x s then s else (s ++ [x])%list.

(** [set(l)] *)
Definition set_of_list (l : list string) : pyset :=
  fold_left (fun s x => set_add x s) l [].

(** [a.issubset(set(b))] *)
Definition set_subset (a b : list string) : bool :=
  forallb (fun x => set_mem x b) a.

(** [a == b] on two sets *)
Definition set_eq (a b : pyset) : bool := set_subset a b && set_subset b a.

Definition is_empty {A : Type} (l : list A) : bool :=
  match l with [] => true | _ => false end.

(** ** Constants of the script *)

Definition LIST_MAX : nat := 3.
Definition BUILD_FILE_PATTERN : string := "build-results-*.log.json".
Definition TEST_FILE_PATTERN : string := "test-results-*.log.json".

(** The two patterns, on either side of their star. *)
Definition BUILD_FILE_PREFIX : string := "build-results-".
Definition TEST_FILE_PREFIX : string := "test-results-".
Definition FILE_SUFFIX : string := ".log.json".

Example file_patterns :
  BUILD_FILE_PATTERN = BUILD_FILE_PREFIX ++ "*" ++ FILE_SUFFIX
  /\ TEST_FILE_PATTERN = TEST_FILE_PREFIX ++ "*" ++ FILE_SUFFIX.
Proof. split; reflexivity. Qed.

Definition TESTAPPS_HEADER : string := "Failures".
Definition CONFIGS_HEADER : string := "Configs".
Definition MISSING_LOG : string := "missing_log".
Definition LOG_HEADER : string := "INTEGRATION TEST FAILURES".
Definition DEFAULT_LIST_SEPARATOR : string := ", ".

(** ** Configuration vectors from file names *)

Abbreviation config := (list string) (only parsing).

(** The regular expression made of [re.escape(prefix)], one greedy group
    of any characters but newline, and [re.escape(suffix)], the expression
    that [summarize_logs] makes of [os.path.join(dir, pattern)], the
    pattern being [BUILD_FILE_PATTERN] or [TEST_FILE_PATTERN], whose only
    star separates [prefix] from [suffix], for a [dir] without star.  With
    a star in [dir] the expression of the program has one more group for
    each star of [dir], and the vector is read from the first of them: the
    embedding does not cover it, and the statements that depend on the
    vector read from a name assume that [dir] has no star. *)
Record name_re : Type := { re_prefix : string; re_suffix : string }.

Fixpoint drop (n : nat) (s : string) : string :=
  match n, s with
  | O, _ => s
  | S n', String _ s' => drop n' s'
  | S _, EmptyString => EmptyString
  end.

(** The greedy group (any characters but newline) followed by the literal
    [suffix], matched at the head of [t]: the longest run without newline
    after which [suffix] follows.  The result is the text of the group. *)
Fixpoint greedy_dot_star (suffix t : string) : option string :=
  let empty_group := if String.prefix suffix t then Some EmptyString else None in
  match t with
  | EmptyString => empty_group
  | String c t' =>
      if Ascii.eqb c PyStr.newline then empty_group
      else match greedy_dot_star suffix t' with
           | Some group => Some (String c group)
           | None => empty_group
           end
  end.

Definition match_here (re : name_re) (s : string) : option string :=
  if String.prefix (re_prefix re) s
  then greedy_dot_star (re_suffix re) (drop (String.length (re_prefix re)) s)
  else None.

(** [re.search(file_name_re, s)]: the leftmost match; its first group. *)
Fixpoint re_search (re : name_re) (s : string) : option string :=
  match match_here re s with
  | Some group => Some group
  | None =>
      match s with
      | EmptyString => None
      | String _ s' => re_search re s'
      end
  end.

Definition get_configs_from_file_name (file_name : string) (file_name_re : name_re)
  : result config :=
  match re_search file_name_re file_name with
  | None => Err AttributeError
  | Some configs =>
      let configs := PyStr.split (PyStr.replace_char "-"%char " "%char configs) in
      Ok (if set_mem "latest" configs
          then filter (fun config => negb (config =? "latest")) configs
          else configs)
  end.

Fixpoint ends_with_slash (s : string) : bool :=
  match s with
  | EmptyString => false
  | String c EmptyString => Ascii.eqb c "/"%char
  | String _ s' => ends_with_slash s'
  end.

(** [os.path.join(dir, name)] for a relative [name]. *)
Definition os_path_join (dir name : string) : string :=
  match dir with
  | EmptyString => name
  | _ => if ends_with_slash dir then dir ++ name else dir ++ "/" ++ name
  end.

Definition log_name_re (dir prefix : string) : name_re :=
  {| re_prefix := os_path_join dir prefix; re_suffix := FILE_SUFFIX |}.

(** ** Values that are a string or a list of strings *)

Inductive pyobj : Type :=
| PStr (s : string)
| PList (l : list string).

Definition py_str (o : pyobj) : string :=
  match o with
  | PStr s => s
  | PList l => PyStr.str_of_list l
  end.

Definition flat_config (configs : list pyobj) : string :=
  PyStr.join " " (map (fun conf => PyStr.remove_char PyStr.quote (py_str conf)) configs).

Example flat_config_doc :
  flat_config [PList ["TEST"]; PList ["FAILURE"]; PList ["iOS"]; PList ["macos"];
               PList ["simulator_min"; "simulator_target"]]
  = "[TEST] [FAILURE] [iOS] [macos] [simulator_min, simulator_target]".
Proof. reflexivity. Qed.

(** ** Log files *)

(** What the script reads of a parsed log: the test applications listed
    under each of the three keys, in the order of the JSON object.  [None]
    is a key that is absent, on which the subscript raises. *)
Record log_json : Type := {
  errors : option (list string);
  failures : option (list string);
  flakiness : option (list string)
}.

(** A file that [glob] found: its path, whether its text holds the marker
    [__SUMMARY_MISSING__], and what [json.loads] makes of its text ([None]
    when it raises). *)
Record log_file : Type := {
  file_name : string;
  has_sentinel : bool;
  json : option log_json
}.

(** The value of one test application in [log_data].  A list stands for the
    entry of the nested dictionary and the empty list for its absence: the
    script only appends to these entries and only tests whether one is
    absent or empty. *)
Record testapp_log : Type := {
  build : list config;
  test_errors : list config;
  test_failures : list config;
  test_flakiness : list config
}.

Definition no_log : testapp_log :=
  {| build := []; test_errors := []; test_failures := []; test_flakiness := [] |}.

Inductive category : Type :=
| BuildError
| TestError
| TestFailure
| TestFlakiness.

(** [entry.setdefault(...)....append(configs)] on the list of a category *)
Definition append_config (c : category) (configs : config) (entry : testapp_log)
  : testapp_log :=
  match c with
  | BuildError =>
      {| build := build entry ++ [configs]; test_errors := test_errors entry;
         test_failures := test_failures entry; test_flakiness := test_flakiness entry |}
  | TestError =>
      {| build := build entry; test_errors := test_errors entry ++ [configs];
         test_failures := test_failures entry; test_flakiness := test_flakiness entry |}
  | TestFailure =>
      {| build := build entry; test_errors := test_errors entry;
         test_failures := test_failures entry ++ [configs];
         test_flakiness := test_flakiness entry |}
  | TestFlakiness =>
      {| build := build entry; test_errors := test_errors entry;
         test_failures := test_failures entry;
         test_flakiness := test_flakiness entry ++ [configs] |}
  end.

Definition configs_of (c : category) (entry : testapp_log) : list config :=
  match c with
  | BuildError => build entry
  | TestError => test_errors entry
  | TestFailure => test_failures entry
  | TestFlakiness => test_flakiness entry
  end.

(** The local variables of the two reading loops of [summarize_logs]. *)
Record reading : Type := {
  success_or_only_flakiness : bool;
  log_data : dict testapp_log;
  build_configs : list config;
  test_configs : list config
}.

Definition start : reading :=
  {| success_or_only_flakiness := true; log_data := [];
     build_configs := []; test_configs := [] |}.

(** [log_data.setdefault(testapp, {})....append(configs)], with the flag
    set to [False] first unless the category is flakiness. *)
Definition record_config (c : category) (configs : config) (st : reading)
           (testapp : string) : reading :=
  {| success_or_only_flakiness :=
       match c with
       | TestFlakiness => success_or_only_flakiness st
       | _ => false
       end;
     log_data := dict_update (log_data st) testapp no_log (append_config c configs);
     build_configs := build_configs st;
     test_configs := test_configs st |}.

Definition record_all (c : category) (configs : config) (testapps : list string)
           (st : reading) : reading :=
  fold_left (record_config c configs) testapps st.

Definition tested_build (configs : config) (st : reading) : reading :=
  {| success_or_only_flakiness := success_or_only_flakiness st;
     log_data := log_data st;
     build_configs := build_configs st ++ [configs];
     test_configs := test_configs st |}.

Definition tested_test (configs : config) (st : reading) : reading :=
  {| success_or_only_flakiness := success_or_only_flakiness st;
     log_data := log_data st;
     build_configs := build_configs st;
     test_configs := test_configs st ++ [configs] |}.

(** [log_reader_data[key].items()] *)
Definition items (entry : option (list string)) : result (list string) :=
  match entry with
  | Some testapps => Ok testapps
  | None => Err KeyError
  end.

(** The body of the loop over the build logs. *)
Definition read_build_log (build_log_name_re : name_re) (st : reading)
           (build_log_file : log_file) : result reading :=
  configs <- get_configs_from_file_name (file_name build_log_file) build_log_name_re ;;
  let st := tested_build configs st in
  if has_sentinel build_log_file then
    Ok (record_config BuildError configs st MISSING_LOG)
  else
    match json build_log_file with
    | None => Err JSONDecodeError
    | Some log_reader_data =>
        testapps <- items (errors log_reader_data) ;;
        Ok (record_all BuildError configs testapps st)
    end.

(** The body of the loop over the test logs. *)
Definition read_test_log (test_log_name_re : name_re) (st : reading)
           (test_log_file : log_file) : result reading :=
  configs <- get_configs_from_file_name (file_name test_log_file) test_log_name_re ;;
  let st := tested_test configs st in
  if has_sentinel test_log_file then
    Ok (record_config TestError configs st MISSING_LOG)
  else
    match json test_log_file with
    | None => Err JSONDecodeError
    | Some log_reader_data =>
        testapps <- items (errors log_reader_data) ;;
        let st := record_all TestError configs testapps st in
        testapps <- items (failures log_reader_data) ;;
        let st := record_all TestFailure configs testapps st in
        testapps <- items (flakiness log_reader_data) ;;
        Ok (record_all TestFlakiness configs testapps st)
    end.

Definition read_logs (dir : string) (build_log_files test_log_files : list log_file)
  : result reading :=
  st <- foldM (read_build_log (log_name_re dir BUILD_FILE_PREFIX)) start build_log_files ;;
  foldM (read_test_log (log_name_re dir TEST_FILE_PREFIX)) st test_log_files.

(** ** Compaction and aggregation *)

(** The value of the variable [config] of [combine_config]: the set it
    receives, or the list it rebinds the name to. *)
Inductive collection : Type :=
| ASet (s : pyset)
| AList (l : list string).

Definition members (c : collection) : list string :=
  match c with
  | ASet s => s
  | AList l => l
  end.

(** The configurations that ran, by axis. *)
Record tested_axes : Type := {
  build_axes : list pyset;
  test_axes : list pyset
}.

(** ** Comparison of reorganized configurations *)

Module Configs.

(** [equals(configs_i, configs_j)]: the loop goes through the positions of
    [configs_i]; [configs_j[x]] raises when [configs_j] is shorter. *)
Fixpoint equals (configs_i configs_j : list (list string)) : result bool :=
  match configs_i with
  | [] => Ok true
  | values_i :: configs_i' =>
      match configs_j with
      | [] => Err IndexError
      | values_j :: configs_j' =>
          if set_eq (set_of_list values_i) (set_of_list values_j)
          then equals configs_i' configs_j'
          else Ok false
      end
  end.

(** [contains(configs_list, configs)] *)
Fixpoint contains (configs_list : list (list (list string)))
         (configs : list (list string)) : result bool :=
  match configs_list with
  | [] => Ok false
  | configs_x :: configs_list' =>
      same <- equals configs_x configs ;;
      if same then Ok true else contains configs_list' configs
  end.

End Configs.

(** The aggregated result: test application, then label, then failed tests. *)
Abbreviation results := (dict (dict (list string))) (only parsing).

(** One recorded failure: category, test application, configuration. *)
Abbreviation entry := (category * string * list string)%type (only parsing).

Section Summarize.

(** Names of the configuration axes, by position. *)
Variable BUILD_CONFIGS : list string.

(** The description of each test device; the script reads its ["type"]. *)
Variable TEST_DEVICES : dict (dict string).

(** The order in which a set is iterated. *)
Variable set_iter : pyset -> list string.

Definition elements (c : collection) : list string :=
  match c with
  | ASet s => set_iter s
  | AList l => l
  end.

(** [add_row configs_i j sets]: [sets[j'].add(configs_i[j'])] for the
    positions [j' >= j], [sets] being the sets from position [j] on. *)
Fixpoint add_row (configs_i : config) (j : nat) (sets : list pyset)
  : result (list pyset) :=
  match sets with
  | [] => Ok []
  | s :: sets' =>
      match nth_error configs_i j with
      | None => Err IndexError
      | Some value =>
          sets'' <- add_row configs_i (S j) sets' ;;
          Ok (set_add value s :: sets'')
      end
  end.

Definition reorganize_configs (configs : list config) : result (list pyset) :=
  match configs with
  | [] => Ok []
  | _ =>
      sets <- foldM (fun sets configs_i => add_row configs_i 0 sets)
                    (repeat [] (List.length BUILD_CONFIGS)) configs ;;
      Ok (filter (fun s => negb (is_empty s)) sets)
  end.

Definition reorganize_all_tested_configs (st : reading) : result tested_axes :=
  build_configs <- reorganize_configs (build_configs st) ;;
  test_configs <- reorganize_configs (test_configs st) ;;
  Ok {| build_axes := build_configs; test_axes := test_configs |}.

(** The [lambda] of the two filters of [combine_config]. *)
Definition device_has_type (kind device : string) : result bool :=
  match dict_get TEST_DEVICES device with
  | None => Ok false
  | Some [] => Ok false
  | Some info =>
      match dict_get info "type" with
      | None => Err TypeError
      | Some type => Ok (PyStr.py_in type kind)
      end
  end.

Fixpoint filter_devices (kind : string) (devices : list string)
  : result (list string) :=
  match devices with
  | [] => Ok []
  | device :: devices' =>
      keep <- device_has_type kind device ;;
      kept <- filter_devices kind devices' ;;
      Ok (if keep then device :: kept else kept)
  end.

(** [set(filter(lambda ..., config_value))] *)
Definition devices_of_type (kind : string) (config_value : pyset) : result pyset :=
  kept <- filter_devices kind (set_iter config_value) ;;
  Ok (set_of_list kept).

(** One of the two [if]s under [elif config_name == "Test Device(s)"]:
    [config.add(label)] needs [config] to be a set still. *)
Definition collapse_devices (label : string) (devices : pyset) (config : collection)
  : result collection :=
  if (1 <? List.length devices)%nat && set_subset devices (members config) then
    match config with
    | ASet s =>
        Ok (AList (filter (fun x => negb (set_mem x devices))
                          (set_iter (set_add label s))))
    | AList _ => Err AttributeError
    end
  else Ok config.

(** [config_before_combination == config] *)
Definition unchanged (config_before_combination : pyset) (config : collection) : bool :=
  match config with
  | ASet s => set_eq config_before_combination s
  | AList _ => false
  end.

Definition combine_config (config config_value : pyset) (k : nat)
  : result (list string) :=
  let config_before_combination := config in
  match nth_error BUILD_CONFIGS k with
  | None => Err IndexError
  | Some config_name =>
      config <-
        (if (1 <? List.length config_value)%nat
            && (List.length config =? List.length config_value)%nat
         then Ok (AList ["All " ++ PyStr.dec (List.length config_value)
                                ++ " " ++ config_name])
         else if config_name =? "Test Device(s)" then
           ftl_devices <- devices_of_type "real" config_value ;;
           virtual_devices <- devices_of_type "virtual" config_value ;;
           config <- collapse_devices
                       ("All " ++ PyStr.dec (List.length ftl_devices) ++ " FTL Devices")
                       ftl_devices (ASet config) ;;
           collapse_devices
             ("All " ++ PyStr.dec (List.length virtual_devices) ++ " Virtual Devices")
             virtual_devices config
         else Ok (ASet config)) ;;
      let config :=
        if (1 <? List.length config_value)%nat
           && unchanged config_before_combination config
        then AList [PyStr.dec (List.length (members config)) ++ "/"
                    ++ PyStr.dec (List.length config_value) ++ " " ++ config_name
                    ++ ": " ++ flat_config (map PStr (elements config))]
        else config in
      Ok (elements config)
  end.

(** The loop of [combine_configs], from position [i] on. *)
Fixpoint combine_configs_from (i : nat) (error_configs all_configs : list pyset)
  : result (list (list string)) :=
  match error_configs with
  | [] => Ok []
  | error_config :: error_configs' =>
      match nth_error all_configs i with
      | None => Err IndexError
      | Some config_value =>
          combined <- combine_config error_config config_value i ;;
          rest <- combine_configs_from (S i) error_configs' all_configs ;;
          Ok (combined :: rest)
      end
  end.

Definition combine_configs (error_configs all_configs : list pyset)
  : result (list (list string)) :=
  combine_configs_from 0 error_configs all_configs.

Definition category_words (c : category) : list pyobj :=
  match c with
  | BuildError => [PList ["BUILD"]; PList ["ERROR"]]
  | TestError => [PList ["TEST"]; PList ["ERROR"]]
  | TestFailure => [PList ["TEST"]; PList ["FAILURE"]]
  | TestFlakiness => [PList ["TEST"]; PList ["FLAKINESS"]]
  end.

Definition axes_of (c : category) (all_tested_configs : tested_axes) : list pyset :=
  match c with
  | BuildError => build_axes all_tested_configs
  | _ => test_axes all_tested_configs
  end.

(** One of the four [if] blocks of the loop of [reorganize_log]. *)
Definition reorganize_category (c : category) (testapp : string) (errors : testapp_log)
           (all_tested_configs : tested_axes) (log_results : results)
  : result results :=
  match configs_of c errors with
  | [] => Ok log_results
  | failing =>
      reorganized_configs <- reorganize_configs failing ;;
      combined_configs <- combine_configs reorganized_configs
                                          (axes_of c all_tested_configs) ;;
      let all_configs := (category_words c ++ map PList combined_configs)%list in
      Ok (dict_update log_results testapp []
                      (fun cell => dict_setdefault cell (flat_config all_configs) []))
  end.

Definition reorganize_testapp (all_tested_configs : tested_axes) (log_results : results)
           (item : string * testapp_log) : result results :=
  let (testapp, errors) := item in
  log_results <- reorganize_category BuildError testapp errors all_tested_configs log_results ;;
  log_results <- reorganize_category TestError testapp errors all_tested_configs log_results ;;
  log_results <- reorganize_category TestFailure testapp errors all_tested_configs log_results ;;
  reorganize_category TestFlakiness testapp errors all_tested_configs log_results.

Definition reorganize_log (log_data : dict testapp_log) (all_tested_configs : tested_axes)
  : result results :=
  foldM (reorganize_testapp all_tested_configs) [] log_data.

(** ** Rendering *)

Definition format_entry (space_char list_separator : string)
           (item : string * list string) : string :=
  let (config, tests) := item in
  if (0 <? List.length tests)%nat then
    config ++ "<details><summary>(" ++ PyStr.dec (List.length tests)
           ++ " failed tests)</summary>"
           ++ PyStr.join list_separator
                (PyStr.sorted (map (fun test => space_char ++ space_char ++ test) tests))
           ++ "</details>"
  else config ++ list_separator.

Definition format_result (config_tests : dict (list string))
           (space_char list_separator : string) (justify : nat) : string :=
  let config_set := set_of_list (map (format_entry space_char list_separator) config_tests) in
  if (LIST_MAX <? List.length config_set)%nat then
    "<details><summary>(" ++ PyStr.dec (List.length config_set) ++ " items)</summary>"
      ++ PyStr.join EmptyString (PyStr.sorted config_set) ++ "</details>"
  else PyStr.ljust (PyStr.join EmptyString (PyStr.sorted config_set)) justify.

(** [("|" + " %s |" * 2) % (left, right)] *)
Definition table_row (left right : string) : string :=
  "|" ++ " " ++ left ++ " |" ++ " " ++ right ++ " |".

(** [("|" + "-%s-|" * 2) % (left, right)] *)
Definition table_rule (left right : string) : string :=
  "|" ++ "-" ++ left ++ "-|" ++ "-" ++ right ++ "-|".

(** The row of one test application. *)
Definition testapp_row (testapps_width configs_width : nat)
           (space_char list_separator : string)
           (testapp : string) (config_tests : dict (list string)) : string :=
  table_row (PyStr.sub_word_space space_char (PyStr.ljust testapp testapps_width))
            (format_result config_tests space_char list_separator configs_width).

(** [log_results[testapp]] for a key of [log_results] *)
Definition cell_of (log_results : results) (testapp : string) : dict (list string) :=
  match dict_get log_results testapp with
  | Some config_tests => config_tests
  | None => []
  end.

Definition print_table (log_results : results) (testapps_width configs_width : nat)
           (space_char list_separator : string) : list string :=
  let headers :=
    (PyStr.sub_word_space space_char (PyStr.ljust TESTAPPS_HEADER testapps_width),
     PyStr.sub_word_space space_char (PyStr.ljust CONFIGS_HEADER configs_width)) in
  let output_lines :=
    [table_row (fst headers) (snd headers);
     table_rule (PyStr.dash_all_but_bar (fst headers))
                (PyStr.dash_all_but_bar (snd headers))] in
  let output_lines :=
    match dict_get log_results MISSING_LOG with
    | Some config_tests =>
        (output_lines
           ++ [testapp_row testapps_width configs_width space_char list_separator
                           MISSING_LOG config_tests])%list
    | None => output_lines
    end in
  let log_results := dict_pop log_results MISSING_LOG in
  (output_lines
     ++ map (fun testapp =>
               testapp_row testapps_width configs_width space_char list_separator
                           testapp (cell_of log_results testapp))
            (PyStr.sorted (dict_keys log_results)))%list.

(** The lines of one configuration label in [print_log]. *)
Definition config_lines (item : string * list string) : list string :=
  let (config, extra) := item in
  ("  - " ++ config)
    :: (if is_empty extra then []
        else ["    - failed tests: " ++ py_str (PList extra)]).

(** The lines of one test application in [print_log]. *)
Definition testapp_lines (item : string * dict (list string)) : list string :=
  let (testapps, configs) := item in
  EmptyString
    :: (testapps ++ ":")
    :: List.app
         (if (0 <? List.length configs)%nat
          then ["  Errors and Failures (" ++ PyStr.dec (List.length configs) ++ "):"]
          else [])
         (flat_map config_lines configs).

Definition print_log (log_results : results) : list string :=
  tl (flat_map testapp_lines log_results).

(** The character U+2014, as its three UTF-8 bytes. *)
Definition em_dash : string :=
  String (ascii_of_nat 226) (String (ascii_of_nat 128)
    (String (ascii_of_nat 148) EmptyString)).

Fixpoint repeat_string (s : string) (n : nat) : string :=
  match n with
  | O => EmptyString
  | S n' => s ++ repeat_string s n'
  end.

Definition print_github_log (log_results : results) : list string :=
  let output_lines :=
    List.app ["::error ::" ++ LOG_HEADER;
              repeat_string em_dash (String.length LOG_HEADER);
              EmptyString]
             (print_log log_results) in
  [PyStr.join "%0A" output_lines].

Definition print_markdown_table (log_results : results) : list string :=
  print_table log_results 0 0 "&nbsp;" "<br/>".

(** ** The whole run *)

(** What a call of [summarize_logs] leaves: the text it printed, if any,
    and the pair it returns. *)
Record outcome : Type := {
  printed : option string;
  returned : bool * option string
}.

Definition summarize_logs (dir : string) (build_log_files test_log_files : list log_file)
           (markdown github_log : bool) : result outcome :=
  st <- read_logs dir build_log_files test_log_files ;;
  if success_or_only_flakiness st && is_empty (log_data st) then
    Ok {| printed := None; returned := (success_or_only_flakiness st, None) |}
  else
    all_tested_configs <- reorganize_all_tested_configs st ;;
    log_results <- reorganize_log (log_data st) all_tested_configs ;;
    let log_lines :=
      if markdown then print_markdown_table log_results
      else if github_log then print_github_log log_results
      else print_log log_results in
    let log_summary := PyStr.join (String PyStr.newline EmptyString) log_lines in
    Ok {| printed := Some log_summary;
          returned := (success_or_only_flakiness st, Some log_summary) |}.

(** ** Notions used in the statements *)

(** The iteration order of a set lists its elements, each once. *)
Definition iteration_order : Prop :=
  forall s : pyset, NoDup s -> Permutation (set_iter s) s.

(** Neither group of devices is folded into one label: the axis is not the
    device axis, or no group of two or more devices of one type failed as a
    whole. *)
Definition no_device_collapse (config_name : string) (config config_value : pyset)
  : Prop :=
  config_name <> "Test Device(s)"
  \/ exists ftl_devices virtual_devices,
      devices_of_type "real" config_value = Ok ftl_devices
      /\ devices_of_type "virtual" config_value = Ok virtual_devices
      /\ (1 <? List.length ftl_devices)%nat && set_subset ftl_devices config = false
      /\ (1 <? List.length virtual_devices)%nat && set_subset virtual_devices config = false.

(** [sub] occurs in [s]. *)
Definition contains (sub s : string) : Prop :=
  exists before after, s = before ++ sub ++ after.

(** A set iterated in the order of insertion, for the concrete runs. *)
Definition insertion_order (s : pyset) : list string := s.

(** What a log adds to [log_data]: the categories and test applications
    under which the configuration of its file is recorded. *)
Definition build_entries (f : log_file) : result (list (category * string)) :=
  if has_sentinel f then Ok [(BuildError, MISSING_LOG)]
  else match json f with
       | None => Err JSONDecodeError
       | Some data =>
           testapps <- items (errors data) ;;
           Ok (map (pair BuildError) testapps)
       end.

Definition test_entries (f : log_file) : result (list (category * string)) :=
  if has_sentinel f then Ok [(TestError, MISSING_LOG)]
  else match json f with
       | None => Err JSONDecodeError
       | Some data =>
           with_errors <- items (errors data) ;;
           with_failures <- items (failures data) ;;
           with_flakiness <- items (flakiness data) ;;
           Ok (map (pair TestError) with_errors
                 ++ map (pair TestFailure) with_failures
                 ++ map (pair TestFlakiness) with_flakiness)%list
       end.

Definition value_or {A : Type} (default : A) (r : result A) : A :=
  match r with
  | Ok a => a
  | Err _ => default
  end.

(** The configuration vector of a file. *)
Definition config_of (re : name_re) (f : log_file) : config :=
  value_or [] (get_configs_from_file_name (file_name f) re).

Definition entries_of (entries : log_file -> result (list (category * string)))
           (re : name_re) (f : log_file) : list entry :=
  map (fun e => (e, config_of re f)) (value_or [] (entries f)).

(** All that the logs of a directory record, in the order of the reading. *)
Definition recorded (dir : string) (build_log_files test_log_files : list log_file)
  : list entry :=
  (flat_map (entries_of build_entries (log_name_re dir BUILD_FILE_PREFIX)) build_log_files
     ++ flat_map (entries_of test_entries (log_name_re dir TEST_FILE_PREFIX)) test_log_files)%list.

Definition record_entry (data : dict testapp_log) (e : entry) : dict testapp_log :=
  let '(c, testapp, configs) := e in
  dict_update data testapp no_log (append_config c configs).

Definition is_flakiness (e : entry) : bool :=
  match e with
  | (TestFlakiness, _, _) => true
  | _ => false
  end.

(** A log that the reading loops go through without exception. *)
Definition readable (entries : log_file -> result (list (category * string)))
           (re : name_re) (f : log_file) : Prop :=
  is_ok (get_configs_from_file_name (file_name f) re) = true
  /\ is_ok (entries f) = true.

Definition readable_logs (dir : string) (build_log_files test_log_files : list log_file)
  : Prop :=
  Forall (readable build_entries (log_name_re dir BUILD_FILE_PREFIX)) build_log_files
  /\ Forall (readable test_entries (log_name_re dir TEST_FILE_PREFIX)) test_log_files.

(** The reading state once the entries [es] are recorded. *)
Definition record_entries (es : list entry) (st : reading) : reading :=
  {| success_or_only_flakiness := success_or_only_flakiness st && forallb is_flakiness es;
     log_data := fold_left record_entry es (log_data st);
     build_configs := build_configs st;
     test_configs := test_configs st |}.

(** The reading state at the end of the two loops. *)
Definition read_state (dir : string) (build_log_files test_log_files : list log_file)
  : reading :=
  {| success_or_only_flakiness :=
       forallb is_flakiness (recorded dir build_log_files test_log_files);
     log_data := fold_left record_entry (recorded dir build_log_files test_log_files) [];
     build_configs := map (config_of (log_name_re dir BUILD_FILE_PREFIX)) build_log_files;
     test_configs := map (config_of (log_name_re dir TEST_FILE_PREFIX)) test_log_files |}.

(** The path of the log of the matrix cell [cell], as [glob] returns it. *)
Definition log_name (dir prefix cell : string) : string :=
  os_path_join dir prefix ++ cell ++ FILE_SUFFIX.

(** A path that [glob] returned for the pattern with this prefix. *)
Definition found_by_glob (dir prefix : string) (f : log_file) : Prop :=
  exists cell,
    PyStr.has_char PyStr.newline cell = false /\ file_name f = log_name dir prefix cell.

(** A build log without the marker and with nothing under ["errors"]. *)
Definition quiet_build_log (dir : string) (f : log_file) : Prop :=
  found_by_glob dir BUILD_FILE_PREFIX f
  /\ has_sentinel f = false
  /\ exists data, json f = Some data /\ errors data = Some [].

(** A test log without the marker and with nothing under its three keys. *)
Definition quiet_test_log (dir : string) (f : log_file) : Prop :=
  found_by_glob dir TEST_FILE_PREFIX f
  /\ has_sentinel f = false
  /\ exists data,
      json f = Some data /\ errors data = Some []
      /\ failures data = Some [] /\ flakiness data = Some [].

(** [value] is at position [k] of one of the vectors [configs]. *)
Definition column (k : nat) (configs : list config) (value : string) : Prop :=
  exists configs_i, In configs_i configs /\ nth_error configs_i k = Some value.

(** A device that [TEST_DEVICES] describes as real or as virtual. *)
Definition known_device (device : string) : Prop :=
  device_has_type "real" device = Ok true \/ device_has_type "virtual" device = Ok true.

(** A vector with a value for each axis, the value on the device axis, if
    there is one, being a known device. *)
Definition complete_config (configs : config) : Prop :=
  List.length BUILD_CONFIGS <= List.length configs
  /\ forall k device,
      nth_error BUILD_CONFIGS k = Some "Test Device(s)" ->
      nth_error configs k = Some device -> known_device device.

(** A vector that the compaction accepts: complete, and without space in
    its components (as the vectors made from file names are). *)
Definition sound_config (configs : config) : Prop :=
  complete_config configs
  /\ forall value, In value configs -> PyStr.has_char " "%char value = false.

(** The vectors that ran, for the logs of the kind of category [c]. *)
Definition vectors_of (c : category) (st : reading) : list config :=
  match c with
  | BuildError => build_configs st
  | _ => test_configs st
  end.

(** Every failing vector of the entry is one that ran. *)
Definition sound_entry (st : reading) (errors : testapp_log) : Prop :=
  forall c, incl (configs_of c errors) (vectors_of c st).

(** The reading state that the aggregation accepts. *)
Definition sound_reading (st : reading) : Prop :=
  Forall sound_config (build_configs st)
  /\ Forall sound_config (test_configs st)
  /\ forall testapp errors, In (testapp, errors) (log_data st) -> sound_entry st errors.

(** Every log yields a vector that is complete. *)
Definition complete_logs (dir : string) (build_log_files test_log_files : list log_file)
  : Prop :=
  Forall (fun f => complete_config (config_of (log_name_re dir BUILD_FILE_PREFIX) f))
         build_log_files
  /\ Forall (fun f => complete_config (config_of (log_name_re dir TEST_FILE_PREFIX) f))
            test_log_files.

(** The text that [summarize_logs] makes of the aggregated result. *)
Definition render (markdown github_log : bool) (log_results : results) : string :=
  PyStr.join (String PyStr.newline EmptyString)
             (if markdown then print_markdown_table log_results
              else if github_log then print_github_log log_results
              else print_log log_results).

(** The shape of a cell of the aggregated result: some labels, pairwise
    distinct, each with an empty list of failed tests. *)
Definition plain_cell (config_tests : dict (list string)) : Prop :=
  config_tests <> []
  /\ NoDup (dict_keys config_tests)
  /\ forall label tests, In (label, tests) config_tests -> tests = [].

(** The invariant of the loop of [reorganize_log]. *)
Definition plain_results (log_results : results) : Prop :=
  NoDup (dict_keys log_results)
  /\ forall testapp cell, In (testapp, cell) log_results -> plain_cell cell.

(** Ascending in the order of [str]. *)
Definition ascending (l : list string) : Prop :=
  Sorted (fun a b => String.leb a b = true) l.

(** A test log without the marker, with nothing under ["errors"] and
    ["failures"]. *)
Definition flaky_test_log (dir : string) (f : log_file) : Prop :=
  found_by_glob dir TEST_FILE_PREFIX f
  /\ has_sentinel f = false
  /\ exists data testapps,
      json f = Some data /\ errors data = Some []
      /\ failures data = Some [] /\ flakiness data = Some testapps.

(** A log with an entry under ["flakiness"]. *)
Definition has_flakiness (f : log_file) : Prop :=
  exists data testapp testapps,
    json f = Some data /\ flakiness data = Some (testapp :: testapps).

(** [print_log] with its branch [if extra:] taken out. *)
Definition testapp_lines_plain (item : string * dict (list string)) : list string :=
  let (testapps, configs) := item in
  EmptyString
    :: (testapps ++ ":")
    :: List.app
         (if (0 <? List.length configs)%nat
          then ["  Errors and Failures (" ++ PyStr.dec (List.length configs) ++ "):"]
          else [])
         (map (fun item => "  - " ++ fst item) configs).

Definition print_log_plain (log_results : results) : list string :=
  tl (flat_map testapp_lines_plain log_results).

(** [format_result] with its branch [if len(tests) > 0:] taken out. *)
Definition format_result_plain (config_tests : dict (list string))
           (list_separator : string) (justify : nat) : string :=
  let config_set :=
    set_of_list (map (fun item => fst item ++ list_separator) config_tests) in
  if (LIST_MAX <? List.length config_set)%nat then
    "<details><summary>(" ++ PyStr.dec (List.length config_set) ++ " items)</summary>"
      ++ PyStr.join EmptyString (PyStr.sorted config_set) ++ "</details>"
  else PyStr.ljust (PyStr.join EmptyString (PyStr.sorted config_set)) justify.

(** The two words that open the label of a category. *)
Definition category_text (c : category) : string :=
  match c with
  | BuildError => "[BUILD] [ERROR]"
  | TestError => "[TEST] [ERROR]"
  | TestFailure => "[TEST] [FAILURE]"
  | TestFlakiness => "[TEST] [FLAKINESS]"
  end.

Definition line_break : string := String PyStr.newline EmptyString.

(** The text log of a result with one test application and one label. *)
Definition single_log_text (testapp label : string) : string :=
  testapp ++ ":" ++ line_break
    ++ "  Errors and Failures (1):" ++ line_break
    ++ "  - " ++ label.

(** The Markdown table of a result with one test application, written
    [name] in the table, and one label. *)
Definition single_table_text (name label : string) : string :=
  "| Failures | Configs |" ++ line_break
    ++ "|----------|---------|" ++ line_break
    ++ "| " ++ name ++ " | " ++ label ++ "<br/>" ++ " |".

(** Modelled from the spec: the workflow that names the log of a matrix
    cell is not among the sources.  The spec says that file names encode
    configuration vectors; the encoding taken here is the one that
    [get_configs_from_file_name] undoes, the components joined by "-". *)
Definition file_name_of_configs (dir prefix : string) (configs : config) : string :=
  log_name dir prefix (PyStr.join "-" configs).

(** A component that the file name keeps as it is: not empty, not the
    word "latest", without "-" and without whitespace. *)
Definition plain_component (value : string) : Prop :=
  value <> EmptyString /\ value <> "latest"
  /\ forall c, In c (list_ascii_of_string value) ->
               c <> "-"%char /\ PyStr.is_space c = false.

(** The label that [reorganize_log] gives to the configurations [failing]
    of a category, [tested] being those that ran. *)
Definition label_of (c : category) (failing tested : list config) : result string :=
  all_configs <- reorganize_configs tested ;;
  reorganized_configs <- reorganize_configs failing ;;
  combined_configs <- combine_configs reorganized_configs all_configs ;;
  Ok (flat_config (category_words c ++ map PList combined_configs)).

(** ** A small matrix, for the concrete runs *)

Definition sample_axes : list string := ["os"; "Test Device(s)"].

Definition sample_devices : dict (dict string) :=
  [("emulator", [("type", "virtual")]); ("pixel", [("type", "real")])].

Definition log_with (name : string) (with_errors with_failures with_flakiness : list string)
  : log_file :=
  {| file_name := name;
     has_sentinel := false;
     json := Some {| errors := Some with_errors;
                     failures := Some with_failures;
                     flakiness := Some with_flakiness |} |}.

Definition build_log_quiet : log_file :=
  log_with "ci/build-results-ubuntu-latest-emulator.log.json" [] [] [].

Definition test_log_quiet : log_file :=
  log_with "ci/test-results-ubuntu-latest-emulator.log.json" [] [] [].

Definition test_log_flaky : log_file :=
  log_with "ci/test-results-macos-latest-pixel.log.json" [] [] ["auth"].

Definition test_log_failing : log_file :=
  log_with "ci/test-results-macos-latest-pixel.log.json" [] ["my app"] [].

Definition test_log_missing : log_file :=
  {| file_name := "ci/test-results-windows-latest-pixel.log.json";
     has_sentinel := true;
     json := None |}.

(** A test application that failed in each of the four categories. *)
Definition sample_data : dict testapp_log :=
  [("auth", {| build := [["ubuntu"; "emulator"]];
               test_errors := [["ubuntu"; "emulator"]];
               test_failures := [["macos"; "pixel"]];
               test_flakiness := [["ubuntu"; "emulator"]; ["macos"; "pixel"]] |})].

Definition sample_tested : tested_axes :=
  {| build_axes := [["ubuntu"]; ["emulator"]];
     test_axes := [["ubuntu"; "macos"]; ["emulator"; "pixel"]] |}.

(** The expression of [re] matches somewhere in [s]: its prefix, a group
    without newline, its suffix. *)
Definition name_matches (re : name_re) (s : string) : Prop :=
  exists before group after,
    s = before ++ re_prefix re ++ group ++ re_suffix re ++ after
    /\ PyStr.has_char PyStr.newline group = false.

(** The test application of a recorded failure. *)
Definition testapp_of (e : entry) : string := snd (fst e).

(** The test application failed in some category. *)
Definition has_failure (errors : testapp_log) : bool :=
  negb (is_empty (build errors)) || negb (is_empty (test_errors errors))
  || negb (is_empty (test_failures errors)) || negb (is_empty (test_flakiness errors)).

(** The categories, in the order in which [reorganize_log] goes through
    them, and those in which a test application failed. *)
Definition all_categories : list category :=
  [BuildError; TestError; TestFailure; TestFlakiness].

Definition failed_categories (errors : testapp_log) : list category :=
  filter (fun c => negb (is_empty (configs_of c errors))) all_categories.

(** The cell made of the labels [labels], none with a failed test. *)
Definition cell_of_labels (labels : list string) : dict (list string) :=
  map (fun label => (label, @nil string)) labels.

(** The label [label] begins with the words of the category [c]. *)
Definition starts_with (c : category) (label : string) : Prop :=
  String.prefix (category_text c) label = true.

(** The cell of [testapp] in [log_results] is made of [labels]; there is
    none when there is no label. *)
Definition cell_state (log_results : results) (testapp : string) (labels : list string)
  : Prop :=
  dict_get log_results testapp
  = match labels with
    | [] => None
    | _ => Some (cell_of_labels labels)
    end.

(** A string that [repr] writes between apostrophes without change: its
    characters are printable and are neither an apostrophe nor a backslash. *)
Definition simple_string (s : string) : Prop :=
  forall c, In c (list_ascii_of_string s) ->
            PyStr.is_printable c = true /\ c <> PyStr.quote /\ c <> PyStr.backslash.

(** Two lists with the same elements, whatever their order and number. *)
Definition same_elements (a b : list string) : Prop :=
  forall value, In value a <-> In value b.

(** Two cells hold the same entries: the same labels, each with the same
    failed tests, the entries and the tests of an entry in any order. *)
Definition same_tests (x y : string * list string) : Prop :=
  fst x = fst y /\ Permutation (snd x) (snd y).

Definition same_entries (config_tests config_tests' : dict (list string)) : Prop :=
  exists reordered,
    Forall2 same_tests config_tests reordered
    /\ Permutation reordered config_tests'.

(** ** A device farm and broken logs, for the concrete runs *)

Definition sample_farm : dict (dict string) :=
  [("pixel", [("type", "real")]); ("galaxy", [("type", "real")]);
   ("emulator", [("type", "virtual")]); ("simulator", [("type", "virtual")])].

(** A build log cut short: it does not end with the sentinel and is not
    a JSON text. *)
Definition build_log_truncated : log_file :=
  {| file_name := "ci/build-results-macos-latest-pixel.log.json";
     has_sentinel := false;
     json := None |}.

(** A test log whose JSON object has no key "flakiness". *)
Definition test_log_no_flakiness : log_file :=
  {| file_name := "ci/test-results-macos-latest-pixel.log.json";
     has_sentinel := false;
     json := Some {| errors := Some []; failures := Some ["auth"]; flakiness := None |} |}.

(** The axes of the runs of [build_log_quiet] and of the three test logs
    [test_log_missing], [test_log_flaky] and [test_log_quiet]. *)
Definition sample_tested_all : tested_axes :=
  {| build_axes := [["ubuntu"]; ["emulator"]];
     test_axes := [["windows"; "macos"; "ubuntu"]; ["pixel"; "emulator"]] |}.

(** The results of one test application that failed in one category. *)
Definition sample_results : results :=
  [("my app", [("[TEST] [FAILURE] [macos] [pixel]", [])])].

(** The results of two test applications and of a log that is missing,
    in the order in which the logs mention them. *)
Definition sample_table : results :=
  [("storage", [("[TEST] [FAILURE] [macos] [pixel]", [])]);
   (MISSING_LOG, [("[TEST] [ERROR] [windows] [pixel]", [])]);
   ("auth", [("[BUILD] [ERROR] [ubuntu] [emulator]", [])])].

(** A device whose description, if [TEST_DEVICES] has one that is not
    empty, has a type: the filters of [combine_config] raise no
    [TypeError] on it.  A device that [TEST_DEVICES] does not list is one. *)
Definition typed_device (device : string) : Prop :=
  match dict_get TEST_DEVICES device with
  | Some (item :: info) => dict_get (item :: info) "type" <> None
  | _ => True
  end.

(** A vector with a value for each axis, the value on the device axis, if
    there is one, being a typed device. *)
Definition usable_config (configs : config) : Prop :=
  List.length BUILD_CONFIGS <= List.length configs
  /\ forall k device,
      nth_error BUILD_CONFIGS k = Some "Test Device(s)" ->
      nth_error configs k = Some device -> typed_device device.

(** Every log yields a vector that is usable. *)
Definition usable_logs (dir : string) (build_log_files test_log_files : list log_file)
  : Prop :=
  Forall (fun f => usable_config (config_of (log_name_re dir BUILD_FILE_PREFIX) f))
         build_log_files
  /\ Forall (fun f => usable_config (config_of (log_name_re dir TEST_FILE_PREFIX) f))
            test_log_files.

(** A test log of a run on a device that [sample_devices] does not list,
    with one failure. *)
Definition test_log_failing_desktop : log_file :=
  log_with "ci/test-results-macos-latest-desktop.log.json" [] ["my app"] [].

(** ** Runs on a farm of two real and two virtual devices *)

Definition farm_devices : list string := ["pixel"; "galaxy"; "emulator"; "simulator"].

Definition test_log_name (device : string) : string :=
  "ci/test-results-ubuntu-latest-" ++ device ++ ".log.json".

(** The test log of a run on [device] whose summary is missing. *)
Definition missing_log_on (device : string) : log_file :=
  {| file_name := test_log_name device; has_sentinel := true; json := None |}.

(** The test log of a run on [device] in which "auth" was flaky. *)
Definition flaky_log_on (device : string) : log_file :=
  log_with (test_log_name device) [] [] ["auth"].

(** The test log of a run on [device] with nothing to report. *)
Definition quiet_log_on (device : string) : log_file :=
  log_with (test_log_name device) [] [] [].

(** * Properties *)

(** ** Results and monadic folds *)

Lemma bind_ok {A B : Type} (r : result A) (k : A -> result B) (b : B) :
  bind r k = Ok b -> exists a, r = Ok a /\ k a = Ok b.
Proof.
  destruct r as [a | e]; simpl; intro H.
  - exists a; split; [reflexivity | exact H].
  - discriminate H.
Qed.

Lemma foldM_invariant {A B : Type} (P : A -> Prop) (f : A -> B -> result A) :
  (forall acc x acc', P acc -> f acc x = Ok acc' -> P acc') ->
  forall xs acc acc', P acc -> foldM f acc xs = Ok acc' -> P acc'.
Proof.
  intros step xs; induction xs as [| x xs IH]; simpl; intros acc acc' Hacc H.
  - injection H as <-; exact Hacc.
  - apply bind_ok in H as (mid & Hmid & Hrest).
    eapply IH; [eapply step; eassumption | exact Hrest].
Qed.

Lemma foldM_app {A B : Type} (f : A -> B -> result A) (xs ys : list B) (acc : A) :
  foldM f acc (xs ++ ys) = (acc' <- foldM f acc xs ;; foldM f acc' ys).
Proof.
  revert acc; induction xs as [| x xs IH]; simpl; intro acc.
  - reflexivity.
  - destruct (f acc x) as [mid | e]; simpl; [apply IH | reflexivity].
Qed.

(** ** Sets *)

Lemma set_mem_In (x : string) (s : list string) : set_mem x s = true <-> In x s.
Proof.
  unfold set_mem; rewrite existsb_exists; split.
  - intros (y & Hy & Heq); apply String.eqb_eq in Heq; subst; exact Hy.
  - intro H; exists x; split; [exact H | apply String.eqb_refl].
Qed.

Lemma set_mem_false (x : string) (s : list string) : set_mem x s = false <-> ~ In x s.
Proof.
  rewrite <- set_mem_In; destruct (set_mem x s); split; congruence.
Qed.

Lemma set_subset_incl (a b : list string) : set_subset a b = true <-> incl a b.
Proof.
  unfold set_subset; rewrite forallb_forall; unfold incl.
  split; intros H x Hx; apply set_mem_In; apply H; exact Hx.
Qed.

Lemma set_subset_refl (a : list string) : set_subset a a = true.
Proof. apply set_subset_incl, incl_refl. Qed.

Lemma set_eq_refl (a : pyset) : set_eq a a = true.
Proof. unfold set_eq; rewrite set_subset_refl; reflexivity. Qed.

Lemma set_eq_length (a b : pyset) :
  NoDup a -> NoDup b -> set_eq a b = true -> List.length a = List.length b.
Proof.
  unfold set_eq; intros Ha Hb H; apply andb_true_iff in H as (Hab & Hba).
  apply set_subset_incl in Hab, Hba.
  apply Nat.le_antisymm; apply NoDup_incl_length; assumption.
Qed.

Lemma set_add_In (x y : string) (s : pyset) : In y (set_add x s) <-> y = x \/ In y s.
Proof.
  unfold set_add; destruct (set_mem x s) eqn:E.
  - apply set_mem_In in E; split; [auto | intros [-> | H]; assumption].
  - rewrite in_app_iff; simpl; split; intros [H | H]; auto.
    + destruct H as [<- | []]; auto.
Qed.

Lemma set_add_NoDup (x : string) (s : pyset) : NoDup s -> NoDup (set_add x s).
Proof.
  unfold set_add; intro H; destruct (set_mem x s) eqn:E; [exact H |].
  apply set_mem_false in E.
  apply NoDup_app; [exact H | repeat constructor; intros [] | ].
  intros y Hy [<- | []]; exact (E Hy).
Qed.

Lemma set_of_list_from (l : list string) (s : pyset) :
  NoDup s ->
  NoDup (fold_left (fun s x => set_add x s) l s)
  /\ forall y, In y (fold_left (fun s x => set_add x s) l s) <-> In y s \/ In y l.
Proof.
  revert s; induction l as [| x l IH]; simpl; intros s Hs.
  - split; [exact Hs | intro y; split; [intro H; left; exact H | intros [H | []]; exact H]].
  - destruct (IH (set_add x s) (set_add_NoDup x Hs)) as (Hnd & Hin).
    split; [exact Hnd |].
    intro y; rewrite Hin, set_add_In; simpl.
    split; [intros [[H | H] | H] | intros [H | [H | H]]]; auto.
Qed.

Lemma set_of_list_NoDup (l : list string) : NoDup (set_of_list l).
Proof. apply (set_of_list_from l (NoDup_nil string)). Qed.

Lemma set_of_list_In (l : list string) (y : string) : In y (set_of_list l) <-> In y l.
Proof.
  unfold set_of_list.
  destruct (set_of_list_from l (NoDup_nil string)) as (_ & H).
  rewrite H; simpl; split; [intros [[] | Hy]; exact Hy | intro Hy; right; exact Hy].
Qed.

(** ** Collecting the values of each axis *)

Lemma add_row_NoDup (configs_i : config) (sets : list pyset) :
  forall j sets',
    Forall (@NoDup string) sets -> add_row configs_i j sets = Ok sets' ->
    Forall (@NoDup string) sets'.
Proof.
  induction sets as [| s sets IH]; simpl; intros j sets' Hnd H.
  - injection H as <-; constructor.
  - destruct (nth_error configs_i j) as [value |]; [| discriminate H].
    apply bind_ok in H as (rest & Hrest & H); injection H as <-.
    inversion Hnd; subst.
    constructor; [apply set_add_NoDup; assumption | eapply IH; eassumption].
Qed.

Lemma Forall_filter {A : Type} (P : A -> Prop) (f : A -> bool) (l : list A) :
  Forall P l -> Forall P (filter f l).
Proof.
  intro H; apply Forall_forall; intros x Hx.
  apply filter_In in Hx as (Hx & _).
  revert x Hx; apply Forall_forall; exact H.
Qed.

Lemma reorganize_configs_NoDup (configs : list config) (sets : list pyset) :
  reorganize_configs configs = Ok sets -> Forall (@NoDup string) sets.
Proof.
  unfold reorganize_configs; destruct configs as [| c0 configs].
  - intro H; injection H as <-; constructor.
  - intro H; apply bind_ok in H as (all & Hall & H); injection H as <-.
    apply Forall_filter.
    revert Hall; apply foldM_invariant.
    + intros acc x acc' Hacc Hx; eapply add_row_NoDup; eassumption.
    + apply Forall_forall; intros s Hs; apply repeat_spec in Hs; subst; constructor.
Qed.

(** ** Compaction of one axis *)

Lemma combine_config_all (config config_value : pyset) (k : nat) (config_name : string) :
  nth_error BUILD_CONFIGS k = Some config_name ->
  List.length config = List.length config_value ->
  2 <= List.length config_value ->
  combine_config config config_value k
  = Ok ["All " ++ PyStr.dec (List.length config_value) ++ " " ++ config_name].
Proof.
  intros Hname Hlen Hn; unfold combine_config; rewrite Hname.
  assert (E1 : (1 <? List.length config_value)%nat = true) by (apply Nat.ltb_lt; lia).
  assert (E2 : (List.length config =? List.length config_value)%nat = true)
    by (apply Nat.eqb_eq; exact Hlen).
  rewrite E1, E2; reflexivity.
Qed.

Lemma collapse_devices_skip (label : string) (devices : pyset) (config : collection) :
  (1 <? List.length devices)%nat && set_subset devices (members config) = false ->
  collapse_devices label devices config = Ok config.
Proof. intro H; unfold collapse_devices; rewrite H; reflexivity. Qed.

Lemma flat_config_strings (values : list string) :
  flat_config (map PStr values)
  = PyStr.join " " (map (PyStr.remove_char PyStr.quote) values).
Proof. unfold flat_config; rewrite map_map; reflexivity. Qed.

Lemma combine_config_unchanged (config config_value : pyset) (k : nat)
      (config_name : string) :
  nth_error BUILD_CONFIGS k = Some config_name ->
  (1 <? List.length config_value)%nat
    && (List.length config =? List.length config_value)%nat = false ->
  no_device_collapse config_name config config_value ->
  combine_config config config_value k
  = Ok (if (1 <? List.length config_value)%nat
        then [PyStr.dec (List.length config) ++ "/"
              ++ PyStr.dec (List.length config_value) ++ " " ++ config_name ++ ": "
              ++ PyStr.join " " (map (PyStr.remove_char PyStr.quote) (set_iter config))]
        else set_iter config).
Proof.
  intros Hname Hcond Hno; unfold combine_config; rewrite Hname, Hcond.
  assert (Hset :
    (if config_name =? "Test Device(s)" then
       ftl_devices <- devices_of_type "real" config_value ;;
       virtual_devices <- devices_of_type "virtual" config_value ;;
       config' <- collapse_devices
                   ("All " ++ PyStr.dec (List.length ftl_devices) ++ " FTL Devices")
                   ftl_devices (ASet config) ;;
       collapse_devices
         ("All " ++ PyStr.dec (List.length virtual_devices) ++ " Virtual Devices")
         virtual_devices config'
     else Ok (ASet config)) = Ok (ASet config)).
  { destruct (String.eqb_spec config_name "Test Device(s)") as [Heq | Hne];
      [| reflexivity].
    destruct Hno as [Hno | (ftl & virt & Hf & Hv & Ef & Ev)]; [contradiction |].
    rewrite Hf, Hv; cbn [bind].
    rewrite collapse_devices_skip by exact Ef; cbn [bind].
    apply collapse_devices_skip; exact Ev. }
  rewrite Hset; simpl.
  rewrite set_eq_refl, andb_true_r, flat_config_strings.
  destruct (1 <? List.length config_value)%nat; reflexivity.
Qed.

(** C1, amended.  On an axis whose failing values, as [reorganize_configs]
    collects them, are all the values that ran on it, [combine_config]
    returns the single label "All N axis-name" whenever N, the number of
    values that ran, is at least 2.  When exactly one value ran, and the
    axis is not the device axis, it returns that value itself, unchanged. *)
Theorem combine_config_whole_universe :
  forall (failing tested : list config) (error_configs all_configs : list pyset)
         (k : nat) (config config_value : pyset) (config_name : string),
    iteration_order ->
    reorganize_configs failing = Ok error_configs ->
    reorganize_configs tested = Ok all_configs ->
    nth_error error_configs k = Some config ->
    nth_error all_configs k = Some config_value ->
    nth_error BUILD_CONFIGS k = Some config_name ->
    set_eq config config_value = true ->
    (2 <= List.length config_value ->
     combine_config config config_value k
     = Ok ["All " ++ PyStr.dec (List.length config_value) ++ " " ++ config_name])
    /\ (List.length config_value = 1 -> config_name <> "Test Device(s)" ->
        exists value, config = [value] /\ combine_config config config_value k = Ok [value]).
Proof.
  intros failing tested error_configs all_configs k config config_value config_name
         Horder Hf Ht Hc Hv Hname Heq.
  assert (Hndc : NoDup config).
  { apply reorganize_configs_NoDup in Hf.
    rewrite Forall_forall in Hf; apply Hf; eapply nth_error_In; eassumption. }
  assert (Hndv : NoDup config_value).
  { apply reorganize_configs_NoDup in Ht.
    rewrite Forall_forall in Ht; apply Ht; eapply nth_error_In; eassumption. }
  pose proof (set_eq_length Hndc Hndv Heq) as Hlen.
  split.
  - intro Hn; apply combine_config_all; assumption.
  - intros H1 Hne.
    destruct config as [| value [| ? ?]]; simpl in Hlen; try lia.
    exists value; split; [reflexivity |].
    rewrite (@combine_config_unchanged [value] config_value k config_name Hname).
    + rewrite H1; simpl.
      f_equal; apply Permutation_length_1_inv, Permutation_sym, Horder, Hndc.
    + rewrite H1; reflexivity.
    + left; exact Hne.
Qed.

(** C2, amended.  On an axis on which more than one value ran and whose
    failing values are a strict subset of them, [combine_config] returns the
    single label "k/N axis-name: " followed by the failing values in the
    order in which the set is iterated (some order of the k values, not
    necessarily the sorted one), each with its apostrophes removed, one
    space between two values; this when no group of devices is folded. *)
Theorem combine_config_strict_subset :
  forall (failing tested : list config) (error_configs all_configs : list pyset)
         (k : nat) (config config_value : pyset) (config_name : string),
    iteration_order ->
    reorganize_configs failing = Ok error_configs ->
    reorganize_configs tested = Ok all_configs ->
    nth_error error_configs k = Some config ->
    nth_error all_configs k = Some config_value ->
    nth_error BUILD_CONFIGS k = Some config_name ->
    incl config config_value ->
    ~ incl config_value config ->
    1 < List.length config_value ->
    no_device_collapse config_name config config_value ->
    exists values,
      Permutation values config
      /\ combine_config config config_value k
         = Ok [PyStr.dec (List.length config) ++ "/"
               ++ PyStr.dec (List.length config_value) ++ " " ++ config_name ++ ": "
               ++ PyStr.join " " (map (PyStr.remove_char PyStr.quote) values)].
Proof.
  intros failing tested error_configs all_configs k config config_value config_name
         Horder Hf Ht Hc Hv Hname Hsub Hstrict Hn Hno.
  assert (Hndc : NoDup config).
  { apply reorganize_configs_NoDup in Hf.
    rewrite Forall_forall in Hf; apply Hf; eapply nth_error_In; eassumption. }
  exists (set_iter config); split; [apply Horder, Hndc |].
  rewrite (@combine_config_unchanged config config_value k config_name Hname).
  - apply Nat.ltb_lt in Hn; rewrite Hn; reflexivity.
  - apply andb_false_iff; right; apply Nat.eqb_neq; intro Hlen.
    apply Hstrict; apply NoDup_length_incl; [exact Hndc | lia | exact Hsub].
  - exact Hno.
Qed.

(** ** Strings *)

Lemma append_assoc (a b c : string) : (a ++ b) ++ c = a ++ b ++ c.
Proof. induction a as [| x a IH]; simpl; [reflexivity | rewrite IH; reflexivity]. Qed.

Lemma append_empty_r (a : string) : a ++ EmptyString = a.
Proof. induction a as [| x a IH]; simpl; [reflexivity | rewrite IH; reflexivity]. Qed.

Lemma prefix_append (p rest : string) : String.prefix p (p ++ rest) = true.
Proof.
  induction p as [| x p IH]; simpl.
  - destruct rest; reflexivity.
  - destruct (ascii_dec x x) as [_ | Hne]; [exact IH | contradiction].
Qed.

Lemma prefix_split (p s : string) :
  String.prefix p s = true -> exists rest, s = p ++ rest.
Proof.
  revert s; induction p as [| x p IH]; intros s H.
  - exists s; reflexivity.
  - destruct s as [| y s]; simpl in H; [discriminate H |].
    destruct (ascii_dec x y) as [-> | _]; [| discriminate H].
    destruct (IH s H) as (rest & ->); exists rest; reflexivity.
Qed.

Lemma drop_append (p rest : string) : drop (String.length p) (p ++ rest) = rest.
Proof. induction p as [| x p IH]; simpl; [reflexivity | exact IH]. Qed.

Lemma contains_refl (s : string) : contains s s.
Proof. exists EmptyString, EmptyString; simpl; rewrite append_empty_r; reflexivity. Qed.

Lemma contains_append_r (sub a b : string) : contains sub b -> contains sub (a ++ b).
Proof.
  intros (before & after & ->); exists (a ++ before), after.
  rewrite append_assoc; reflexivity.
Qed.

Lemma contains_append_l (sub a b : string) : contains sub a -> contains sub (a ++ b).
Proof.
  intros (before & after & ->); exists before, (after ++ b).
  rewrite !append_assoc; reflexivity.
Qed.

Lemma contains_trans (a b c : string) : contains a b -> contains b c -> contains a c.
Proof.
  intros Hab (before & after & ->).
  apply contains_append_r, contains_append_l; exact Hab.
Qed.

Lemma py_in_nil (sub : string) :
  PyStr.py_in sub EmptyString = String.prefix sub EmptyString || false.
Proof. reflexivity. Qed.

Lemma py_in_cons (sub : string) (c : ascii) (s : string) :
  PyStr.py_in sub (String c s) = String.prefix sub (String c s) || PyStr.py_in sub s.
Proof. reflexivity. Qed.

Lemma py_in_contains (sub s : string) : PyStr.py_in sub s = true <-> contains sub s.
Proof.
  split.
  - induction s as [| c s IH]; intro H.
    + rewrite py_in_nil, orb_false_r in H.
      destruct (prefix_split _ _ H) as (rest & Hrest).
      exists EmptyString, rest; exact Hrest.
    + rewrite py_in_cons in H; apply orb_true_iff in H as [H | H].
      * destruct (prefix_split _ _ H) as (rest & Hrest).
        exists EmptyString, rest; exact Hrest.
      * destruct (IH H) as (before & after & ->).
        exists (String c before), after; reflexivity.
  - intros (before & after & ->).
    induction before as [| c before IH].
    + change (EmptyString ++ sub ++ after) with (sub ++ after).
      destruct (sub ++ after) as [| c rest] eqn:E.
      * rewrite py_in_nil, <- E, prefix_append; reflexivity.
      * rewrite py_in_cons, <- E, prefix_append; reflexivity.
    + change (String c before ++ sub ++ after) with (String c (before ++ sub ++ after)).
      rewrite py_in_cons, IH; apply orb_true_r.
Qed.

Lemma join_contains (sep x : string) (parts : list string) :
  In x parts -> contains x (PyStr.join sep parts).
Proof.
  unfold PyStr.join; induction parts as [| y parts IH]; intros H; [destruct H |].
  destruct parts as [| z parts].
  - destruct H as [-> | []]; apply contains_refl.
  - change (String.concat sep (y :: z :: parts))
      with (y ++ sep ++ String.concat sep (z :: parts)).
    destruct H as [-> | H].
    + apply contains_append_l, contains_refl.
    + apply contains_append_r, contains_append_r, IH, H.
Qed.

(** ** Dictionaries *)

Section DictFacts.

Variable V : Type.
Implicit Types (d : dict V) (k : string) (f : V -> V).

Lemma dict_get_update_same d k (default : V) f :
  dict_get (dict_update d k default f) k
  = Some (f (match dict_get d k with Some v => v | None => default end)).
Proof.
  induction d as [| [k' v] d IH]; simpl.
  - rewrite String.eqb_refl; reflexivity.
  - destruct (k' =? k) eqn:E; simpl; rewrite E; [reflexivity | exact IH].
Qed.

Lemma dict_get_update_other d k k' (default : V) f :
  k' <> k -> dict_get (dict_update d k default f) k' = dict_get d k'.
Proof.
  intro Hne; induction d as [| [k0 v] d IH]; simpl.
  - destruct (String.eqb_spec k k'); [congruence | reflexivity].
  - destruct (String.eqb_spec k0 k) as [-> | Hk]; simpl.
    + destruct (String.eqb_spec k k'); [congruence | reflexivity].
    + destruct (k0 =? k'); [reflexivity | exact IH].
Qed.

Lemma dict_keys_update d k (default : V) f :
  dict_keys (dict_update d k default f)
  = if set_mem k (dict_keys d) then dict_keys d else (dict_keys d ++ [k])%list.
Proof.
  induction d as [| [k' v] d IH]; simpl; [reflexivity |].
  destruct (String.eqb_spec k' k) as [-> | Hne]; simpl.
  - rewrite String.eqb_refl; reflexivity.
  - assert (E : (k =? k') = false) by (apply String.eqb_neq; congruence).
    rewrite E; simpl; fold (dict_keys d).
    fold (dict_keys (dict_update d k default f)); rewrite IH.
    destruct (set_mem k (dict_keys d)); reflexivity.
Qed.

Lemma dict_keys_update_NoDup d k (default : V) f :
  NoDup (dict_keys d) -> NoDup (dict_keys (dict_update d k default f)).
Proof.
  intro H; rewrite dict_keys_update.
  exact (set_add_NoDup k H).
Qed.

Lemma dict_keys_update_In d k k' (default : V) f :
  In k' (dict_keys (dict_update d k default f)) <-> k' = k \/ In k' (dict_keys d).
Proof. rewrite dict_keys_update; exact (set_add_In k k' (dict_keys d)). Qed.

Lemma dict_get_In d k (v : V) : dict_get d k = Some v -> In (k, v) d.
Proof.
  induction d as [| [k' v'] d IH]; simpl; [discriminate |].
  destruct (String.eqb_spec k' k) as [-> | _]; intro H.
  - injection H as ->; left; reflexivity.
  - right; exact (IH H).
Qed.

Lemma dict_In_get d k (v : V) :
  NoDup (dict_keys d) -> In (k, v) d -> dict_get d k = Some v.
Proof.
  induction d as [| [k' v'] d IH]; simpl; intros Hnd H; [destruct H |].
  inversion Hnd as [| ? ? Hk' Hnd']; subst.
  destruct H as [H | H].
  - injection H as -> ->; rewrite String.eqb_refl; reflexivity.
  - destruct (String.eqb_spec k' k) as [-> | _]; [| exact (IH Hnd' H)].
    exfalso; apply Hk'; change k with (fst (k, v)); apply in_map; exact H.
Qed.

Lemma dict_get_keys d k : In k (dict_keys d) <-> exists v, dict_get d k = Some v.
Proof.
  induction d as [| [k' v'] d IH]; simpl.
  - split; [intros [] | intros (v & H); discriminate H].
  - destruct (String.eqb_spec k' k) as [-> | Hne].
    + split; [intros _; exists v'; reflexivity | intros _; left; reflexivity].
    + rewrite <- IH; split; [intros [H | H]; [contradiction | exact H] | auto].
Qed.

End DictFacts.

(** ** Reading the logs *)

Lemma record_entries_nil (st : reading) : record_entries [] st = st.
Proof. destruct st; unfold record_entries; simpl; rewrite andb_true_r; reflexivity. Qed.

Lemma record_entries_app (es1 es2 : list entry) (st : reading) :
  record_entries (es1 ++ es2) st = record_entries es2 (record_entries es1 st).
Proof.
  unfold record_entries; simpl.
  rewrite forallb_app, fold_left_app, andb_assoc; reflexivity.
Qed.

Lemma record_config_entry (c : category) (configs : config) (st : reading)
      (testapp : string) :
  record_config c configs st testapp = record_entries [(c, testapp, configs)] st.
Proof.
  unfold record_config, record_entries; simpl; f_equal.
  destruct c; simpl; rewrite ?andb_false_r, ?andb_true_r; reflexivity.
Qed.

Lemma record_all_entries (c : category) (configs : config) (testapps : list string) :
  forall st,
    record_all c configs testapps st
    = record_entries (map (fun testapp => (c, testapp, configs)) testapps) st.
Proof.
  unfold record_all; induction testapps as [| testapp testapps IH]; intro st; simpl.
  - symmetry; apply record_entries_nil.
  - rewrite IH, record_config_entry.
    change ((c, testapp, configs) :: map (fun a => (c, a, configs)) testapps)
      with ([(c, testapp, configs)] ++ map (fun a => (c, a, configs)) testapps)%list.
    rewrite record_entries_app; reflexivity.
Qed.

Lemma record_entries_tested_build (es : list entry) (configs : config) (st : reading) :
  record_entries es (tested_build configs st) = tested_build configs (record_entries es st).
Proof. reflexivity. Qed.

Lemma record_entries_tested_test (es : list entry) (configs : config) (st : reading) :
  record_entries es (tested_test configs st) = tested_test configs (record_entries es st).
Proof. reflexivity. Qed.

Lemma read_build_log_readable (re : name_re) (st : reading) (f : log_file) :
  readable build_entries re f ->
  read_build_log re st f
  = Ok (record_entries (entries_of build_entries re f)
                       (tested_build (config_of re f) st)).
Proof.
  intros (Hname & Hentries); unfold read_build_log, entries_of, config_of.
  destruct (get_configs_from_file_name (file_name f) re) as [configs | e];
    [clear Hname | discriminate Hname]; simpl.
  unfold build_entries in *.
  destruct (has_sentinel f).
  - rewrite record_config_entry; reflexivity.
  - destruct (json f) as [data |]; [| discriminate Hentries].
    destruct (errors data) as [testapps |]; [| discriminate Hentries]; simpl.
    rewrite record_all_entries, map_map; reflexivity.
Qed.

Lemma read_test_log_readable (re : name_re) (st : reading) (f : log_file) :
  readable test_entries re f ->
  read_test_log re st f
  = Ok (record_entries (entries_of test_entries re f)
                       (tested_test (config_of re f) st)).
Proof.
  intros (Hname & Hentries); unfold read_test_log, entries_of, config_of.
  destruct (get_configs_from_file_name (file_name f) re) as [configs | e];
    [clear Hname | discriminate Hname]; simpl.
  unfold test_entries in *.
  destruct (has_sentinel f).
  - rewrite record_config_entry; reflexivity.
  - destruct (json f) as [data |]; [| discriminate Hentries].
    destruct (errors data) as [with_errors |]; [| discriminate Hentries].
    destruct (failures data) as [with_failures |]; [| discriminate Hentries].
    destruct (flakiness data) as [with_flakiness |]; [| discriminate Hentries].
    simpl.
    rewrite !record_all_entries, !map_app, !map_map, !record_entries_app; reflexivity.
Qed.

Lemma read_build_logs (re : name_re) (files : list log_file) :
  Forall (readable build_entries re) files ->
  forall st,
    foldM (read_build_log re) st files
    = Ok {| success_or_only_flakiness :=
              success_or_only_flakiness st
              && forallb is_flakiness (flat_map (entries_of build_entries re) files);
            log_data :=
              fold_left record_entry (flat_map (entries_of build_entries re) files)
                        (log_data st);
            build_configs := (build_configs st ++ map (config_of re) files)%list;
            test_configs := test_configs st |}.
Proof.
  induction 1 as [| f files Hf _ IH]; intro st; simpl.
  - destruct st; simpl; rewrite andb_true_r, app_nil_r; reflexivity.
  - rewrite (read_build_log_readable st Hf); simpl; rewrite IH; simpl.
    rewrite forallb_app, fold_left_app, andb_assoc, <- app_assoc; reflexivity.
Qed.

Lemma read_test_logs (re : name_re) (files : list log_file) :
  Forall (readable test_entries re) files ->
  forall st,
    foldM (read_test_log re) st files
    = Ok {| success_or_only_flakiness :=
              success_or_only_flakiness st
              && forallb is_flakiness (flat_map (entries_of test_entries re) files);
            log_data :=
              fold_left record_entry (flat_map (entries_of test_entries re) files)
                        (log_data st);
            build_configs := build_configs st;
            test_configs := (test_configs st ++ map (config_of re) files)%list |}.
Proof.
  induction 1 as [| f files Hf _ IH]; intro st; simpl.
  - destruct st; simpl; rewrite andb_true_r, app_nil_r; reflexivity.
  - rewrite (read_test_log_readable st Hf); simpl; rewrite IH; simpl.
    rewrite forallb_app, fold_left_app, andb_assoc, <- app_assoc; reflexivity.
Qed.

Lemma read_logs_readable (dir : string) (build_log_files test_log_files : list log_file) :
  readable_logs dir build_log_files test_log_files ->
  read_logs dir build_log_files test_log_files
  = Ok (read_state dir build_log_files test_log_files).
Proof.
  intros (Hb & Ht); unfold read_logs, read_state, recorded.
  rewrite (read_build_logs Hb); simpl.
  rewrite (read_test_logs Ht); simpl.
  rewrite forallb_app, fold_left_app; reflexivity.
Qed.

(** ** File names *)

Lemma has_char_cons (x c : ascii) (s : string) :
  PyStr.has_char x (String c s) = Ascii.eqb x c || PyStr.has_char x s.
Proof. reflexivity. Qed.

Lemma greedy_dot_star_cell (cell : string) :
  PyStr.has_char PyStr.newline cell = false ->
  greedy_dot_star FILE_SUFFIX (cell ++ FILE_SUFFIX) = Some cell.
Proof.
  induction cell as [| c cell IH]; intro H.
  - reflexivity.
  - rewrite has_char_cons in H; apply orb_false_iff in H as (Hc & Hcell).
    change (String c cell ++ FILE_SUFFIX) with (String c (cell ++ FILE_SUFFIX)).
    cbn [greedy_dot_star].
    rewrite Ascii.eqb_sym in Hc; rewrite Hc, (IH Hcell); reflexivity.
Qed.

Lemma re_search_here (re : name_re) (s group : string) :
  match_here re s = Some group -> re_search re s = Some group.
Proof. intro H; destruct s; simpl; rewrite H; reflexivity. Qed.

Lemma re_search_log_name (dir prefix cell : string) :
  PyStr.has_char PyStr.newline cell = false ->
  re_search (log_name_re dir prefix) (log_name dir prefix cell) = Some cell.
Proof.
  intro H; apply re_search_here; unfold match_here, log_name_re, log_name; simpl.
  rewrite prefix_append, drop_append; apply greedy_dot_star_cell, H.
Qed.

Lemma found_by_glob_ok (dir prefix : string) (f : log_file) :
  found_by_glob dir prefix f ->
  is_ok (get_configs_from_file_name (file_name f) (log_name_re dir prefix)) = true.
Proof.
  intros (cell & Hcell & ->); unfold get_configs_from_file_name.
  rewrite (@re_search_log_name dir prefix cell Hcell); reflexivity.
Qed.

(** ** A run with nothing to report *)

Lemma quiet_build_log_entries (dir : string) (f : log_file) :
  quiet_build_log dir f ->
  readable build_entries (log_name_re dir BUILD_FILE_PREFIX) f
  /\ entries_of build_entries (log_name_re dir BUILD_FILE_PREFIX) f = [].
Proof.
  intros (Hname & Hs & data & Hjson & He).
  unfold readable, entries_of, build_entries; rewrite Hs, Hjson, He; simpl.
  repeat split; apply found_by_glob_ok, Hname.
Qed.

Lemma quiet_test_log_entries (dir : string) (f : log_file) :
  quiet_test_log dir f ->
  readable test_entries (log_name_re dir TEST_FILE_PREFIX) f
  /\ entries_of test_entries (log_name_re dir TEST_FILE_PREFIX) f = [].
Proof.
  intros (Hname & Hs & data & Hjson & He & Hf & Hk).
  unfold readable, entries_of, test_entries; rewrite Hs, Hjson, He, Hf, Hk; simpl.
  repeat split; apply found_by_glob_ok, Hname.
Qed.

Lemma flat_map_nil {A B : Type} (f : A -> list B) (l : list A) :
  Forall (fun x => f x = []) l -> flat_map f l = [].
Proof. induction 1 as [| x l Hx _ IH]; simpl; [| rewrite Hx, IH]; reflexivity. Qed.

(** C3.  When no build log has an entry under "errors", no test log has an
    entry under "errors", "failures" or "flakiness", and no log holds the
    marker of a missing summary, [summarize_logs] prints nothing and
    returns the pair [(True, None)]. *)
Theorem summarize_logs_nothing_to_report :
  forall (dir : string) (build_log_files test_log_files : list log_file)
         (markdown github_log : bool),
    Forall (quiet_build_log dir) build_log_files ->
    Forall (quiet_test_log dir) test_log_files ->
    summarize_logs dir build_log_files test_log_files markdown github_log
    = Ok {| printed := None; returned := (true, None) |}.
Proof.
  intros dir builds tests markdown github_log Hb Ht; unfold summarize_logs.
  assert (Hread : readable_logs dir builds tests).
  { split; eapply Forall_impl; try eassumption; intros f Hf.
    - apply (quiet_build_log_entries Hf).
    - apply (quiet_test_log_entries Hf). }
  assert (Hnone : recorded dir builds tests = []).
  { unfold recorded; rewrite !flat_map_nil; [reflexivity | |].
    - eapply Forall_impl; [| exact Ht]; intros f Hf; apply (quiet_test_log_entries Hf).
    - eapply Forall_impl; [| exact Hb]; intros f Hf; apply (quiet_build_log_entries Hf). }
  rewrite (read_logs_readable Hread); unfold read_state; rewrite Hnone; reflexivity.
Qed.

(** ** The sets of values, axis by axis *)

Lemma add_row_spec (configs_i : config) (sets : list pyset) :
  forall j,
    j + List.length sets <= List.length configs_i ->
    exists sets',
      add_row configs_i j sets = Ok sets'
      /\ List.length sets' = List.length sets
      /\ forall i s, nth_error sets i = Some s ->
           exists value,
             nth_error configs_i (j + i) = Some value
             /\ nth_error sets' i = Some (set_add value s).
Proof.
  induction sets as [| s sets IH]; simpl; intros j Hlen.
  - exists []; repeat split; intros i s H; destruct i; discriminate H.
  - destruct (nth_error configs_i j) as [value |] eqn:Ej.
    2: { apply nth_error_None in Ej; lia. }
    destruct (IH (S j)) as (sets' & Hrow & Hl & Hnth); [lia |].
    rewrite Hrow; simpl; eexists; split; [reflexivity |]; simpl; split; [lia |].
    intros [| i] s0 Hs0; simpl in Hs0.
    + injection Hs0 as <-; exists value; rewrite Nat.add_0_r; auto.
    + destruct (Hnth i s0 Hs0) as (v & Hv & Hs').
      exists v; rewrite Nat.add_succ_r; auto.
Qed.

Lemma collect_spec (configs : list config) :
  forall sets0,
    (forall configs_i, In configs_i configs -> List.length sets0 <= List.length configs_i) ->
    exists sets,
      foldM (fun sets configs_i => add_row configs_i 0 sets) sets0 configs = Ok sets
      /\ List.length sets = List.length sets0
      /\ forall k s0, nth_error sets0 k = Some s0 ->
           exists s,
             nth_error sets k = Some s
             /\ (NoDup s0 -> NoDup s)
             /\ forall value, In value s <-> In value s0 \/ column k configs value.
Proof.
  induction configs as [| configs_i configs IH]; simpl; intros sets0 Hlen.
  - exists sets0; repeat split; intros k s0 Hs0; exists s0; repeat split; auto.
    intros [H | (c & [] & _)]; exact H.
  - destruct (@add_row_spec configs_i sets0 0) as (sets1 & Hrow & Hl1 & Hnth1);
      [simpl; apply Hlen; left; reflexivity |].
    rewrite Hrow; simpl.
    destruct (IH sets1) as (sets & Hfold & Hl & Hnth).
    { intros c Hc; rewrite Hl1; apply Hlen; right; exact Hc. }
    exists sets; split; [exact Hfold |]; split; [congruence |].
    intros k s0 Hs0.
    destruct (Hnth1 k s0 Hs0) as (v & Hv & Hs1); simpl in Hv.
    destruct (Hnth k _ Hs1) as (s & Hs & Hnd & Hin).
    exists s; split; [exact Hs |]; split.
    + intro H0; apply Hnd, set_add_NoDup, H0.
    + intro value; rewrite Hin, set_add_In; split.
      * intros [[-> | H] | (c & Hc & Hcv)]; auto.
        -- right; exists configs_i; split; [left; reflexivity | exact Hv].
        -- right; exists c; split; [right; exact Hc | exact Hcv].
      * intros [H | (c & [<- | Hc] & Hcv)]; auto.
        -- left; left; congruence.
        -- right; exists c; auto.
Qed.

Lemma reorganize_configs_spec (configs : list config) :
  configs <> [] ->
  (forall configs_i, In configs_i configs ->
                     List.length BUILD_CONFIGS <= List.length configs_i) ->
  exists sets,
    reorganize_configs configs = Ok sets
    /\ List.length sets = List.length BUILD_CONFIGS
    /\ forall k, k < List.length BUILD_CONFIGS ->
         exists s,
           nth_error sets k = Some s /\ NoDup s
           /\ forall value, In value s <-> column k configs value.
Proof.
  intros Hne Hlen.
  destruct (@collect_spec configs (repeat [] (List.length BUILD_CONFIGS)))
    as (sets & Hfold & Hl & Hnth).
  { intros c Hc; rewrite repeat_length; apply Hlen, Hc. }
  rewrite repeat_length in Hl.
  assert (Hsets : forall k, k < List.length BUILD_CONFIGS ->
            exists s, nth_error sets k = Some s /\ NoDup s
                      /\ forall value, In value s <-> column k configs value).
  { intros k Hk.
    destruct (Hnth k []) as (s & Hs & Hnd & Hin).
    { rewrite nth_error_repeat; [reflexivity | exact Hk]. }
    exists s; split; [exact Hs |]; split; [apply Hnd; constructor |].
    intro value; rewrite Hin; simpl.
    split; [intros [[] | H]; exact H | intro H; right; exact H]. }
  assert (Hfilter : filter (fun s => negb (is_empty s)) sets = sets).
  { apply forallb_filter_id, forallb_forall; intros s Hs.
    apply In_nth_error in Hs as (k & Hk).
    assert (Hlt : k < List.length BUILD_CONFIGS).
    { rewrite <- Hl; apply nth_error_Some; rewrite Hk; discriminate. }
    destruct (Hsets k Hlt) as (s' & Hs' & _ & Hin).
    rewrite Hk in Hs'; injection Hs' as <-.
    destruct configs as [| c0 configs]; [contradiction |].
    destruct (nth_error c0 k) as [v |] eqn:Ev.
    - assert (Hv : In v s) by (apply Hin; exists c0; split; [left; reflexivity | exact Ev]).
      destruct s; [destruct Hv | reflexivity].
    - apply nth_error_None in Ev.
      specialize (Hlen c0 (or_introl eq_refl)); lia. }
  exists sets; split; [| split; assumption].
  unfold reorganize_configs; destruct configs as [| c0 configs]; [contradiction |].
  rewrite Hfold; simpl; rewrite Hfilter; reflexivity.
Qed.

(** ** The components of a vector hold no space *)

Lemma no_space_chars (l : list ascii) :
  (forall c, In c l -> PyStr.is_space c = false) ->
  PyStr.has_char " "%char (string_of_list_ascii l) = false.
Proof.
  induction l as [| c l IH]; intro H; [reflexivity |].
  change (string_of_list_ascii (c :: l)) with (String c (string_of_list_ascii l)).
  rewrite has_char_cons, IH by (intros d Hd; apply H; right; exact Hd).
  rewrite orb_false_r.
  destruct (Ascii.eqb_spec " "%char c) as [<- | _]; [| reflexivity].
  specialize (H " "%char (or_introl eq_refl)); discriminate H.
Qed.

Lemma split_aux_no_space (s : string) :
  forall cur token,
    (forall c, In c cur -> PyStr.is_space c = false) ->
    In token (PyStr.split_aux cur s) ->
    PyStr.has_char " "%char token = false.
Proof.
  induction s as [| c s IH]; intros cur token Hcur Hin.
  - destruct cur as [| c0 cur]; [destruct Hin |].
    destruct Hin as [<- | []].
    apply no_space_chars; intros d Hd; apply in_rev in Hd; apply Hcur, Hd.
  - cbn [PyStr.split_aux] in Hin.
    destruct (PyStr.is_space c) eqn:Ec.
    + destruct cur as [| c0 cur].
      * eapply IH; [| exact Hin]; intros d [].
      * destruct Hin as [<- | Hin].
        -- apply no_space_chars; intros d Hd; apply in_rev in Hd; apply Hcur, Hd.
        -- eapply IH; [| exact Hin]; intros d [].
    + eapply IH; [| exact Hin].
      intros d [<- | Hd]; [exact Ec | apply Hcur, Hd].
Qed.

Lemma get_configs_no_space (file_name : string) (re : name_re) (configs : config) :
  get_configs_from_file_name file_name re = Ok configs ->
  forall value, In value configs -> PyStr.has_char " "%char value = false.
Proof.
  unfold get_configs_from_file_name.
  destruct (re_search re file_name) as [cell |]; [| discriminate].
  intros H value Hin; injection H as <-.
  assert (Htoken : In value (PyStr.split (PyStr.replace_char "-" " " cell))).
  { destruct (set_mem "latest" _); [apply filter_In in Hin as (Hin & _) |]; exact Hin. }
  eapply split_aux_no_space; [| exact Htoken]; intros d [].
Qed.

Lemma config_of_no_space (re : name_re) (f : log_file) :
  forall value, In value (config_of re f) -> PyStr.has_char " "%char value = false.
Proof.
  unfold config_of.
  destruct (get_configs_from_file_name (file_name f) re) as [configs | e] eqn:E; simpl.
  - exact (get_configs_no_space _ _ E).
  - intros value [].
Qed.

(** ** [combine_config] returns *)

Lemma known_device_typed (kind device : string) :
  known_device device -> exists b, device_has_type kind device = Ok b.
Proof.
  unfold known_device, device_has_type.
  destruct (dict_get TEST_DEVICES device) as [[| item info] |].
  - intros [H | H]; discriminate H.
  - destruct (dict_get (item :: info) "type") as [type |].
    + intros _; eexists; reflexivity.
    + intros [H | H]; discriminate H.
  - intros [H | H]; discriminate H.
Qed.

Lemma filter_devices_spec (kind : string) (devices : list string) :
  (forall d, In d devices -> known_device d) ->
  exists kept,
    filter_devices kind devices = Ok kept
    /\ forall d, In d kept <-> In d devices /\ device_has_type kind d = Ok true.
Proof.
  induction devices as [| device devices IH]; intro Hknown; simpl.
  - exists []; split; [reflexivity |]; simpl.
    intro d; split; [intros [] | intros ([] & _)].
  - destruct (@known_device_typed kind device) as (b & Hb);
      [apply Hknown; left; reflexivity |].
    destruct IH as (kept & Hkept & Hin); [intros d Hd; apply Hknown; right; exact Hd |].
    rewrite Hb, Hkept; simpl; eexists; split; [reflexivity |].
    intro d; destruct b; simpl; rewrite Hin; split.
    + intros [<- | (Hd & Ht)]; auto.
    + intros ([<- | Hd] & Ht); auto.
    + intros (Hd & Ht); auto.
    + intros ([<- | Hd] & Ht); [congruence | auto].
Qed.

Lemma devices_of_type_spec (kind : string) (config_value : pyset) :
  iteration_order -> NoDup config_value ->
  (forall d, In d config_value -> known_device d) ->
  exists devices,
    devices_of_type kind config_value = Ok devices
    /\ NoDup devices
    /\ forall d, In d devices <-> In d config_value /\ device_has_type kind d = Ok true.
Proof.
  intros Horder Hnd Hknown; unfold devices_of_type.
  pose proof (Horder config_value Hnd) as Hperm.
  destruct (@filter_devices_spec kind (set_iter config_value)) as (kept & Hkept & Hin).
  { intros d Hd; apply Hknown; eapply Permutation_in; eassumption. }
  rewrite Hkept; simpl; eexists; split; [reflexivity |].
  split; [apply set_of_list_NoDup |].
  intro d; rewrite set_of_list_In, Hin; split; intros (Hd & Ht); split; auto.
  - eapply Permutation_in; eassumption.
  - eapply Permutation_in; [apply Permutation_sym |]; eassumption.
Qed.

Lemma collapse_devices_on_set (label : string) (devices config : pyset) :
  collapse_devices label devices (ASet config)
  = if (1 <? List.length devices)%nat && set_subset devices config
    then Ok (AList (filter (fun x => negb (set_mem x devices))
                           (set_iter (set_add label config))))
    else Ok (ASet config).
Proof. reflexivity. Qed.

Lemma collapse_devices_set (label : string) (devices config : pyset) :
  exists config', collapse_devices label devices (ASet config) = Ok config'.
Proof.
  unfold collapse_devices.
  destruct ((1 <? List.length devices)%nat && set_subset devices (members (ASet config)));
    eexists; reflexivity.
Qed.

Lemma combine_config_ok (config config_value : pyset) (k : nat) (config_name : string) :
  iteration_order ->
  nth_error BUILD_CONFIGS k = Some config_name ->
  NoDup config -> NoDup config_value -> incl config config_value ->
  (config_name = "Test Device(s)" ->
   forall d, In d config_value ->
             known_device d /\ PyStr.has_char " "%char d = false) ->
  exists labels, combine_config config config_value k = Ok labels.
Proof.
  intros Horder Hname Hndc Hndv Hincl Hdev; unfold combine_config; rewrite Hname.
  destruct ((1 <? List.length config_value)%nat
            && (List.length config =? List.length config_value)%nat) eqn:Eall.
  { simpl; eexists; reflexivity. }
  destruct (String.eqb_spec config_name "Test Device(s)") as [Hd | _].
  2: { simpl; eexists; reflexivity. }
  specialize (Hdev Hd).
  destruct (@devices_of_type_spec "real" config_value Horder Hndv)
    as (ftl & Hftl & Hndf & Hinf); [intros d H; apply Hdev, H |].
  destruct (@devices_of_type_spec "virtual" config_value Horder Hndv)
    as (virt & Hvirt & Hndvirt & Hinv); [intros d H; apply Hdev, H |].
  rewrite Hftl, Hvirt; cbn [bind].
  rewrite collapse_devices_on_set.
  destruct ((1 <? List.length ftl)%nat && set_subset ftl config) eqn:Eftl; cbn [bind].
  2: { destruct (collapse_devices_set
                   ("All " ++ PyStr.dec (List.length virt) ++ " Virtual Devices")
                   virt config) as (config' & ->).
       simpl; eexists; reflexivity. }
  rewrite collapse_devices_skip; [simpl; eexists; reflexivity |].
  cbn [members].
  destruct ((1 <? List.length virt)%nat) eqn:Ev; [simpl | reflexivity].
  destruct (set_subset virt _) eqn:Esub; [exfalso | reflexivity].
  apply andb_true_iff in Eftl as (Ef1 & Ef2).
  apply Nat.ltb_lt in Ef1; apply set_subset_incl in Ef2, Esub.
  assert (Hall : incl config_value config).
  { intros d Hin; destruct (Hdev d Hin) as ([Hr | Hv] & Hspace).
    - apply Ef2, Hinf; auto.
    - assert (Hdv : In d virt) by (apply Hinv; auto).
      apply Esub, filter_In in Hdv as (Hdv & _).
      apply (Permutation_in _ (Horder _ (set_add_NoDup _ Hndc))) in Hdv.
      apply set_add_In in Hdv as [-> | Hdv]; [discriminate Hspace | exact Hdv]. }
  assert (Hlen : List.length config = List.length config_value).
  { apply Nat.le_antisymm; apply NoDup_incl_length; assumption. }
  assert (Hbig : List.length ftl <= List.length config_value).
  { apply NoDup_incl_length; [exact Hndf |]; intros d Hin; apply Hinf in Hin; tauto. }
  apply andb_false_iff in Eall as [E | E].
  - apply Nat.ltb_ge in E; lia.
  - apply Nat.eqb_neq in E; contradiction.
Qed.

(** ** The aggregation returns *)

Lemma combine_configs_from_ok (all_configs : list pyset) (error_configs : list pyset) :
  forall i,
    (forall j error_config,
        nth_error error_configs j = Some error_config ->
        exists config_value labels,
          nth_error all_configs (i + j) = Some config_value
          /\ combine_config error_config config_value (i + j) = Ok labels) ->
    exists combined, combine_configs_from i error_configs all_configs = Ok combined.
Proof.
  induction error_configs as [| error_config error_configs IH]; intros i H; simpl.
  - eexists; reflexivity.
  - destruct (H 0 error_config eq_refl) as (config_value & labels & Hv & Hc).
    rewrite Nat.add_0_r in Hv, Hc; rewrite Hv, Hc; simpl.
    destruct (IH (S i)) as (combined & ->).
    + intros j c Hj; specialize (H (S j) c Hj).
      rewrite Nat.add_succ_r in H; exact H.
    + simpl; eexists; reflexivity.
Qed.

Lemma combine_configs_ok (failing tested : list config) (all_configs : list pyset) :
  iteration_order ->
  failing <> [] -> incl failing tested -> Forall sound_config tested ->
  reorganize_configs tested = Ok all_configs ->
  exists error_configs combined,
    reorganize_configs failing = Ok error_configs
    /\ combine_configs error_configs all_configs = Ok combined.
Proof.
  intros Horder Hne Hincl Hsound Htested.
  rewrite Forall_forall in Hsound.
  assert (Hnet : tested <> []).
  { destruct failing as [| v failing]; [contradiction |].
    intros ->; exact (Hincl v (or_introl eq_refl)). }
  destruct (@reorganize_configs_spec tested Hnet) as (sets & Hsets & Hlen & Hcol);
    [intros v Hv; apply (Hsound v Hv) |].
  rewrite Hsets in Htested; injection Htested as <-.
  destruct (@reorganize_configs_spec failing Hne) as (error_configs & Herr & Hlen' & Hcol');
    [intros v Hv; apply (Hsound v (Hincl v Hv)) |].
  exists error_configs.
  destruct (@combine_configs_from_ok sets error_configs 0) as (combined & Hcombined);
    [| exists combined; split; [exact Herr | exact Hcombined]].
  intros j error_config Hj; simpl.
  assert (Hlt : j < List.length BUILD_CONFIGS).
  { rewrite <- Hlen'; apply nth_error_Some; rewrite Hj; discriminate. }
  destruct (Hcol j Hlt) as (config_value & Hv & Hndv & Hinv).
  destruct (Hcol' j Hlt) as (c & Hc & Hndc & Hinc).
  rewrite Hj in Hc; injection Hc as <-.
  destruct (nth_error BUILD_CONFIGS j) as [config_name |] eqn:Ename.
  2: { apply nth_error_None in Ename; lia. }
  destruct (@combine_config_ok error_config config_value j config_name) as (labels & Hl);
    try assumption.
  - intros value Hvalue; apply Hinv; apply Hinc in Hvalue as (v & Hv' & Hnth).
    exists v; split; [apply Hincl, Hv' | exact Hnth].
  - intros -> d Hd; apply Hinv in Hd as (v & Hv' & Hnth).
    destruct (Hsound v Hv') as ((_ & Hknown) & Hspace); split.
    + eapply Hknown; eassumption.
    + apply Hspace; eapply nth_error_In; eassumption.
  - exists config_value, labels; split; assumption.
Qed.

Lemma reorganize_category_ok (c : category) (testapp : string) (errors : testapp_log)
      (st : reading) (all_tested_configs : tested_axes) (log_results : results) :
  iteration_order ->
  Forall sound_config (vectors_of c st) ->
  reorganize_configs (vectors_of c st) = Ok (axes_of c all_tested_configs) ->
  incl (configs_of c errors) (vectors_of c st) ->
  exists log_results',
    reorganize_category c testapp errors all_tested_configs log_results = Ok log_results'.
Proof.
  intros Horder Hsound Haxes Hincl; unfold reorganize_category.
  destruct (configs_of c errors) as [| v failing] eqn:E.
  - eexists; reflexivity.
  - destruct (@combine_configs_ok (v :: failing) (vectors_of c st)
                (axes_of c all_tested_configs))
      as (error_configs & combined & Herr & Hcombined); try assumption; [discriminate |].
    rewrite Herr; cbn [bind]; rewrite Hcombined; cbn [bind].
    eexists; reflexivity.
Qed.

Lemma reorganize_all_tested_configs_ok (st : reading) :
  Forall sound_config (build_configs st) ->
  Forall sound_config (test_configs st) ->
  exists all_tested_configs,
    reorganize_all_tested_configs st = Ok all_tested_configs
    /\ forall c, reorganize_configs (vectors_of c st) = Ok (axes_of c all_tested_configs).
Proof.
  intros Hb Ht; unfold reorganize_all_tested_configs.
  assert (Hany : forall vectors, Forall sound_config vectors ->
                                 exists sets, reorganize_configs vectors = Ok sets).
  { intros [| v vectors] H; [exists []; reflexivity |].
    destruct (@reorganize_configs_spec (v :: vectors)) as (sets & Hsets & _);
      [discriminate | | exists sets; exact Hsets].
    rewrite Forall_forall in H; intros w Hw; apply (H w Hw). }
  destruct (Hany _ Hb) as (bsets & Hbsets); destruct (Hany _ Ht) as (tsets & Htsets).
  rewrite Hbsets, Htsets; simpl; eexists; split; [reflexivity |].
  intros []; assumption.
Qed.

Lemma reorganize_log_ok (st : reading) (all_tested_configs : tested_axes) :
  iteration_order ->
  sound_reading st ->
  (forall c, reorganize_configs (vectors_of c st) = Ok (axes_of c all_tested_configs)) ->
  exists log_results, reorganize_log (log_data st) all_tested_configs = Ok log_results.
Proof.
  intros Horder (Hb & Ht & Hentries) Haxes; unfold reorganize_log.
  assert (Hvec : forall c, Forall sound_config (vectors_of c st))
    by (intros []; assumption).
  generalize (@nil (string * dict (list string))) as log_results.
  induction (log_data st) as [| [testapp errors] data IH]; intro log_results; simpl.
  - eexists; reflexivity.
  - pose proof (Hentries testapp errors (or_introl eq_refl)) as Hsound.
    destruct (@reorganize_category_ok BuildError testapp errors st all_tested_configs
                log_results) as (r1 & ->); auto.
    cbn [bind].
    destruct (@reorganize_category_ok TestError testapp errors st all_tested_configs r1)
      as (r2 & ->); auto.
    cbn [bind].
    destruct (@reorganize_category_ok TestFailure testapp errors st all_tested_configs r2)
      as (r3 & ->); auto.
    cbn [bind].
    destruct (@reorganize_category_ok TestFlakiness testapp errors st all_tested_configs r3)
      as (r4 & ->); auto.
    cbn [bind].
    apply IH; intros a e Hin; apply (Hentries a e); right; exact Hin.
Qed.

(** ** What the reading leaves is sound *)

Lemma dict_update_In {V : Type} (d : dict V) (k : string) (default : V) (f : V -> V)
      (k' : string) (v' : V) :
  In (k', v') (dict_update d k default f) ->
  In (k', v') d
  \/ (k' = k /\ exists v0, v' = f v0 /\ (In (k, v0) d \/ v0 = default)).
Proof.
  induction d as [| [k0 v0] d IH]; simpl.
  - intros [H | []]; injection H as <- <-; right; split; [reflexivity |].
    exists default; auto.
  - destruct (String.eqb_spec k0 k) as [-> | Hne]; simpl.
    + intros [H | H]; [| auto].
      injection H as <- <-; right; split; [reflexivity |]; exists v0; auto.
    + intros [H | H]; [auto |].
      destruct (IH H) as [Hin | (-> & v1 & -> & [Hin | ->])]; auto.
      * right; split; [reflexivity |]; exists v1; auto.
      * right; split; [reflexivity |]; exists default; auto.
Qed.

Lemma dict_update_nonempty {V : Type} (d : dict V) (k : string) (default : V)
      (f : V -> V) :
  dict_update d k default f <> [].
Proof.
  destruct d as [| [k0 v0] d]; simpl; [discriminate |].
  destruct (k0 =? k); discriminate.
Qed.

Lemma append_config_sound (st : reading) (c : category) (configs : config)
      (errors : testapp_log) :
  In configs (vectors_of c st) -> sound_entry st errors ->
  sound_entry st (append_config c configs errors).
Proof.
  intros Hin Hsound c' v Hv.
  destruct c, c'; simpl in Hv;
    try (apply in_app_iff in Hv as [Hv | [<- | []]]; [| exact Hin]);
    first [ exact (Hsound BuildError _ Hv) | exact (Hsound TestError _ Hv)
          | exact (Hsound TestFailure _ Hv) | exact (Hsound TestFlakiness _ Hv) ].
Qed.

Lemma record_entries_sound (st : reading) (es : list entry) :
  (forall c testapp configs, In (c, testapp, configs) es -> In configs (vectors_of c st)) ->
  forall data,
    (forall testapp errors, In (testapp, errors) data -> sound_entry st errors) ->
    forall testapp errors,
      In (testapp, errors) (fold_left record_entry es data) -> sound_entry st errors.
Proof.
  induction es as [| [[c a] v] es IH]; intros Hes data Hdata; simpl; [exact Hdata |].
  apply IH; [intros c' a' v' H; apply (Hes c' a' v'); right; exact H |].
  intros testapp errors Hin.
  apply dict_update_In in Hin as [Hin | (-> & e0 & -> & [Hin | ->])].
  - exact (Hdata _ _ Hin).
  - apply append_config_sound; [apply (Hes c a v); left; reflexivity | exact (Hdata _ _ Hin)].
  - apply append_config_sound; [apply (Hes c a v); left; reflexivity |].
    intros c' x Hx; destruct c'; destruct Hx.
Qed.

Lemma build_entries_category (f : log_file) (c : category) (testapp : string) :
  In (c, testapp) (value_or [] (build_entries f)) -> c = BuildError.
Proof.
  unfold build_entries; destruct (has_sentinel f); simpl.
  - intros [H | []]; congruence.
  - destruct (json f) as [data |]; simpl; [| intros []].
    destruct (errors data) as [testapps |]; simpl; [| intros []].
    intro H; apply in_map_iff in H as (a & H & _); congruence.
Qed.

Lemma test_entries_category (f : log_file) (c : category) (testapp : string) :
  In (c, testapp) (value_or [] (test_entries f)) -> c <> BuildError.
Proof.
  unfold test_entries; destruct (has_sentinel f); simpl.
  - intros [H | []]; congruence.
  - destruct (json f) as [data |]; simpl; [| intros []].
    destruct (errors data) as [a1 |]; simpl; [| intros []].
    destruct (failures data) as [a2 |]; simpl; [| intros []].
    destruct (flakiness data) as [a3 |]; simpl; [| intros []].
    rewrite !in_app_iff, !in_map_iff.
    intros [(a & H & _) | [(a & H & _) | (a & H & _)]]; congruence.
Qed.

Lemma recorded_tested (dir : string) (build_log_files test_log_files : list log_file)
      (c : category) (testapp : string) (configs : config) :
  In (c, testapp, configs) (recorded dir build_log_files test_log_files) ->
  In configs (vectors_of c (read_state dir build_log_files test_log_files)).
Proof.
  unfold recorded; rewrite in_app_iff, !in_flat_map.
  intros [(f & Hf & He) | (f & Hf & He)]; unfold entries_of in He;
    apply in_map_iff in He as ([c' a] & Heq & He); injection Heq as -> -> <-.
  - apply build_entries_category in He as ->; simpl.
    apply in_map; exact Hf.
  - apply test_entries_category in He.
    destruct c; [contradiction | | |]; simpl; apply in_map; exact Hf.
Qed.

Lemma read_state_sound (dir : string) (build_log_files test_log_files : list log_file) :
  complete_logs dir build_log_files test_log_files ->
  sound_reading (read_state dir build_log_files test_log_files).
Proof.
  intros (Hb & Ht); unfold sound_reading; simpl; repeat split.
  - apply Forall_map; eapply Forall_impl; [| exact Hb]; intros f Hf.
    split; [exact Hf | apply config_of_no_space].
  - apply Forall_map; eapply Forall_impl; [| exact Ht]; intros f Hf.
    split; [exact Hf | apply config_of_no_space].
  - apply record_entries_sound.
    + intros c a v; apply recorded_tested.
    + intros a e [].
Qed.

(** ** The shape of the aggregated result *)

Lemma reorganize_category_result (c : category) (testapp : string) (errors : testapp_log)
      (all_tested_configs : tested_axes) (log_results log_results' : results) :
  reorganize_category c testapp errors all_tested_configs log_results = Ok log_results' ->
  (configs_of c errors = [] /\ log_results' = log_results)
  \/ (configs_of c errors <> []
      /\ exists combined,
          log_results'
          = dict_update log_results testapp []
              (fun cell =>
                 dict_setdefault cell
                   (flat_config (category_words c ++ map PList combined)) [])).
Proof.
  unfold reorganize_category; destruct (configs_of c errors) as [| v failing].
  - intro H; injection H as <-; left; auto.
  - intro H; apply bind_ok in H as (sets & _ & H).
    apply bind_ok in H as (combined & _ & H); injection H as <-.
    right; split; [discriminate | exists combined; reflexivity].
Qed.

Lemma plain_cell_setdefault (cell : dict (list string)) (label : string) :
  cell = [] \/ plain_cell cell -> plain_cell (dict_setdefault cell label []).
Proof.
  intro H; unfold dict_setdefault; repeat split.
  - apply dict_update_nonempty.
  - apply dict_keys_update_NoDup; destruct H as [-> | (_ & Hnd & _)];
      [constructor | exact Hnd].
  - intros l tests Hin.
    apply dict_update_In in Hin as [Hin | (-> & t0 & -> & [Hin | ->])].
    + destruct H as [-> | (_ & _ & Hall)]; [destruct Hin | exact (Hall _ _ Hin)].
    + destruct H as [-> | (_ & _ & Hall)]; [destruct Hin | exact (Hall _ _ Hin)].
    + reflexivity.
Qed.

Lemma reorganize_category_plain (c : category) (testapp : string) (errors : testapp_log)
      (all_tested_configs : tested_axes) (log_results log_results' : results) :
  plain_results log_results ->
  reorganize_category c testapp errors all_tested_configs log_results = Ok log_results' ->
  plain_results log_results'.
Proof.
  intros (Hnd & Hcells) H.
  apply reorganize_category_result in H as [(_ & ->) | (_ & combined & ->)];
    [split; assumption |].
  split; [apply dict_keys_update_NoDup, Hnd |].
  intros a cell Hin.
  apply dict_update_In in Hin as [Hin | (-> & cell0 & -> & [Hin | ->])].
  - exact (Hcells _ _ Hin).
  - apply plain_cell_setdefault; right; exact (Hcells _ _ Hin).
  - apply plain_cell_setdefault; left; reflexivity.
Qed.

Lemma reorganize_testapp_plain (all_tested_configs : tested_axes)
      (log_results log_results' : results) (item : string * testapp_log) :
  plain_results log_results ->
  reorganize_testapp all_tested_configs log_results item = Ok log_results' ->
  plain_results log_results'.
Proof.
  destruct item as [testapp errors]; unfold reorganize_testapp; intros H0 H.
  apply bind_ok in H as (r1 & H1 & H); apply bind_ok in H as (r2 & H2 & H).
  apply bind_ok in H as (r3 & H3 & H4).
  eapply reorganize_category_plain; [| exact H4].
  eapply reorganize_category_plain; [| exact H3].
  eapply reorganize_category_plain; [| exact H2].
  eapply reorganize_category_plain; [| exact H1].
  exact H0.
Qed.

Lemma reorganize_log_plain (data : dict testapp_log) (all_tested_configs : tested_axes)
      (log_results : results) :
  reorganize_log data all_tested_configs = Ok log_results -> plain_results log_results.
Proof.
  unfold reorganize_log; apply foldM_invariant.
  - intros acc item acc'; apply reorganize_testapp_plain.
  - split; [constructor | intros a cell []].
Qed.

Lemma reorganize_category_keys (c : category) (testapp : string) (errors : testapp_log)
      (all_tested_configs : tested_axes) (log_results log_results' : results) :
  reorganize_category c testapp errors all_tested_configs log_results = Ok log_results' ->
  (forall k, In k (dict_keys log_results) -> In k (dict_keys log_results'))
  /\ (configs_of c errors <> [] -> In testapp (dict_keys log_results')).
Proof.
  intro H; apply reorganize_category_result in H as [(E & ->) | (E & combined & ->)].
  - split; [auto | contradiction].
  - split; [intros k Hk | intros _]; apply dict_keys_update_In; auto.
Qed.

Lemma reorganize_testapp_keys (all_tested_configs : tested_axes)
      (log_results log_results' : results) (testapp : string) (errors : testapp_log) :
  reorganize_testapp all_tested_configs log_results (testapp, errors) = Ok log_results' ->
  (forall k, In k (dict_keys log_results) -> In k (dict_keys log_results'))
  /\ forall c, configs_of c errors <> [] -> In testapp (dict_keys log_results').
Proof.
  unfold reorganize_testapp; intro H.
  apply bind_ok in H as (r1 & H1 & H); apply bind_ok in H as (r2 & H2 & H).
  apply bind_ok in H as (r3 & H3 & H4).
  apply reorganize_category_keys in H1 as (M1 & K1), H2 as (M2 & K2),
      H3 as (M3 & K3), H4 as (M4 & K4).
  split; [auto |].
  intros [] Hc; auto.
Qed.

Lemma reorganize_log_keys (all_tested_configs : tested_axes) (data : dict testapp_log) :
  forall log_results0 log_results,
    foldM (reorganize_testapp all_tested_configs) log_results0 data = Ok log_results ->
    (forall k, In k (dict_keys log_results0) -> In k (dict_keys log_results))
    /\ forall testapp errors c,
        In (testapp, errors) data -> configs_of c errors <> [] ->
        In testapp (dict_keys log_results).
Proof.
  induction data as [| [a e] data IH]; simpl; intros r0 r H.
  - injection H as <-; split; [auto | intros ? ? ? []].
  - apply bind_ok in H as (r1 & H1 & H).
    apply reorganize_testapp_keys in H1 as (M1 & K1).
    destruct (IH _ _ H) as (M & K); split; [auto |].
    intros testapp errors c [Heq | Hin] Hc.
    + injection Heq as <- <-; apply M, (K1 c Hc).
    + exact (K testapp errors c Hin Hc).
Qed.

(** ** A run with something to report *)

Lemma record_entry_nonempty (es : list entry) :
  forall data, data <> [] -> fold_left record_entry es data <> [].
Proof.
  induction es as [| [[c a] v] es IH]; simpl; intros data H; [exact H |].
  apply IH, dict_update_nonempty.
Qed.

Lemma read_state_nonempty (dir : string) (build_log_files test_log_files : list log_file) :
  recorded dir build_log_files test_log_files <> [] ->
  is_empty (log_data (read_state dir build_log_files test_log_files)) = false.
Proof.
  unfold read_state; simpl.
  destruct (recorded dir build_log_files test_log_files) as [| [[c a] v] es];
    [contradiction |]; intros _.
  change (fold_left record_entry ((c, a, v) :: es) [])
    with (fold_left record_entry es (dict_update [] a no_log (append_config c v))).
  destruct (fold_left record_entry es _) eqn:E; [| reflexivity].
  exfalso; revert E; apply record_entry_nonempty, dict_update_nonempty.
Qed.

Lemma summarize_logs_reports (dir : string) (build_log_files test_log_files : list log_file) :
  iteration_order ->
  readable_logs dir build_log_files test_log_files ->
  complete_logs dir build_log_files test_log_files ->
  recorded dir build_log_files test_log_files <> [] ->
  exists all_tested_configs log_results,
    reorganize_all_tested_configs (read_state dir build_log_files test_log_files)
    = Ok all_tested_configs
    /\ reorganize_log (log_data (read_state dir build_log_files test_log_files))
                      all_tested_configs = Ok log_results
    /\ forall markdown github_log,
        summarize_logs dir build_log_files test_log_files markdown github_log
        = Ok {| printed := Some (render markdown github_log log_results);
                returned :=
                  (forallb is_flakiness (recorded dir build_log_files test_log_files),
                   Some (render markdown github_log log_results)) |}.
Proof.
  intros Horder Hread Hcomplete Hsome.
  pose proof (read_state_sound Hcomplete) as Hsound.
  destruct (@reorganize_all_tested_configs_ok
              (read_state dir build_log_files test_log_files))
    as (axes & Haxes & Hall); [apply Hsound | apply Hsound |].
  destruct (@reorganize_log_ok _ axes Horder Hsound Hall) as (log_results & Hlog).
  exists axes, log_results; split; [exact Haxes |]; split; [exact Hlog |].
  intros markdown github_log.
  unfold summarize_logs; rewrite (read_logs_readable Hread); cbn [bind].
  rewrite (@read_state_nonempty dir build_log_files test_log_files Hsome), andb_false_r, Haxes;
    cbn [bind].
  rewrite Hlog; reflexivity.
Qed.

(** ** Where a configuration is recorded *)

Lemma configs_of_append (c c' : category) (configs : config) (errors : testapp_log)
      (value : config) :
  In value (configs_of c errors) ->
  In value (configs_of c (append_config c' configs errors)).
Proof.
  destruct c, c'; simpl; intro H; try exact H; apply in_app_iff; left; exact H.
Qed.

Lemma configs_of_append_same (c : category) (configs : config) (errors : testapp_log) :
  In configs (configs_of c (append_config c configs errors)).
Proof. destruct c; simpl; apply in_app_iff; right; left; reflexivity. Qed.

Lemma record_entry_keeps (es : list entry) (c : category) (testapp : string)
      (configs : config) :
  forall data errors,
    dict_get data testapp = Some errors -> In configs (configs_of c errors) ->
    exists errors', dict_get (fold_left record_entry es data) testapp = Some errors'
                    /\ In configs (configs_of c errors').
Proof.
  induction es as [| [[c' a] v] es IH]; simpl; intros data errors Hget Hin.
  - exists errors; auto.
  - destruct (String.eqb_spec testapp a) as [<- | Hne].
    + eapply IH; [apply dict_get_update_same |].
      rewrite Hget; apply configs_of_append, Hin.
    + eapply IH; [rewrite dict_get_update_other by exact Hne; exact Hget | exact Hin].
Qed.

Lemma record_entry_records (es : list entry) (c : category) (testapp : string)
      (configs : config) :
  In (c, testapp, configs) es ->
  forall data,
  exists errors, dict_get (fold_left record_entry es data) testapp = Some errors
                 /\ In configs (configs_of c errors).
Proof.
  induction es as [| e es IH]; intros Hin data; [destruct Hin |].
  destruct Hin as [-> | Hin]; [| apply IH, Hin].
  simpl; eapply record_entry_keeps; [apply dict_get_update_same |].
  apply configs_of_append_same.
Qed.

(** ** Sorting *)

Lemma insert_sorted_perm (x : string) (l : list string) :
  Permutation (PyStr.insert_sorted x l) (x :: l).
Proof.
  induction l as [| y l IH]; simpl; [apply Permutation_refl |].
  destruct (String.leb x y); [apply Permutation_refl |].
  eapply Permutation_trans; [apply perm_skip, IH | apply perm_swap].
Qed.

Lemma sorted_perm (l : list string) : Permutation (PyStr.sorted l) l.
Proof.
  induction l as [| x l IH]; simpl; [constructor |].
  eapply Permutation_trans; [apply insert_sorted_perm | apply perm_skip, IH].
Qed.

Lemma insert_sorted_ascending (x : string) (l : list string) :
  ascending l -> ascending (PyStr.insert_sorted x l).
Proof.
  unfold ascending; induction l as [| y l IH]; simpl; intro H.
  - repeat constructor.
  - destruct (String.leb x y) eqn:E.
    + constructor; [exact H | constructor; exact E].
    + inversion H as [| ? ? Hl Hhd]; subst.
      constructor; [apply IH, Hl |].
      assert (Eyx : String.leb y x = true)
        by (destruct (String.leb_total x y) as [E' | E']; [congruence | exact E']).
      destruct l as [| z l]; simpl.
      * constructor; exact Eyx.
      * destruct (String.leb x z); constructor; [exact Eyx |].
        inversion Hhd; assumption.
Qed.

Lemma sorted_ascending (l : list string) : ascending (PyStr.sorted l).
Proof.
  induction l as [| x l IH]; simpl; [constructor | apply insert_sorted_ascending, IH].
Qed.

Lemma sorted_In (l : list string) (x : string) : In x (PyStr.sorted l) <-> In x l.
Proof.
  split; apply Permutation_in; [| apply Permutation_sym]; apply sorted_perm.
Qed.

(** ** The lines of the renderings *)

Lemma ljust_0 (s : string) : PyStr.ljust s 0 = s.
Proof. unfold PyStr.ljust; simpl; apply append_empty_r. Qed.

Lemma print_log_names (log_results : results) (testapp : string)
      (cell : dict (list string)) :
  In (testapp, cell) log_results -> In (testapp ++ ":") (print_log log_results).
Proof.
  unfold print_log; destruct log_results as [| [a c] rest]; [intros [] |].
  cbn [flat_map testapp_lines tl app].
  intros [H | H].
  - injection H as -> ->; left; reflexivity.
  - right; apply in_app_iff; right.
    apply in_flat_map; exists (testapp, cell); split; [exact H |].
    right; left; reflexivity.
Qed.

Lemma dict_get_pop_other {V : Type} (d : dict V) (k k' : string) :
  k' <> k -> dict_get (dict_pop d k) k' = dict_get d k'.
Proof.
  intro Hne; induction d as [| [k0 v] d IH]; simpl; [reflexivity |].
  destruct (String.eqb_spec k0 k) as [-> | Hk]; simpl.
  - destruct (String.eqb_spec k k'); [congruence | exact IH].
  - destruct (k0 =? k'); [reflexivity | exact IH].
Qed.

Lemma dict_keys_pop {V : Type} (d : dict V) (k : string) :
  dict_keys (dict_pop d k) = filter (fun k' => negb (k' =? k)) (dict_keys d).
Proof.
  induction d as [| [k0 v] d IH]; simpl; [reflexivity |].
  destruct (k0 =? k); simpl; [exact IH | f_equal; exact IH].
Qed.

Lemma print_table_row (log_results : results) (testapps_width configs_width : nat)
      (space_char list_separator testapp : string) (cell : dict (list string)) :
  dict_get log_results testapp = Some cell ->
  In (testapp_row testapps_width configs_width space_char list_separator testapp cell)
     (print_table log_results testapps_width configs_width space_char list_separator).
Proof.
  intro Hget; unfold print_table.
  destruct (String.eqb_spec testapp MISSING_LOG) as [-> | Hne].
  - rewrite Hget; apply in_app_iff; left; apply in_app_iff; right; left; reflexivity.
  - apply in_app_iff; right; apply in_map_iff; exists testapp; split.
    + unfold cell_of; rewrite dict_get_pop_other, Hget by exact Hne; reflexivity.
    + apply sorted_In; rewrite dict_keys_pop; apply filter_In; split.
      * apply dict_get_keys; exists cell; exact Hget.
      * apply negb_true_iff, String.eqb_neq, Hne.
Qed.

Lemma testapp_row_name (testapps_width configs_width : nat)
      (space_char list_separator testapp : string) (cell : dict (list string)) :
  contains (PyStr.sub_word_space space_char (PyStr.ljust testapp testapps_width))
           (testapp_row testapps_width configs_width space_char list_separator
                        testapp cell).
Proof.
  unfold testapp_row, table_row.
  do 2 apply contains_append_r; apply contains_append_l, contains_refl.
Qed.

Lemma render_log_name (github_log : bool) (log_results : results) (testapp : string) :
  In testapp (dict_keys log_results) ->
  contains testapp (render false github_log log_results).
Proof.
  intro H; apply in_map_iff in H as ([a cell] & Heq & Hin); simpl in Heq; subst a.
  apply print_log_names in Hin.
  apply contains_trans with (b := testapp ++ ":");
    [apply contains_append_l, contains_refl |].
  unfold render; destruct github_log; cbv beta iota.
  - unfold print_github_log.
    eapply contains_trans; [| apply join_contains; left; reflexivity].
    apply join_contains, in_or_app; right; exact Hin.
  - apply join_contains, Hin.
Qed.

Lemma render_table_name (github_log : bool) (log_results : results) (testapp : string) :
  In testapp (dict_keys log_results) ->
  contains (PyStr.sub_word_space "&nbsp;" testapp) (render true github_log log_results).
Proof.
  intro H; apply dict_get_keys in H as (cell & Hget).
  unfold render, print_markdown_table.
  eapply contains_trans; [| apply join_contains, (print_table_row _ 0 0 _ _ _ Hget)].
  rewrite <- (ljust_0 testapp) at 1; apply testapp_row_name.
Qed.

(** ** The marker of a missing summary *)

Lemma sentinel_build_entry (dir : string) (build_log_files test_log_files : list log_file)
      (f : log_file) :
  has_sentinel f = true -> In f build_log_files ->
  In (BuildError, MISSING_LOG, config_of (log_name_re dir BUILD_FILE_PREFIX) f)
     (recorded dir build_log_files test_log_files).
Proof.
  intros Hs Hf; unfold recorded; apply in_app_iff; left.
  apply in_flat_map; exists f; split; [exact Hf |].
  unfold entries_of, build_entries; rewrite Hs; left; reflexivity.
Qed.

Lemma sentinel_test_entry (dir : string) (build_log_files test_log_files : list log_file)
      (f : log_file) :
  has_sentinel f = true -> In f test_log_files ->
  In (TestError, MISSING_LOG, config_of (log_name_re dir TEST_FILE_PREFIX) f)
     (recorded dir build_log_files test_log_files).
Proof.
  intros Hs Hf; unfold recorded; apply in_app_iff; right.
  apply in_flat_map; exists f; split; [exact Hf |].
  unfold entries_of, test_entries; rewrite Hs; left; reflexivity.
Qed.

Lemma not_only_flakiness (es : list entry) (e : entry) :
  In e es -> is_flakiness e = false -> forallb is_flakiness es = false.
Proof.
  intros Hin He; destruct (forallb is_flakiness es) eqn:E; [| reflexivity].
  rewrite forallb_forall in E; rewrite (E e Hin) in He; discriminate He.
Qed.

(** X20.  In a directory whose name has no star, when a log holds the
    marker of a missing summary, and the logs can be read and give complete
    vectors (a device that [TEST_DEVICES] describes as real or as virtual
    on the device axis), [summarize_logs] raises nothing: it records the
    vector of that log under [missing_log] (among the build errors for a
    build log, among the test errors for a test log), returns [False] as
    its first component, and prints and returns the rendering of the
    aggregated result, of which [missing_log] is a test application and
    whose text names it, in each of the three renderings. *)
Theorem missing_log_reported :
  forall (dir : string) (build_log_files test_log_files : list log_file)
         (markdown github_log : bool) (f : log_file),
    iteration_order ->
    PyStr.has_char "*"%char dir = false ->
    readable_logs dir build_log_files test_log_files ->
    complete_logs dir build_log_files test_log_files ->
    has_sentinel f = true ->
    In f build_log_files \/ In f test_log_files ->
    exists st errors all_tested_configs log_results,
      read_logs dir build_log_files test_log_files = Ok st
      /\ dict_get (log_data st) MISSING_LOG = Some errors
      /\ (In f build_log_files ->
          In (config_of (log_name_re dir BUILD_FILE_PREFIX) f) (build errors))
      /\ (In f test_log_files ->
          In (config_of (log_name_re dir TEST_FILE_PREFIX) f) (test_errors errors))
      /\ reorganize_all_tested_configs st = Ok all_tested_configs
      /\ reorganize_log (log_data st) all_tested_configs = Ok log_results
      /\ In MISSING_LOG (dict_keys log_results)
      /\ summarize_logs dir build_log_files test_log_files markdown github_log
         = Ok {| printed := Some (render markdown github_log log_results);
                 returned := (false, Some (render markdown github_log log_results)) |}
      /\ contains MISSING_LOG (render markdown github_log log_results).
Proof.
  intros dir builds tests markdown github_log f Horder _ Hread Hcomplete Hs Hf.
  set (es := recorded dir builds tests).
  assert (Hentry : exists c v, In (c, MISSING_LOG, v) es /\ is_flakiness (c, MISSING_LOG, v) = false).
  { destruct Hf as [Hf | Hf]; do 2 eexists; split;
      [apply (sentinel_build_entry dir builds tests f Hs Hf) | reflexivity
       | apply (sentinel_test_entry dir builds tests f Hs Hf) | reflexivity]. }
  destruct Hentry as (c & v & Hin & Hflaky).
  destruct (@record_entry_records es c MISSING_LOG v Hin []) as (errors & Hget & Hv).
  assert (Hsome : es <> []) by (intros E; rewrite E in Hin; destruct Hin).
  destruct (@summarize_logs_reports dir builds tests Horder Hread Hcomplete Hsome)
    as (axes & log_results & Haxes & Hlog & Hrun).
  assert (Hkey : In MISSING_LOG (dict_keys log_results)).
  { apply (reorganize_log_keys _ _ _ Hlog) with (errors := errors) (c := c).
    - apply dict_get_In; exact Hget.
    - intro E; rewrite E in Hv; destruct Hv. }
  exists (read_state dir builds tests), errors, axes, log_results.
  split; [apply read_logs_readable, Hread |].
  split; [exact Hget |].
  split; [| split; [| split; [exact Haxes | split; [exact Hlog | split; [exact Hkey |]]]]];
    [| | split].
  - intro Hb.
    destruct (@record_entry_records es BuildError MISSING_LOG _
                (sentinel_build_entry dir builds tests f Hs Hb) [])
      as (errors' & Hget' & Hv').
    fold es in Hget'; unfold read_state in Hget; simpl in Hget; fold es in Hget.
    rewrite Hget in Hget'; injection Hget' as <-; exact Hv'.
  - intro Ht.
    destruct (@record_entry_records es TestError MISSING_LOG _
                (sentinel_test_entry dir builds tests f Hs Ht) [])
      as (errors' & Hget' & Hv').
    fold es in Hget'; unfold read_state in Hget; simpl in Hget; fold es in Hget.
    rewrite Hget in Hget'; injection Hget' as <-; exact Hv'.
  - rewrite Hrun; fold es; rewrite (not_only_flakiness _ _ Hin Hflaky); reflexivity.
  - destruct markdown.
    + apply (render_table_name github_log) in Hkey; exact Hkey.
    + apply render_log_name; exact Hkey.
Qed.

(** ** Flakiness alone *)

Lemma forallb_flat_map {A B : Type} (p : B -> bool) (g : A -> list B) (l : list A) :
  Forall (fun x => forallb p (g x) = true) l -> forallb p (flat_map g l) = true.
Proof.
  induction 1 as [| x l Hx _ IH]; simpl; [reflexivity |].
  rewrite forallb_app, Hx, IH; reflexivity.
Qed.

Lemma flaky_test_log_entries (dir : string) (f : log_file) :
  flaky_test_log dir f ->
  readable test_entries (log_name_re dir TEST_FILE_PREFIX) f
  /\ forallb is_flakiness (entries_of test_entries (log_name_re dir TEST_FILE_PREFIX) f)
     = true.
Proof.
  intros (Hname & Hs & data & testapps & Hjson & He & Hf & Hk).
  unfold readable, entries_of, test_entries; rewrite Hs, Hjson, He, Hf, Hk; simpl.
  repeat split; [apply found_by_glob_ok, Hname |].
  rewrite map_map; apply forallb_forall; intros e Hin.
  apply in_map_iff in Hin as (a & <- & _); reflexivity.
Qed.

(** X21.  In a directory whose name has no star, when some test log has
    an entry under "flakiness", while no log has an entry under "errors" or
    "failures" and none holds the marker, and the logs give complete
    vectors (a device that [TEST_DEVICES] describes as real or as virtual
    on the device axis), [summarize_logs] returns [True] with a summary
    text, which it has printed. *)
Theorem only_flakiness_reported :
  forall (dir : string) (build_log_files test_log_files : list log_file)
         (markdown github_log : bool),
    iteration_order ->
    PyStr.has_char "*"%char dir = false ->
    Forall (quiet_build_log dir) build_log_files ->
    Forall (flaky_test_log dir) test_log_files ->
    Exists has_flakiness test_log_files ->
    complete_logs dir build_log_files test_log_files ->
    exists text,
      summarize_logs dir build_log_files test_log_files markdown github_log
      = Ok {| printed := Some text; returned := (true, Some text) |}.
Proof.
  intros dir builds tests markdown github_log Horder _ Hb Ht Hsome Hcomplete.
  assert (Hread : readable_logs dir builds tests).
  { split; eapply Forall_impl; try eassumption; intros f Hf.
    - apply (quiet_build_log_entries Hf).
    - apply (flaky_test_log_entries Hf). }
  assert (Hflaky : forallb is_flakiness (recorded dir builds tests) = true).
  { unfold recorded; rewrite forallb_app, !forallb_flat_map; [reflexivity | |].
    - eapply Forall_impl; [| exact Ht]; intros f Hf; apply (flaky_test_log_entries Hf).
    - eapply Forall_impl; [| exact Hb]; intros f Hf.
      destruct (quiet_build_log_entries Hf) as (_ & ->); reflexivity. }
  assert (Hne : recorded dir builds tests <> []).
  { apply Exists_exists in Hsome as (f & Hin & data & a & rest & Hjson & Hk).
    rewrite Forall_forall in Ht.
    destruct (Ht f Hin) as (_ & Hs & data' & testapps & Hjson' & He & Hf & Hk').
    rewrite Hjson in Hjson'; injection Hjson' as <-.
    intro E.
    assert (Hin' : In (TestFlakiness, a, config_of (log_name_re dir TEST_FILE_PREFIX) f)
                      (recorded dir builds tests)).
    { unfold recorded; apply in_app_iff; right; apply in_flat_map; exists f.
      split; [exact Hin |].
      unfold entries_of, test_entries; rewrite Hs, Hjson, He, Hf, Hk; simpl.
      left; reflexivity. }
    rewrite E in Hin'; destruct Hin'. }
  destruct (@summarize_logs_reports dir builds tests Horder Hread Hcomplete Hne)
    as (axes & log_results & _ & _ & Hrun).
  exists (render markdown github_log log_results).
  rewrite Hrun, Hflaky; reflexivity.
Qed.

(** ** No failed test is ever listed *)

Lemma flat_map_ext_In {A B : Type} (f g : A -> list B) (l : list A) :
  (forall x, In x l -> f x = g x) -> flat_map f l = flat_map g l.
Proof.
  induction l as [| x l IH]; simpl; intro H; [reflexivity |].
  rewrite (H x (or_introl eq_refl)), IH; [reflexivity |].
  intros y Hy; apply H; right; exact Hy.
Qed.

Lemma config_lines_plain (cell : dict (list string)) :
  (forall label tests, In (label, tests) cell -> tests = []) ->
  flat_map config_lines cell = map (fun item => "  - " ++ fst item) cell.
Proof.
  induction cell as [| [label tests] cell IH]; simpl; intro H; [reflexivity |].
  rewrite (H label tests (or_introl eq_refl)); simpl; f_equal.
  apply IH; intros l t Hin; apply (H l t); right; exact Hin.
Qed.

Lemma format_entry_plain (space_char list_separator : string) (cell : dict (list string)) :
  (forall label tests, In (label, tests) cell -> tests = []) ->
  map (format_entry space_char list_separator) cell
  = map (fun item => fst item ++ list_separator) cell.
Proof.
  intro H; apply map_ext_in; intros [label tests] Hin.
  rewrite (H label tests Hin); reflexivity.
Qed.

(** C9.  In the result that [reorganize_log] builds, every list of failed
    tests is empty.  So [print_log] prints what it would print without its
    branch for the line "- failed tests:", and [format_result] returns what
    it would return without its branch for "(n failed tests)". *)
Theorem no_failed_tests_listed :
  forall (data : dict testapp_log) (all_tested_configs : tested_axes)
         (log_results : results),
    reorganize_log data all_tested_configs = Ok log_results ->
    (forall testapp cell label tests,
        In (testapp, cell) log_results -> In (label, tests) cell -> tests = [])
    /\ print_log log_results = print_log_plain log_results
    /\ forall testapp cell space_char list_separator justify,
        In (testapp, cell) log_results ->
        format_result cell space_char list_separator justify
        = format_result_plain cell list_separator justify.
Proof.
  intros data axes log_results H.
  apply reorganize_log_plain in H as (_ & Hcells).
  assert (Hempty : forall testapp cell label tests,
             In (testapp, cell) log_results -> In (label, tests) cell -> tests = []).
  { intros a cell label tests Hcell; apply (Hcells a cell Hcell). }
  split; [exact Hempty |]; split.
  - unfold print_log, print_log_plain; f_equal.
    apply flat_map_ext_In; intros [a cell] Hin.
    unfold testapp_lines, testapp_lines_plain.
    rewrite (@config_lines_plain cell (fun l t => Hempty a cell l t Hin)); reflexivity.
  - intros a cell space_char list_separator justify Hin.
    unfold format_result, format_result_plain.
    rewrite (@format_entry_plain space_char list_separator cell
               (fun l t => Hempty a cell l t Hin)).
    reflexivity.
Qed.

(** ** Cells of the Markdown table *)

Lemma length_append (a b : string) :
  String.length (a ++ b) = String.length a + String.length b.
Proof. induction a as [| c a IH]; simpl; [reflexivity | rewrite IH; reflexivity]. Qed.

Lemma append_inj_r (s a b : string) : a ++ s = b ++ s -> a = b.
Proof.
  revert b; induction a as [| c a IH]; intros [| d b] H.
  - reflexivity.
  - apply (f_equal String.length) in H; simpl in H; rewrite length_append in H; lia.
  - apply (f_equal String.length) in H; simpl in H; rewrite length_append in H; lia.
  - simpl in H; injection H as -> H; f_equal; apply IH, H.
Qed.

Lemma set_of_list_from_NoDup (l : list string) :
  forall s, NoDup (s ++ l) -> fold_left (fun s x => set_add x s) l s = (s ++ l)%list.
Proof.
  induction l as [| x l IH]; intros s H; simpl.
  - rewrite app_nil_r; reflexivity.
  - assert (Hx : set_mem x s = false).
    { apply set_mem_false; intro Hin.
      apply NoDup_remove_2 in H; apply H, in_or_app; left; exact Hin. }
    unfold set_add at 2; rewrite Hx.
    rewrite IH; rewrite <- app_assoc; [reflexivity | exact H].
Qed.

Lemma set_of_list_NoDup_id (l : list string) : NoDup l -> set_of_list l = l.
Proof. intro H; apply (set_of_list_from_NoDup l [] H). Qed.

Lemma NoDup_map_injective {A B : Type} (f : A -> B) (l : list A) :
  (forall a b, f a = f b -> a = b) -> NoDup l -> NoDup (map f l).
Proof.
  intros Hinj; induction 1 as [| x l Hx _ IH]; simpl; constructor; [| exact IH].
  intro Hin; apply in_map_iff in Hin as (y & Heq & Hy).
  apply Hinj in Heq; subst y; exact (Hx Hy).
Qed.

Lemma plain_cell_entries (cell : dict (list string)) (list_separator : string) :
  plain_cell cell ->
  set_of_list (map (fun item => fst item ++ list_separator) cell)
  = map (fun item => fst item ++ list_separator) cell.
Proof.
  intros (_ & Hnd & _); apply set_of_list_NoDup_id.
  rewrite <- (map_map fst (fun label => label ++ list_separator)).
  apply NoDup_map_injective; [| exact Hnd].
  intros a b; apply append_inj_r.
Qed.

(** C5.  In the Markdown table, a cell of the aggregated result with more
    than 3 configuration entries is rendered as one "details" widget whose
    summary states the number of entries; a cell is rendered inline, its
    entries one after the other, only with 3 entries or fewer. *)
Theorem markdown_cell_collapse :
  forall (data : dict testapp_log) (all_tested_configs : tested_axes)
         (log_results : results) (testapp : string) (cell : dict (list string)),
    reorganize_log data all_tested_configs = Ok log_results ->
    In (testapp, cell) log_results ->
    let entries := PyStr.sorted (map (fun item => fst item ++ "<br/>") cell) in
    List.length entries = List.length cell
    /\ (3 < List.length cell ->
        format_result cell "&nbsp;" "<br/>" 0
        = "<details><summary>(" ++ PyStr.dec (List.length cell) ++ " items)</summary>"
            ++ PyStr.join EmptyString entries ++ "</details>")
    /\ (List.length cell <= 3 ->
        format_result cell "&nbsp;" "<br/>" 0 = PyStr.join EmptyString entries).
Proof.
  intros data axes log_results testapp cell H Hin entries.
  apply reorganize_log_plain in H as (_ & Hcells).
  pose proof (Hcells testapp cell Hin) as Hplain.
  assert (Hformat :
    format_result cell "&nbsp;" "<br/>" 0
    = if (LIST_MAX <? List.length cell)%nat
      then "<details><summary>(" ++ PyStr.dec (List.length cell) ++ " items)</summary>"
             ++ PyStr.join EmptyString entries ++ "</details>"
      else PyStr.join EmptyString entries).
  { unfold format_result.
    rewrite (@format_entry_plain "&nbsp;" "<br/>" cell (proj2 (proj2 Hplain))).
    rewrite (@plain_cell_entries cell "<br/>" Hplain), length_map, ljust_0; reflexivity. }
  split; [| split].
  - unfold entries; rewrite (Permutation_length (sorted_perm _)); apply length_map.
  - intro Hlt; rewrite Hformat.
    change LIST_MAX with 3; apply Nat.ltb_lt in Hlt; rewrite Hlt; reflexivity.
  - intro Hle; rewrite Hformat.
    change LIST_MAX with 3; apply Nat.ltb_ge in Hle; rewrite Hle; reflexivity.
Qed.

(** ** Rows of the table *)

(** C10.  For a [space_char] without backslash, as " " and "&nbsp;" are,
    [print_table] returns the header line and the rule, then the row of
    [missing_log] if there is one, then one row for each other test
    application, these in ascending order of their names. *)
Theorem print_table_row_order :
  forall (log_results : results) (testapps_width configs_width : nat)
         (space_char list_separator : string),
  PyStr.has_char PyStr.backslash space_char = false ->
  exists header rule others,
    print_table log_results testapps_width configs_width space_char list_separator
    = (header :: rule
         :: match dict_get log_results MISSING_LOG with
            | Some cell =>
                [testapp_row testapps_width configs_width space_char list_separator
                             MISSING_LOG cell]
            | None => []
            end
         ++ map (fun testapp =>
                   testapp_row testapps_width configs_width space_char list_separator
                               testapp (cell_of log_results testapp))
                others)%list
    /\ ascending others
    /\ Permutation others
         (filter (fun testapp => negb (testapp =? MISSING_LOG)) (dict_keys log_results)).
Proof.
  intros log_results testapps_width configs_width space_char list_separator _.
  eexists _, _, (PyStr.sorted (dict_keys (dict_pop log_results MISSING_LOG))).
  split; [| split].
  - unfold print_table.
    assert (Hrows :
      map (fun testapp =>
             testapp_row testapps_width configs_width space_char list_separator
                         testapp (cell_of (dict_pop log_results MISSING_LOG) testapp))
          (PyStr.sorted (dict_keys (dict_pop log_results MISSING_LOG)))
      = map (fun testapp =>
               testapp_row testapps_width configs_width space_char list_separator
                           testapp (cell_of log_results testapp))
            (PyStr.sorted (dict_keys (dict_pop log_results MISSING_LOG)))).
    { apply map_ext_in; intros a Ha.
      apply (proj1 (sorted_In _ _)) in Ha; rewrite dict_keys_pop in Ha.
      apply filter_In in Ha as (_ & Hne).
      apply negb_true_iff, String.eqb_neq in Hne.
      unfold cell_of; rewrite dict_get_pop_other by exact Hne; reflexivity. }
    rewrite Hrows.
    destruct (dict_get log_results MISSING_LOG); reflexivity.
  - apply sorted_ascending.
  - rewrite <- dict_keys_pop; apply sorted_perm.
Qed.

(** ** One failure *)

Lemma flat_config_category (c : category) (axes : list pyobj) :
  flat_config (category_words c ++ axes)
  = category_text c
      ++ match axes with
         | [] => EmptyString
         | _ => " " ++ flat_config axes
         end.
Proof. destruct c, axes as [| axis axes]; reflexivity. Qed.

Lemma reorganize_log_single (c : category) (testapp : string) (configs : config)
      (all_tested_configs : tested_axes) (log_results : results) :
  reorganize_log [(testapp, append_config c configs no_log)] all_tested_configs
  = Ok log_results ->
  exists combined,
    log_results
    = [(testapp, [(flat_config (category_words c ++ map PList combined), [])])].
Proof.
  unfold reorganize_log; cbn [foldM]; intro H.
  apply bind_ok in H as (r & H & Hr); injection Hr as <-.
  unfold reorganize_testapp in H.
  apply bind_ok in H as (r1 & H1 & H); apply bind_ok in H as (r2 & H2 & H).
  apply bind_ok in H as (r3 & H3 & H4).
  apply reorganize_category_result in H1 as [(E1 & ->) | (E1 & c1 & ->)],
      H2 as [(E2 & ->) | (E2 & c2 & ->)],
      H3 as [(E3 & ->) | (E3 & c3 & ->)],
      H4 as [(E4 & ->) | (E4 & c4 & ->)];
    destruct c; simpl in E1, E2, E3, E4;
    try discriminate; try (exfalso; congruence);
    eexists; reflexivity.
Qed.

Lemma print_table_single (testapp : string) (cell : dict (list string))
      (testapps_width configs_width : nat) (space_char list_separator : string) :
  print_table [(testapp, cell)] testapps_width configs_width space_char list_separator
  = [table_row
       (PyStr.sub_word_space space_char (PyStr.ljust TESTAPPS_HEADER testapps_width))
       (PyStr.sub_word_space space_char (PyStr.ljust CONFIGS_HEADER configs_width));
     table_rule
       (PyStr.dash_all_but_bar
          (PyStr.sub_word_space space_char (PyStr.ljust TESTAPPS_HEADER testapps_width)))
       (PyStr.dash_all_but_bar
          (PyStr.sub_word_space space_char (PyStr.ljust CONFIGS_HEADER configs_width)));
     testapp_row testapps_width configs_width space_char list_separator testapp cell].
Proof.
  unfold print_table, dict_pop, cell_of; cbn [dict_get filter fst snd].
  destruct (String.eqb_spec testapp MISSING_LOG) as [-> | Hne]; cbn [negb].
  - reflexivity.
  - cbn [dict_keys map fst PyStr.sorted PyStr.insert_sorted app dict_get].
    rewrite String.eqb_refl; reflexivity.
Qed.

Lemma format_result_single (label space_char list_separator : string) :
  format_result [(label, [])] space_char list_separator 0 = label ++ list_separator.
Proof. unfold format_result; simpl; apply ljust_0. Qed.

Lemma render_single_log (testapp label : string) :
  render false false [(testapp, [(label, [])])] = single_log_text testapp label.
Proof.
  unfold render, print_log, single_log_text, line_break.
  cbn [flat_map testapp_lines config_lines tl app List.app is_empty List.length Nat.ltb
       Nat.leb PyStr.join String.concat].
  rewrite !append_assoc; reflexivity.
Qed.

Lemma markdown_header :
  table_row (PyStr.sub_word_space "&nbsp;" (PyStr.ljust TESTAPPS_HEADER 0))
            (PyStr.sub_word_space "&nbsp;" (PyStr.ljust CONFIGS_HEADER 0))
  = "| Failures | Configs |".
Proof. reflexivity. Qed.

Lemma markdown_rule :
  table_rule
    (PyStr.dash_all_but_bar
       (PyStr.sub_word_space "&nbsp;" (PyStr.ljust TESTAPPS_HEADER 0)))
    (PyStr.dash_all_but_bar
       (PyStr.sub_word_space "&nbsp;" (PyStr.ljust CONFIGS_HEADER 0)))
  = "|----------|---------|".
Proof. reflexivity. Qed.

Lemma render_single_table (github_log : bool) (testapp label : string) :
  render true github_log [(testapp, [(label, [])])]
  = single_table_text (PyStr.sub_word_space "&nbsp;" testapp) label.
Proof.
  unfold render, print_markdown_table.
  rewrite print_table_single, markdown_header, markdown_rule.
  unfold testapp_row; rewrite format_result_single, ljust_0.
  unfold single_table_text, line_break, table_row.
  cbn [PyStr.join String.concat].
  rewrite !append_assoc; reflexivity.
Qed.

Lemma typed_device_ok (kind device : string) :
  typed_device device -> exists b, device_has_type kind device = Ok b.
Proof.
  unfold typed_device, device_has_type.
  destruct (dict_get TEST_DEVICES device) as [[| item info] |].
  - intros _; eexists; reflexivity.
  - destruct (dict_get (item :: info) "type") as [type |].
    + intros _; eexists; reflexivity.
    + intro H; exfalso; apply H; reflexivity.
  - intros _; eexists; reflexivity.
Qed.

Lemma filter_devices_typed (kind : string) (devices : list string) :
  (forall d, In d devices -> typed_device d) ->
  exists kept, filter_devices kind devices = Ok kept.
Proof.
  induction devices as [| device devices IH]; intro Htyped; simpl.
  - eexists; reflexivity.
  - destruct (@typed_device_ok kind device) as (b & Hb);
      [apply Htyped; left; reflexivity |].
    destruct IH as (kept & Hkept); [intros d Hd; apply Htyped; right; exact Hd |].
    rewrite Hb, Hkept; simpl; eexists; reflexivity.
Qed.

Lemma devices_of_type_typed (kind : string) (config_value : pyset) :
  iteration_order -> NoDup config_value ->
  (forall d, In d config_value -> typed_device d) ->
  exists devices, devices_of_type kind config_value = Ok devices /\ NoDup devices.
Proof.
  intros Horder Hnd Htyped; unfold devices_of_type.
  destruct (@filter_devices_typed kind (set_iter config_value)) as (kept & Hkept).
  { intros d Hd; apply Htyped; eapply Permutation_in; [apply Horder, Hnd | exact Hd]. }
  rewrite Hkept; simpl; eexists; split; [reflexivity | apply set_of_list_NoDup].
Qed.

(** With one failing value no group of devices is folded. *)
Lemma combine_config_one (config config_value : pyset) (k : nat) (config_name : string) :
  iteration_order ->
  nth_error BUILD_CONFIGS k = Some config_name ->
  NoDup config_value -> List.length config <= 1 ->
  (config_name = "Test Device(s)" -> forall d, In d config_value -> typed_device d) ->
  exists labels, combine_config config config_value k = Ok labels.
Proof.
  intros Horder Hname Hndv Hone Hdev; unfold combine_config; rewrite Hname.
  destruct ((1 <? List.length config_value)%nat
            && (List.length config =? List.length config_value)%nat) eqn:Eall.
  { simpl; eexists; reflexivity. }
  destruct (String.eqb_spec config_name "Test Device(s)") as [Hd | _].
  2: { simpl; eexists; reflexivity. }
  specialize (Hdev Hd).
  destruct (@devices_of_type_typed "real" config_value Horder Hndv Hdev)
    as (ftl & Hftl & Hndf).
  destruct (@devices_of_type_typed "virtual" config_value Horder Hndv Hdev)
    as (virt & Hvirt & _).
  rewrite Hftl, Hvirt; cbn [bind].
  rewrite collapse_devices_on_set.
  destruct ((1 <? List.length ftl)%nat && set_subset ftl config) eqn:Eftl; cbn [bind].
  - exfalso; apply andb_true_iff in Eftl as (E1 & E2).
    apply Nat.ltb_lt in E1; apply set_subset_incl in E2.
    pose proof (NoDup_incl_length Hndf E2); lia.
  - destruct (collapse_devices_set
                ("All " ++ PyStr.dec (List.length virt) ++ " Virtual Devices")
                virt config) as (config' & ->).
    simpl; eexists; reflexivity.
Qed.

Lemma combine_configs_one (configs : config) (tested : list config)
      (all_configs : list pyset) :
  iteration_order ->
  In configs tested -> Forall usable_config tested ->
  reorganize_configs tested = Ok all_configs ->
  exists error_configs combined,
    reorganize_configs [configs] = Ok error_configs
    /\ combine_configs error_configs all_configs = Ok combined.
Proof.
  intros Horder Hin Husable Htested.
  rewrite Forall_forall in Husable.
  assert (Hnet : tested <> []) by (intros ->; destruct Hin).
  destruct (@reorganize_configs_spec tested Hnet) as (sets & Hsets & Hlen & Hcol);
    [intros v Hv; apply (Husable v Hv) |].
  rewrite Hsets in Htested; injection Htested as <-.
  destruct (@reorganize_configs_spec [configs]) as (error_configs & Herr & Hlen' & Hcol');
    [discriminate | intros v [<- | []]; apply (Husable _ Hin) |].
  exists error_configs.
  destruct (@combine_configs_from_ok sets error_configs 0) as (combined & Hcombined);
    [| exists combined; split; [exact Herr | exact Hcombined]].
  intros j error_config Hj; simpl.
  assert (Hlt : j < List.length BUILD_CONFIGS).
  { rewrite <- Hlen'; apply nth_error_Some; rewrite Hj; discriminate. }
  destruct (Hcol j Hlt) as (config_value & Hv & Hndv & Hinv).
  destruct (Hcol' j Hlt) as (c & Hc & Hndc & Hinc).
  rewrite Hj in Hc; injection Hc as <-.
  destruct (nth_error BUILD_CONFIGS j) as [config_name |] eqn:Ename.
  2: { apply nth_error_None in Ename; lia. }
  destruct (@combine_config_one error_config config_value j config_name) as (labels & Hl);
    try assumption.
  - destruct error_config as [| a [| b rest]]; simpl; try lia.
    exfalso.
    assert (Ha : column j [configs] a) by (apply Hinc; left; reflexivity).
    assert (Hb : column j [configs] b) by (apply Hinc; right; left; reflexivity).
    destruct Ha as (v & [<- | []] & Ha), Hb as (w & [<- | []] & Hb).
    rewrite Ha in Hb; injection Hb as <-.
    apply NoDup_cons_iff in Hndc as (Hnot & _); apply Hnot; left; reflexivity.
  - intros -> d Hd; apply Hinv in Hd as (v & Hv' & Hnth).
    eapply (proj2 (Husable v Hv')); eassumption.
  - exists config_value, labels; split; assumption.
Qed.

Lemma reorganize_log_one (c : category) (testapp : string) (configs : config)
      (st : reading) (all_tested_configs : tested_axes) :
  iteration_order ->
  In configs (vectors_of c st) -> Forall usable_config (vectors_of c st) ->
  reorganize_configs (vectors_of c st) = Ok (axes_of c all_tested_configs) ->
  exists log_results,
    reorganize_log [(testapp, append_config c configs no_log)] all_tested_configs
    = Ok log_results.
Proof.
  intros Horder Hin Husable Haxes.
  destruct (@combine_configs_one configs (vectors_of c st) (axes_of c all_tested_configs)
              Horder Hin Husable Haxes)
    as (error_configs & combined & Herr & Hcombined).
  unfold reorganize_log; cbn [foldM]; unfold reorganize_testapp, reorganize_category.
  destruct c;
    cbn [configs_of append_config no_log build test_errors test_failures test_flakiness
         List.app bind];
    rewrite Herr; cbn [bind]; rewrite Hcombined; cbn [bind]; eexists; reflexivity.
Qed.

Lemma reorganize_all_tested_configs_usable (st : reading) :
  Forall usable_config (build_configs st) ->
  Forall usable_config (test_configs st) ->
  exists all_tested_configs,
    reorganize_all_tested_configs st = Ok all_tested_configs
    /\ forall c, reorganize_configs (vectors_of c st) = Ok (axes_of c all_tested_configs).
Proof.
  intros Hb Ht; unfold reorganize_all_tested_configs.
  assert (Hany : forall vectors, Forall usable_config vectors ->
                                 exists sets, reorganize_configs vectors = Ok sets).
  { intros [| v vectors] H; [exists []; reflexivity |].
    destruct (@reorganize_configs_spec (v :: vectors)) as (sets & Hsets & _);
      [discriminate | | exists sets; exact Hsets].
    rewrite Forall_forall in H; intros w Hw; apply (H w Hw). }
  destruct (Hany _ Hb) as (bsets & Hbsets); destruct (Hany _ Ht) as (tsets & Htsets).
  rewrite Hbsets, Htsets; simpl; eexists; split; [reflexivity |].
  intros []; assumption.
Qed.

(** The run on logs that record one failure. *)
Lemma summarize_logs_one (dir : string) (build_log_files test_log_files : list log_file)
      (c : category) (testapp : string) (configs : config) :
  iteration_order ->
  readable_logs dir build_log_files test_log_files ->
  usable_logs dir build_log_files test_log_files ->
  recorded dir build_log_files test_log_files = [(c, testapp, configs)] ->
  exists all_tested_configs log_results,
    reorganize_log [(testapp, append_config c configs no_log)] all_tested_configs
    = Ok log_results
    /\ forall markdown github_log,
        summarize_logs dir build_log_files test_log_files markdown github_log
        = Ok {| printed := Some (render markdown github_log log_results);
                returned := (is_flakiness (c, testapp, configs),
                             Some (render markdown github_log log_results)) |}.
Proof.
  intros Horder Hread (Hb & Ht) Hone.
  assert (Hsome : recorded dir build_log_files test_log_files <> [])
    by (rewrite Hone; discriminate).
  assert (Hvb : Forall usable_config
                       (build_configs (read_state dir build_log_files test_log_files)))
    by (apply Forall_map; exact Hb).
  assert (Hvt : Forall usable_config
                       (test_configs (read_state dir build_log_files test_log_files)))
    by (apply Forall_map; exact Ht).
  assert (Hvec : forall c', Forall usable_config
                   (vectors_of c' (read_state dir build_log_files test_log_files)))
    by (intros []; assumption).
  destruct (@reorganize_all_tested_configs_usable _ Hvb Hvt) as (axes & Haxes & Hall).
  assert (Hin : In configs
                   (vectors_of c (read_state dir build_log_files test_log_files))).
  { apply (@recorded_tested dir build_log_files test_log_files c testapp).
    rewrite Hone; left; reflexivity. }
  destruct (@reorganize_log_one c testapp configs _ axes Horder Hin (Hvec c) (Hall c))
    as (log_results & Hlog).
  exists axes, log_results; split; [exact Hlog |].
  intros markdown github_log.
  unfold summarize_logs; rewrite (read_logs_readable Hread); cbn [bind].
  rewrite (@read_state_nonempty dir build_log_files test_log_files Hsome), andb_false_r, Haxes;
    cbn [bind].
  unfold read_state at 1; cbn [log_data]; rewrite Hone.
  change (fold_left record_entry [(c, testapp, configs)] [])
    with [(testapp, append_config c configs no_log)].
  rewrite Hlog; unfold read_state; cbn [success_or_only_flakiness forallb].
  rewrite Hone; cbn [forallb]; rewrite andb_true_r; reflexivity.
Qed.

(** C7, amended.  In a directory whose name has no star, when the logs
    can be read, give a value for each axis (on the device axis any
    device, listed in [TEST_DEVICES] or not, whose description has a type
    if it has one) and record exactly one failure (one category, one test
    application, one configuration), the text log consists of the name of
    the test application and of its label, which begins with the words of
    the category; the Markdown table has one row with the same label and
    with the name in which every space between two word characters is
    replaced by "&nbsp;". *)
Theorem single_failure_named :
  forall (dir : string) (build_log_files test_log_files : list log_file)
         (c : category) (testapp : string) (configs : config),
    iteration_order ->
    PyStr.has_char "*"%char dir = false ->
    readable_logs dir build_log_files test_log_files ->
    usable_logs dir build_log_files test_log_files ->
    recorded dir build_log_files test_log_files = [(c, testapp, configs)] ->
    exists axes_text log_text table_text,
      summarize_logs dir build_log_files test_log_files false false
      = Ok {| printed := Some log_text;
              returned := (is_flakiness (c, testapp, configs), Some log_text) |}
      /\ log_text = single_log_text testapp (category_text c ++ axes_text)
      /\ contains testapp log_text /\ contains (category_text c) log_text
      /\ summarize_logs dir build_log_files test_log_files true false
         = Ok {| printed := Some table_text;
                 returned := (is_flakiness (c, testapp, configs), Some table_text) |}
      /\ table_text
         = single_table_text (PyStr.sub_word_space "&nbsp;" testapp)
                             (category_text c ++ axes_text)
      /\ contains (PyStr.sub_word_space "&nbsp;" testapp) table_text
      /\ contains (category_text c) table_text.
Proof.
  intros dir builds tests c testapp configs Horder _ Hread Husable Hone.
  destruct (@summarize_logs_one dir builds tests c testapp configs
              Horder Hread Husable Hone)
    as (axes & log_results & Hlog & Hrun).
  apply reorganize_log_single in Hlog as (combined & ->).
  rewrite flat_config_category in Hrun.
  eexists _, _, _.
  split; [apply Hrun |]; split; [apply render_single_log |].
  split; [| split; [| split; [apply Hrun |]; split; [apply render_single_table |]]].
  - rewrite render_single_log; unfold single_log_text.
    apply contains_append_l, contains_refl.
  - rewrite render_single_log; unfold single_log_text.
    do 6 apply contains_append_r; apply contains_append_l, contains_refl.
  - split.
    + rewrite render_single_table; unfold single_table_text.
      do 5 apply contains_append_r; apply contains_append_l, contains_refl.
    + rewrite render_single_table; unfold single_table_text.
      do 7 apply contains_append_r; apply contains_append_l, contains_append_l.
      apply contains_refl.
Qed.

(** ** From a vector to a file name and back *)

Lemma split_aux_token (token : string) :
  forall cur rest,
    (forall c, In c (list_ascii_of_string token) -> PyStr.is_space c = false) ->
    PyStr.split_aux cur (token ++ rest)
    = PyStr.split_aux (List.rev (list_ascii_of_string token) ++ cur)%list rest.
Proof.
  induction token as [| c token IH]; intros cur rest H; [reflexivity |].
  change (String c token ++ rest) with (String c (token ++ rest)).
  cbn [PyStr.split_aux list_ascii_of_string List.rev].
  rewrite (H c (or_introl eq_refl)), IH by (intros d Hd; apply H; right; exact Hd).
  rewrite <- app_assoc; reflexivity.
Qed.

Lemma token_not_empty (token : string) :
  token <> EmptyString -> List.rev (list_ascii_of_string token) <> [].
Proof.
  destruct token as [| c token]; [contradiction |]; intros _ H.
  apply (f_equal (@List.length ascii)) in H; simpl in H.
  rewrite length_app in H; simpl in H; lia.
Qed.

Lemma token_chars (token : string) :
  string_of_list_ascii (List.rev (List.rev (list_ascii_of_string token))) = token.
Proof. rewrite rev_involutive; apply string_of_list_ascii_of_string. Qed.

Lemma split_token_end (token : string) :
  token <> EmptyString ->
  (forall c, In c (list_ascii_of_string token) -> PyStr.is_space c = false) ->
  PyStr.split token = [token].
Proof.
  intros Hne H; unfold PyStr.split.
  rewrite <- (append_empty_r token) at 1.
  rewrite (@split_aux_token token [] EmptyString H), app_nil_r.
  cbn [PyStr.split_aux].
  destruct (List.rev (list_ascii_of_string token)) as [| c cur] eqn:E.
  - exfalso; exact (token_not_empty Hne E).
  - rewrite <- E, token_chars; reflexivity.
Qed.

Lemma split_token_space (token rest : string) :
  token <> EmptyString ->
  (forall c, In c (list_ascii_of_string token) -> PyStr.is_space c = false) ->
  PyStr.split (token ++ String " " rest) = token :: PyStr.split rest.
Proof.
  intros Hne H; unfold PyStr.split.
  rewrite (@split_aux_token token [] (String " " rest) H), app_nil_r.
  cbn [PyStr.split_aux].
  change (PyStr.is_space " ") with true; cbv iota.
  destruct (List.rev (list_ascii_of_string token)) as [| c cur] eqn:E.
  - exfalso; exact (token_not_empty Hne E).
  - rewrite <- E, token_chars; reflexivity.
Qed.

Lemma replace_char_append (c d : ascii) (a b : string) :
  PyStr.replace_char c d (a ++ b) = PyStr.replace_char c d a ++ PyStr.replace_char c d b.
Proof. induction a as [| x a IH]; simpl; [| rewrite IH]; reflexivity. Qed.

Lemma replace_char_absent (c d : ascii) (s : string) :
  (forall x, In x (list_ascii_of_string s) -> x <> c) -> PyStr.replace_char c d s = s.
Proof.
  induction s as [| x s IH]; intro H; [reflexivity |].
  cbn [PyStr.replace_char].
  destruct (Ascii.eqb_spec c x) as [-> | _].
  - exfalso; exact (H x (or_introl eq_refl) eq_refl).
  - rewrite IH; [reflexivity | intros y Hy; apply H; right; exact Hy].
Qed.

Lemma has_char_append (c : ascii) (a b : string) :
  PyStr.has_char c (a ++ b) = PyStr.has_char c a || PyStr.has_char c b.
Proof.
  induction a as [| x a IH]; [reflexivity |].
  change (String x a ++ b) with (String x (a ++ b)).
  rewrite !has_char_cons, IH, orb_assoc; reflexivity.
Qed.

Lemma has_char_absent (c : ascii) (s : string) :
  (forall x, In x (list_ascii_of_string s) -> x <> c) -> PyStr.has_char c s = false.
Proof.
  induction s as [| x s IH]; intro H; [reflexivity |].
  rewrite has_char_cons, IH by (intros y Hy; apply H; right; exact Hy).
  destruct (Ascii.eqb_spec c x) as [-> | _]; [| reflexivity].
  exfalso; exact (H x (or_introl eq_refl) eq_refl).
Qed.

Lemma join_cons2 (sep x y : string) (l : list string) :
  PyStr.join sep (x :: y :: l) = x ++ sep ++ PyStr.join sep (y :: l).
Proof. reflexivity. Qed.

Lemma plain_no_newline (value : string) :
  plain_component value -> PyStr.has_char PyStr.newline value = false.
Proof.
  intros (_ & _ & H); apply has_char_absent; intros x Hx ->.
  destruct (H _ Hx) as (_ & Hs); discriminate Hs.
Qed.

Lemma join_no_newline (configs : config) :
  Forall plain_component configs ->
  PyStr.has_char PyStr.newline (PyStr.join "-" configs) = false.
Proof.
  induction 1 as [| x l Hx Hl IH]; [reflexivity |].
  destruct l as [| y l]; [exact (plain_no_newline Hx) |].
  rewrite join_cons2, !has_char_append, (plain_no_newline Hx), IH; reflexivity.
Qed.

Lemma split_join (configs : config) :
  Forall plain_component configs ->
  PyStr.split (PyStr.replace_char "-" " " (PyStr.join "-" configs)) = configs.
Proof.
  induction 1 as [| x l Hx Hl IH]; [reflexivity |].
  assert (Hrep : PyStr.replace_char "-" " " x = x).
  { apply replace_char_absent; intros c Hc; apply Hx, Hc. }
  assert (Hsp : forall c, In c (list_ascii_of_string x) -> PyStr.is_space c = false).
  { intros c Hc; apply Hx, Hc. }
  destruct l as [| y l].
  - change (PyStr.join "-" [x]) with x; rewrite Hrep.
    apply split_token_end; [apply Hx | exact Hsp].
  - rewrite join_cons2, !replace_char_append, Hrep.
    change (PyStr.replace_char "-" " " "-") with (String " "%char EmptyString).
    change (String " " EmptyString ++ PyStr.replace_char "-" " " (PyStr.join "-" (y :: l)))
      with (String " "%char (PyStr.replace_char "-" " " (PyStr.join "-" (y :: l)))).
    rewrite split_token_space, IH; [reflexivity | apply Hx | exact Hsp].
Qed.

Lemma plain_not_latest (configs : config) :
  Forall plain_component configs -> set_mem "latest" configs = false.
Proof.
  intro H; apply set_mem_false; intro Hin.
  rewrite Forall_forall in H; destruct (H _ Hin) as (_ & Hne & _); exact (Hne eq_refl).
Qed.

(** C6, amended.  In a directory whose name has no star, for the build
    logs and for the test logs, a configuration vector whose components
    are not empty, are not the word "latest" and hold neither "-" nor
    whitespace is recovered from the file name that encodes it; the label
    aggregated from the recovered vector is then the label aggregated from
    the vector itself. *)
Theorem file_name_round_trip :
  forall (dir prefix : string) (configs : config),
    PyStr.has_char "*"%char dir = false ->
    prefix = BUILD_FILE_PREFIX \/ prefix = TEST_FILE_PREFIX ->
    Forall plain_component configs ->
    get_configs_from_file_name (file_name_of_configs dir prefix configs)
                               (log_name_re dir prefix)
    = Ok configs
    /\ forall configs',
        get_configs_from_file_name (file_name_of_configs dir prefix configs)
                                   (log_name_re dir prefix)
        = Ok configs' ->
        forall c failing tested,
          label_of c (configs' :: failing) (configs' :: tested)
          = label_of c (configs :: failing) (configs :: tested).
Proof.
  intros dir prefix configs _ _ Hplain.
  assert (Hback :
    get_configs_from_file_name (file_name_of_configs dir prefix configs)
                               (log_name_re dir prefix) = Ok configs).
  { unfold get_configs_from_file_name, file_name_of_configs.
    rewrite (@re_search_log_name dir prefix _ (join_no_newline Hplain)).
    rewrite (split_join Hplain), (plain_not_latest Hplain); reflexivity. }
  split; [exact Hback |].
  intros configs' H; rewrite Hback in H; injection H as <-; reflexivity.
Qed.

(** * Further properties *)

(** ** The match of a file name *)

Lemma greedy_dot_star_empty (suffix t group : string) :
  (if String.prefix suffix t then Some EmptyString else None) = Some group ->
  PyStr.has_char PyStr.newline group = false /\ exists after, t = group ++ suffix ++ after.
Proof.
  destruct (String.prefix suffix t) eqn:E; [| discriminate].
  intro H; injection H as <-; split; [reflexivity |].
  apply prefix_split in E as (after & ->); exists after; reflexivity.
Qed.

Lemma greedy_dot_star_sound (suffix : string) :
  forall t group,
    greedy_dot_star suffix t = Some group ->
    PyStr.has_char PyStr.newline group = false
    /\ exists after, t = group ++ suffix ++ after.
Proof.
  induction t as [| c t IH]; intros group H.
  - apply greedy_dot_star_empty; exact H.
  - cbn [greedy_dot_star] in H.
    destruct (Ascii.eqb c PyStr.newline) eqn:Ec; [apply greedy_dot_star_empty; exact H |].
    destruct (greedy_dot_star suffix t) as [group' |];
      [| apply greedy_dot_star_empty; exact H].
    injection H as <-; destruct (IH group' eq_refl) as (Hnl & after & ->).
    split; [| exists after; reflexivity].
    rewrite has_char_cons, Hnl, Ascii.eqb_sym, Ec; reflexivity.
Qed.

Lemma greedy_dot_star_complete (suffix after : string) :
  forall group,
    PyStr.has_char PyStr.newline group = false ->
    exists group', greedy_dot_star suffix (group ++ suffix ++ after) = Some group'.
Proof.
  assert (Hbase : forall t, String.prefix suffix t = true ->
                            exists group', greedy_dot_star suffix t = Some group').
  { intros [| c t] Hp; cbn [greedy_dot_star]; rewrite Hp.
    - eexists; reflexivity.
    - destruct (Ascii.eqb c PyStr.newline); [eexists; reflexivity |].
      destruct (greedy_dot_star suffix t); eexists; reflexivity. }
  induction group as [| c group IH]; intro H.
  - change (EmptyString ++ suffix ++ after) with (suffix ++ after).
    apply Hbase, prefix_append.
  - rewrite has_char_cons in H; apply orb_false_iff in H as (Hc & Hg).
    destruct (IH Hg) as (group' & Hgroup').
    change (String c group ++ suffix ++ after) with (String c (group ++ suffix ++ after)).
    cbn [greedy_dot_star]; rewrite Ascii.eqb_sym, Hc, Hgroup'.
    eexists; reflexivity.
Qed.

Lemma re_search_sound (re : name_re) :
  forall s group,
    re_search re s = Some group ->
    exists before after,
      s = before ++ re_prefix re ++ group ++ re_suffix re ++ after
      /\ PyStr.has_char PyStr.newline group = false.
Proof.
  assert (Hhere : forall s group, match_here re s = Some group ->
            exists after, s = re_prefix re ++ group ++ re_suffix re ++ after
                          /\ PyStr.has_char PyStr.newline group = false).
  { unfold match_here; intros s group H.
    destruct (String.prefix (re_prefix re) s) eqn:E; [| discriminate H].
    apply prefix_split in E as (rest & ->); rewrite drop_append in H.
    apply greedy_dot_star_sound in H as (Hnl & after & ->).
    exists after; split; [reflexivity | exact Hnl]. }
  induction s as [| c s IH]; intros group H; cbn [re_search] in H.
  - destruct (match_here re EmptyString) as [g |] eqn:E; [| discriminate H].
    injection H as <-; destruct (Hhere _ _ E) as (after & Hs & Hnl).
    exists EmptyString, after; split; [exact Hs | exact Hnl].
  - destruct (match_here re (String c s)) as [g |] eqn:E.
    + injection H as <-; destruct (Hhere _ _ E) as (after & Hs & Hnl).
      exists EmptyString, after; split; [exact Hs | exact Hnl].
    + destruct (IH group H) as (before & after & -> & Hnl).
      exists (String c before), after; split; [reflexivity | exact Hnl].
Qed.

Lemma re_search_complete (re : name_re) (s : string) :
  name_matches re s -> exists group, re_search re s = Some group.
Proof.
  intros (before & group & after & -> & Hnl).
  induction before as [| c before IH].
  - destruct (@greedy_dot_star_complete (re_suffix re) after group Hnl) as (g & Hg).
    exists g; apply re_search_here; unfold match_here.
    change (EmptyString ++ re_prefix re ++ group ++ re_suffix re ++ after)
      with (re_prefix re ++ group ++ re_suffix re ++ after).
    rewrite prefix_append, drop_append; exact Hg.
  - destruct IH as (g & Hg).
    change (String c before ++ re_prefix re ++ group ++ re_suffix re ++ after)
      with (String c (before ++ re_prefix re ++ group ++ re_suffix re ++ after)).
    cbn [re_search].
    destruct (match_here re _) as [g' |]; [exists g' | exists g]; auto.
Qed.

(** X1.  [get_configs_from_file_name] returns a vector exactly when the
    expression matches somewhere in the file name, the part taken for the
    star holding no newline; otherwise the search gives [None] and the call
    of [groups] on it raises [AttributeError], the only exception of the
    function. *)
Theorem get_configs_from_file_name_raises :
  forall (file_name : string) (file_name_re : name_re),
    (is_ok (get_configs_from_file_name file_name file_name_re) = true
     <-> name_matches file_name_re file_name)
    /\ (is_ok (get_configs_from_file_name file_name file_name_re) = false
        -> get_configs_from_file_name file_name file_name_re = Err AttributeError).
Proof.
  intros s re; unfold get_configs_from_file_name; split; [split |].
  - destruct (re_search re s) as [group |] eqn:E; [| discriminate].
    intros _; apply re_search_sound in E as (before & after & Hs & Hnl).
    exists before, group, after; auto.
  - intro H; apply re_search_complete in H as (group & ->); reflexivity.
  - destruct (re_search re s); [discriminate | reflexivity].
Qed.

(** ** The components of a vector *)

Lemma string_of_chars_nonempty (l : list ascii) :
  l <> [] -> string_of_list_ascii (List.rev l) <> EmptyString.
Proof.
  intros Hne H; apply (f_equal list_ascii_of_string) in H.
  rewrite list_ascii_of_string_of_list_ascii in H; simpl in H.
  apply (f_equal (@List.rev ascii)) in H; rewrite rev_involutive in H; auto.
Qed.

Lemma split_aux_tokens (Q : ascii -> Prop) (s : string) :
  (forall c, In c (list_ascii_of_string s) -> PyStr.is_space c = false -> Q c) ->
  forall cur token,
    (forall c, In c cur -> Q c) ->
    In token (PyStr.split_aux cur s) ->
    token <> EmptyString /\ forall c, In c (list_ascii_of_string token) -> Q c.
Proof.
  assert (Hcur : forall cur, cur <> [] -> (forall c, In c cur -> Q c) ->
            string_of_list_ascii (List.rev cur) <> EmptyString
            /\ forall c, In c (list_ascii_of_string (string_of_list_ascii (List.rev cur)))
                         -> Q c).
  { intros cur Hne HQ; split; [apply string_of_chars_nonempty, Hne |].
    intros c Hc; rewrite list_ascii_of_string_of_list_ascii in Hc.
    apply in_rev in Hc; apply HQ, Hc. }
  induction s as [| c s IH]; intros Hs cur token HQ Hin.
  - destruct cur as [| c0 cur]; [destruct Hin |].
    destruct Hin as [<- | []]; apply Hcur; [discriminate | exact HQ].
  - cbn [PyStr.split_aux] in Hin.
    assert (Hs' : forall d, In d (list_ascii_of_string s) ->
                            PyStr.is_space d = false -> Q d)
      by (intros d Hd; apply Hs; right; exact Hd).
    destruct (PyStr.is_space c) eqn:Ec.
    + destruct cur as [| c0 cur].
      * apply (IH Hs' [] token); [intros d [] | exact Hin].
      * destruct Hin as [<- | Hin]; [apply Hcur; [discriminate | exact HQ] |].
        apply (IH Hs' [] token); [intros d [] | exact Hin].
    + apply (IH Hs' (c :: cur) token); [| exact Hin].
      intros d [<- | Hd]; [apply Hs; [left; reflexivity | exact Ec] | apply HQ, Hd].
Qed.

Lemma replace_char_chars (c d : ascii) (s : string) :
  d <> c -> forall x, In x (list_ascii_of_string (PyStr.replace_char c d s)) -> x <> c.
Proof.
  intros Hdc; induction s as [| e s IH]; intros x Hx; [destruct Hx |].
  cbn [PyStr.replace_char list_ascii_of_string] in Hx.
  destruct Hx as [<- | Hx]; [| apply IH, Hx].
  destruct (Ascii.eqb_spec c e) as [-> | Hne]; [exact Hdc | congruence].
Qed.

(** X2.  Every component of a vector that [get_configs_from_file_name]
    returns is not empty, is not the word "latest", and holds neither "-"
    nor whitespace. *)
Theorem get_configs_from_file_name_components :
  forall (file_name : string) (file_name_re : name_re) (configs : config),
    get_configs_from_file_name file_name file_name_re = Ok configs ->
    Forall plain_component configs.
Proof.
  intros s re configs; unfold get_configs_from_file_name.
  destruct (re_search re s) as [cell |]; [| discriminate].
  intro H; injection H as <-; apply Forall_forall; intros value Hin.
  set (tokens := PyStr.split (PyStr.replace_char "-" " " cell)) in *.
  assert (Htoken : In value tokens /\ value <> "latest").
  { destruct (set_mem "latest" tokens) eqn:E.
    - apply filter_In in Hin as (Hin & Hne); split; [exact Hin |].
      apply negb_true_iff, String.eqb_neq in Hne; exact Hne.
    - split; [exact Hin |]; intros ->.
      apply set_mem_false in E; exact (E Hin). }
  destruct Htoken as (Htoken & Hlatest).
  destruct (@split_aux_tokens
              (fun c => c <> "-"%char /\ PyStr.is_space c = false)
              (PyStr.replace_char "-" " " cell)) with (cur := @nil ascii) (token := value)
    as (Hne & Hchars).
  - intros c Hc Hs; split; [| exact Hs].
    apply (@replace_char_chars "-"%char " "%char cell); [discriminate | exact Hc].
  - intros c [].
  - exact Htoken.
  - repeat split; [exact Hne | exact Hlatest | apply (Hchars c H) | apply (Hchars c H)].
Qed.

(** ** Short vectors *)

Lemma add_row_length (configs_i : config) (sets : list pyset) :
  forall j sets', add_row configs_i j sets = Ok sets' ->
                  List.length sets' = List.length sets.
Proof.
  induction sets as [| s sets IH]; simpl; intros j sets' H.
  - injection H as <-; reflexivity.
  - destruct (nth_error configs_i j); [| discriminate H].
    apply bind_ok in H as (rest & Hrest & H); injection H as <-.
    simpl; f_equal; exact (IH _ _ Hrest).
Qed.

Lemma add_row_error (configs_i : config) (sets : list pyset) :
  forall j e, add_row configs_i j sets = Err e -> e = IndexError.
Proof.
  induction sets as [| s sets IH]; simpl; intros j e H; [discriminate H |].
  destruct (nth_error configs_i j); [| injection H as <-; reflexivity].
  destruct (add_row configs_i (S j) sets) as [rest | e'] eqn:E; simpl in H;
    [discriminate H | injection H as <-; exact (IH _ _ E)].
Qed.

Lemma add_row_short (configs_i : config) (sets : list pyset) :
  forall j, sets <> [] -> List.length configs_i < j + List.length sets ->
            add_row configs_i j sets = Err IndexError.
Proof.
  induction sets as [| s sets IH]; intros j Hne Hlen; [contradiction |].
  simpl in Hlen |- *.
  destruct (nth_error configs_i j) as [value |] eqn:Ej; [| reflexivity].
  assert (Hj : j < List.length configs_i) by (apply nth_error_Some; congruence).
  rewrite (IH (S j)); [reflexivity | | lia].
  destruct sets; [simpl in Hlen; lia | discriminate].
Qed.

Lemma collect_short (configs : list config) :
  forall sets0,
    sets0 <> [] ->
    Exists (fun configs_i => List.length configs_i < List.length sets0) configs ->
    foldM (fun sets configs_i => add_row configs_i 0 sets) sets0 configs = Err IndexError.
Proof.
  induction configs as [| c configs IH]; intros sets0 Hne Hex; [inversion Hex |].
  simpl; destruct (add_row c 0 sets0) as [sets1 | e] eqn:E; simpl.
  - pose proof (add_row_length _ _ _ E) as Hlen.
    apply IH.
    + destruct sets1; [destruct sets0; [contradiction | discriminate Hlen] | discriminate].
    + rewrite Hlen; inversion Hex as [? ? Hc | ? ? Hrest]; subst; [| exact Hrest].
      rewrite (@add_row_short c sets0 0 Hne) in E by (simpl; exact Hc); discriminate E.
  - f_equal; exact (add_row_error _ _ _ E).
Qed.

Lemma long_or_short (n : nat) (configs : list config) :
  Forall (fun configs_i => n <= List.length configs_i) configs
  \/ Exists (fun configs_i => List.length configs_i < n) configs.
Proof.
  induction configs as [| c configs [IH | IH]].
  - left; constructor.
  - destruct (Nat.le_gt_cases n (List.length c)) as [H | H].
    + left; constructor; assumption.
    + right; left; exact H.
  - right; right; exact IH.
Qed.

(** X3.  On a list of vectors that is not empty, [reorganize_configs]
    raises [IndexError] exactly when one of the vectors has fewer
    components than [BUILD_CONFIGS] has axes; it raises nothing else. *)
Theorem reorganize_configs_short_vector :
  forall configs : list config,
    configs <> [] ->
    (reorganize_configs configs = Err IndexError
     <-> exists configs_i,
          In configs_i configs
          /\ List.length configs_i < List.length BUILD_CONFIGS)
    /\ forall e, reorganize_configs configs = Err e -> e = IndexError.
Proof.
  intros configs Hne.
  assert (Hshort :
    Exists (fun c => List.length c < List.length BUILD_CONFIGS) configs ->
    reorganize_configs configs = Err IndexError).
  { intro Hex; unfold reorganize_configs.
    destruct configs as [| c0 configs]; [contradiction |].
    rewrite collect_short; [reflexivity | |].
    - apply Exists_exists in Hex as (c & _ & Hc).
      destruct (List.length BUILD_CONFIGS); [lia | discriminate].
    - rewrite repeat_length; exact Hex. }
  assert (Hlong :
    Forall (fun c => List.length BUILD_CONFIGS <= List.length c) configs ->
    exists sets, reorganize_configs configs = Ok sets).
  { intro Hall; rewrite Forall_forall in Hall.
    destruct (@reorganize_configs_spec configs Hne Hall) as (sets & Hsets & _).
    exists sets; exact Hsets. }
  split; [split |].
  - intro Herr.
    destruct (long_or_short (List.length BUILD_CONFIGS) configs) as [Hall | Hex].
    + destruct (Hlong Hall) as (sets & Hsets); congruence.
    + apply Exists_exists in Hex; exact Hex.
  - intro Hex; apply Hshort, Exists_exists; exact Hex.
  - intros e Herr.
    destruct (long_or_short (List.length BUILD_CONFIGS) configs) as [Hall | Hex].
    + destruct (Hlong Hall) as (sets & Hsets); congruence.
    + rewrite (Hshort Hex) in Herr; congruence.
Qed.

(** X4.  When every vector has a component for each axis,
    [reorganize_configs] returns one set for each axis of [BUILD_CONFIGS]:
    the set at position [k] is not empty and holds, each once, the values
    found at position [k] of the vectors.  Components beyond the last axis
    are left out. *)
Theorem reorganize_configs_columns :
  forall configs : list config,
    configs <> [] ->
    (forall configs_i, In configs_i configs ->
                       List.length BUILD_CONFIGS <= List.length configs_i) ->
    exists sets,
      reorganize_configs configs = Ok sets
      /\ List.length sets = List.length BUILD_CONFIGS
      /\ forall k, k < List.length BUILD_CONFIGS ->
           exists s,
             nth_error sets k = Some s /\ NoDup s /\ s <> []
             /\ forall value, In value s <-> column k configs value.
Proof.
  intros configs Hne Hlen.
  destruct (@reorganize_configs_spec configs Hne Hlen) as (sets & Hsets & Hl & Hcol).
  exists sets; split; [exact Hsets |]; split; [exact Hl |].
  intros k Hk; destruct (Hcol k Hk) as (s & Hs & Hnd & Hin).
  exists s; repeat split; try assumption; try apply Hin.
  destruct configs as [| c0 configs]; [contradiction |].
  destruct (nth_error c0 k) as [v |] eqn:Ev.
  - intros ->; apply (proj2 (Hin v)); exists c0; split; [left; reflexivity | exact Ev].
  - apply nth_error_None in Ev; specialize (Hlen c0 (or_introl eq_refl)); lia.
Qed.

(** ** Groups of devices *)

Lemma collapse_devices_fires (label : string) (devices config : pyset) :
  iteration_order -> NoDup config ->
  (1 <? List.length devices)%nat && set_subset devices config = true ->
  ~ In label devices ->
  exists l,
    collapse_devices label devices (ASet config) = Ok (AList l)
    /\ NoDup l
    /\ forall x, In x l <-> x = label \/ (In x config /\ ~ In x devices).
Proof.
  intros Horder Hnd Hcond Hlabel; rewrite collapse_devices_on_set, Hcond.
  pose proof (Horder _ (set_add_NoDup label Hnd)) as Hperm.
  eexists; split; [reflexivity |]; split.
  - apply NoDup_filter.
    eapply Permutation_NoDup; [apply Permutation_sym, Hperm |].
    apply set_add_NoDup, Hnd.
  - intro x; rewrite filter_In, negb_true_iff, set_mem_false; split.
    + intros (Hx & Hnot); apply (Permutation_in _ Hperm), set_add_In in Hx.
      destruct Hx as [-> | Hx]; auto.
    + intros [-> | (Hx & Hnot)]; (split; [| assumption]);
        apply (Permutation_in _ (Permutation_sym Hperm)), set_add_In; auto.
Qed.

Lemma label_not_device (label : string) (devices config_value : pyset) :
  PyStr.has_char " "%char label = true ->
  (forall d, In d config_value -> PyStr.has_char " "%char d = false) ->
  incl devices config_value -> ~ In label devices.
Proof.
  intros Hl Hspace Hincl Hin.
  rewrite (Hspace _ (Hincl _ Hin)) in Hl; discriminate Hl.
Qed.

Lemma filter_devices_incl (kind : string) (devices : list string) :
  forall kept, filter_devices kind devices = Ok kept -> incl kept devices.
Proof.
  induction devices as [| x l IH]; simpl; intros kept Hkept.
  - injection Hkept as <-; apply incl_refl.
  - apply bind_ok in Hkept as (b & _ & Hkept).
    apply bind_ok in Hkept as (kept' & Hkept' & Hkept); injection Hkept as <-.
    specialize (IH _ Hkept'); destruct b.
    + intros d [<- | Hd]; [left; reflexivity | right; apply IH, Hd].
    + intros d Hd; right; apply IH, Hd.
Qed.

Lemma devices_of_type_incl (kind : string) (config_value devices : pyset) :
  iteration_order -> NoDup config_value ->
  devices_of_type kind config_value = Ok devices -> incl devices config_value.
Proof.
  intros Horder Hnd H; unfold devices_of_type in H.
  apply bind_ok in H as (kept & Hkept & H); injection H as <-.
  intros d Hd; apply (proj1 (set_of_list_In kept d)) in Hd.
  apply (Permutation_in _ (Horder _ Hnd)).
  exact (@filter_devices_incl kind _ kept Hkept d Hd).
Qed.

(** X5.  On the device axis, when the real devices that ran are two or more
    and all of them failed, while other values that ran did not fail and
    the virtual devices are not folded, [combine_config] replaces the real
    devices by the one label "All n FTL Devices" and keeps the other
    failing values. *)
Theorem combine_config_ftl_devices :
  forall (config config_value ftl_devices virtual_devices : pyset) (k : nat),
    iteration_order ->
    nth_error BUILD_CONFIGS k = Some "Test Device(s)" ->
    NoDup config -> NoDup config_value -> incl config config_value ->
    (forall d, In d config_value -> PyStr.has_char " "%char d = false) ->
    List.length config <> List.length config_value ->
    devices_of_type "real" config_value = Ok ftl_devices ->
    devices_of_type "virtual" config_value = Ok virtual_devices ->
    1 < List.length ftl_devices -> incl ftl_devices config ->
    List.length virtual_devices <= 1 \/ ~ incl virtual_devices config ->
    exists labels,
      combine_config config config_value k = Ok labels
      /\ NoDup labels
      /\ forall x,
          In x labels
          <-> x = "All " ++ PyStr.dec (List.length ftl_devices) ++ " FTL Devices"
              \/ (In x config /\ ~ In x ftl_devices).
Proof.
  intros config config_value ftl virt k Horder Hname Hndc Hndv Hincl Hspace Hlen
         Hftl Hvirt Hmany Hall Hvirtual.
  set (label := "All " ++ PyStr.dec (List.length ftl) ++ " FTL Devices").
  assert (Hlabel : ~ In label ftl).
  { apply (@label_not_device label ftl config_value); [reflexivity | exact Hspace |].
    apply (@devices_of_type_incl "real" config_value ftl Horder Hndv Hftl). }
  destruct (@collapse_devices_fires label ftl config Horder Hndc) as (l & Hl & Hnd & Hin);
    [| exact Hlabel |].
  { apply andb_true_iff; split; [apply Nat.ltb_lt, Hmany | apply set_subset_incl, Hall]. }
  exists l; split; [| split; assumption].
  unfold combine_config; rewrite Hname.
  assert (E : (List.length config =? List.length config_value)%nat = false)
    by (apply Nat.eqb_neq, Hlen).
  rewrite E, andb_false_r; cbn [String.eqb Ascii.eqb Bool.eqb]; cbv iota.
  rewrite Hftl, Hvirt; cbn [bind]; fold label; rewrite Hl; cbn [bind].
  rewrite collapse_devices_skip; [cbn [bind unchanged]; rewrite andb_false_r; reflexivity |].
  cbn [members]; apply andb_false_iff.
  destruct Hvirtual as [Hfew | Hnot]; [left; apply Nat.ltb_ge, Hfew | right].
  destruct (set_subset virt l) eqn:Esub; [exfalso | reflexivity].
  apply Hnot; intros d Hd.
  apply set_subset_incl in Esub; pose proof (Esub d Hd) as Hdl.
  apply Hin in Hdl as [-> | (Hd' & _)]; [| exact Hd'].
  exfalso; revert Hd.
  apply (@label_not_device label virt config_value); [reflexivity | exact Hspace |].
  apply (@devices_of_type_incl "virtual" config_value virt Horder Hndv Hvirt).
Qed.

(** X6.  On the device axis, when the real devices that ran and the
    virtual devices that ran are each two or more and all of them failed,
    while the failing values are not all the values that ran,
    [combine_config] raises [AttributeError]: after the real devices are
    folded the variable holds a list, which has no method [add]. *)
Theorem combine_config_two_groups_raise :
  forall (config config_value ftl_devices virtual_devices : pyset) (k : nat),
    iteration_order ->
    nth_error BUILD_CONFIGS k = Some "Test Device(s)" ->
    NoDup config ->
    List.length config <> List.length config_value ->
    devices_of_type "real" config_value = Ok ftl_devices ->
    devices_of_type "virtual" config_value = Ok virtual_devices ->
    1 < List.length ftl_devices -> incl ftl_devices config ->
    1 < List.length virtual_devices -> incl virtual_devices config ->
    (forall d, In d virtual_devices -> ~ In d ftl_devices) ->
    combine_config config config_value k = Err AttributeError.
Proof.
  intros config config_value ftl virt k Horder Hname Hndc Hlen Hftl Hvirt
         Hmany Hall Hmany' Hall' Hdisjoint.
  unfold combine_config; rewrite Hname.
  assert (E : (List.length config =? List.length config_value)%nat = false)
    by (apply Nat.eqb_neq, Hlen).
  rewrite E, andb_false_r; cbn [String.eqb Ascii.eqb Bool.eqb]; cbv iota.
  rewrite Hftl, Hvirt; cbn [bind].
  rewrite collapse_devices_on_set.
  assert (E1 : (1 <? List.length ftl)%nat && set_subset ftl config = true).
  { apply andb_true_iff; split; [apply Nat.ltb_lt, Hmany | apply set_subset_incl, Hall]. }
  rewrite E1; cbn [bind]; unfold collapse_devices; cbn [members].
  assert (E2 : (1 <? List.length virt)%nat = true) by (apply Nat.ltb_lt, Hmany').
  rewrite E2; cbn [andb].
  match goal with
  | |- context [set_subset virt ?l] =>
      assert (E3 : set_subset virt l = true)
  end.
  { apply set_subset_incl; intros d Hd; apply filter_In; split.
    - apply (Permutation_in _ (Permutation_sym (Horder _ (set_add_NoDup _ Hndc)))).
      apply set_add_In; right; apply Hall', Hd.
    - apply negb_true_iff, set_mem_false, Hdisjoint, Hd. }
  rewrite E3; reflexivity.
Qed.

(** ** What a run returns *)

(** X7.  In a directory whose name has no star, when the logs can be read
    and give complete vectors, [summarize_logs] returns: its first
    component is [True] exactly when every recorded entry is a flakiness;
    its text is [None] exactly when nothing is recorded; and it has printed
    the text that it returns. *)
Theorem summarize_logs_outcome :
  forall (dir : string) (build_log_files test_log_files : list log_file)
         (markdown github_log : bool),
    iteration_order ->
    PyStr.has_char "*"%char dir = false ->
    readable_logs dir build_log_files test_log_files ->
    complete_logs dir build_log_files test_log_files ->
    exists out,
      summarize_logs dir build_log_files test_log_files markdown github_log = Ok out
      /\ fst (returned out)
         = forallb is_flakiness (recorded dir build_log_files test_log_files)
      /\ printed out = snd (returned out)
      /\ (snd (returned out) = None
          <-> recorded dir build_log_files test_log_files = []).
Proof.
  intros dir builds tests markdown github_log Horder _ Hread Hcomplete.
  destruct (recorded dir builds tests) as [| e es] eqn:E.
  - exists {| printed := None; returned := (true, None) |}.
    split; [| repeat split].
    unfold summarize_logs; rewrite (read_logs_readable Hread).
    unfold read_state; rewrite E; reflexivity.
  - assert (Hsome : recorded dir builds tests <> []) by (rewrite E; discriminate).
    destruct (@summarize_logs_reports dir builds tests Horder Hread Hcomplete Hsome)
      as (axes & log_results & _ & _ & Hrun).
    eexists; split; [apply Hrun |]; cbn [returned printed fst snd].
    rewrite E; repeat split; discriminate.
Qed.

(** ** Logs that cannot be read *)

Lemma foldM_stops {A B : Type} (f : A -> B -> result A) (xs ys : list B) (x : B)
      (acc mid : A) (e : exn) :
  foldM f acc xs = Ok mid -> f mid x = Err e -> foldM f acc (xs ++ x :: ys) = Err e.
Proof. intros H1 H2; rewrite foldM_app, H1; simpl; rewrite H2; reflexivity. Qed.

(** X8.  A build log without the marker that is not JSON makes
    [summarize_logs] raise the error of [json.loads], and one whose JSON
    has no key "errors" makes it raise [KeyError], when the build logs
    before it can be read. *)
Theorem summarize_logs_bad_build_log :
  forall (dir : string) (before after test_log_files : list log_file) (f : log_file)
         (markdown github_log : bool),
    Forall (readable build_entries (log_name_re dir BUILD_FILE_PREFIX)) before ->
    is_ok (get_configs_from_file_name (file_name f) (log_name_re dir BUILD_FILE_PREFIX))
    = true ->
    has_sentinel f = false ->
    (json f = None ->
     summarize_logs dir (before ++ f :: after) test_log_files markdown github_log
     = Err JSONDecodeError)
    /\ (forall data,
           json f = Some data -> errors data = None ->
           summarize_logs dir (before ++ f :: after) test_log_files markdown github_log
           = Err KeyError).
Proof.
  intros dir before after tests f markdown github_log Hbefore Hname Hs.
  assert (Hstop : forall e,
            (forall st, read_build_log (log_name_re dir BUILD_FILE_PREFIX) st f = Err e) ->
            summarize_logs dir (before ++ f :: after) tests markdown github_log = Err e).
  { intros e He; unfold summarize_logs, read_logs.
    erewrite foldM_stops; [reflexivity | apply (read_build_logs Hbefore) | apply He]. }
  split.
  - intro Hjson; apply Hstop; intro st; unfold read_build_log.
    destruct (get_configs_from_file_name _ _); [| discriminate Hname].
    simpl; rewrite Hs, Hjson; reflexivity.
  - intros data Hjson Hkey; apply Hstop; intro st; unfold read_build_log.
    destruct (get_configs_from_file_name _ _); [| discriminate Hname].
    simpl; rewrite Hs, Hjson, Hkey; reflexivity.
Qed.

(** X9.  A test log without the marker that is not JSON makes
    [summarize_logs] raise the error of [json.loads], and one whose JSON
    lacks one of the keys "errors", "failures" and "flakiness" makes it
    raise [KeyError], when the build logs and the test logs before it can
    be read. *)
Theorem summarize_logs_bad_test_log :
  forall (dir : string) (build_log_files before after : list log_file) (f : log_file)
         (markdown github_log : bool),
    Forall (readable build_entries (log_name_re dir BUILD_FILE_PREFIX)) build_log_files ->
    Forall (readable test_entries (log_name_re dir TEST_FILE_PREFIX)) before ->
    is_ok (get_configs_from_file_name (file_name f) (log_name_re dir TEST_FILE_PREFIX))
    = true ->
    has_sentinel f = false ->
    (json f = None ->
     summarize_logs dir build_log_files (before ++ f :: after) markdown github_log
     = Err JSONDecodeError)
    /\ (forall data,
           json f = Some data ->
           errors data = None \/ failures data = None \/ flakiness data = None ->
           summarize_logs dir build_log_files (before ++ f :: after) markdown github_log
           = Err KeyError).
Proof.
  intros dir builds before after f markdown github_log Hbuilds Hbefore Hname Hs.
  assert (Hstop : forall e,
            (forall st, read_test_log (log_name_re dir TEST_FILE_PREFIX) st f = Err e) ->
            summarize_logs dir builds (before ++ f :: after) markdown github_log = Err e).
  { intros e He; unfold summarize_logs, read_logs.
    rewrite (read_build_logs Hbuilds); cbn [bind].
    erewrite foldM_stops; [reflexivity | apply (read_test_logs Hbefore) | apply He]. }
  split.
  - intro Hjson; apply Hstop; intro st; unfold read_test_log.
    destruct (get_configs_from_file_name _ _); [| discriminate Hname].
    simpl; rewrite Hs, Hjson; reflexivity.
  - intros data Hjson Hkey; apply Hstop; intro st; unfold read_test_log.
    destruct (get_configs_from_file_name _ _); [| discriminate Hname].
    simpl; rewrite Hs, Hjson.
    destruct (errors data); [| reflexivity].
    destruct (failures data); [| reflexivity].
    destruct (flakiness data); [| reflexivity].
    destruct Hkey as [H | [H | H]]; discriminate H.
Qed.

(** ** The order of the test applications *)

Lemma record_entry_keys (es : list entry) :
  forall data,
    dict_keys (fold_left record_entry es data)
    = fold_left (fun s x => set_add x s) (map testapp_of es) (dict_keys data).
Proof.
  induction es as [| [[c a] v] es IH]; intro data; [reflexivity |].
  cbn [fold_left map]; rewrite IH; f_equal.
  unfold record_entry; rewrite dict_keys_update; reflexivity.
Qed.

Lemma set_add_twice (x : string) (s : pyset) : set_add x (set_add x s) = set_add x s.
Proof.
  unfold set_add at 1.
  assert (H : set_mem x (set_add x s) = true)
    by (apply set_mem_In, set_add_In; left; reflexivity).
  rewrite H; reflexivity.
Qed.

Lemma reorganize_category_keys_eq (c : category) (testapp : string) (errors : testapp_log)
      (all_tested_configs : tested_axes) (log_results log_results' : results) :
  reorganize_category c testapp errors all_tested_configs log_results = Ok log_results' ->
  dict_keys log_results'
  = if is_empty (configs_of c errors) then dict_keys log_results
    else set_add testapp (dict_keys log_results).
Proof.
  intro H; apply reorganize_category_result in H as [(E & ->) | (E & combined & ->)].
  - rewrite E; reflexivity.
  - destruct (configs_of c errors); [contradiction |].
    rewrite dict_keys_update; reflexivity.
Qed.

Lemma reorganize_testapp_keys_eq (all_tested_configs : tested_axes)
      (log_results log_results' : results) (testapp : string) (errors : testapp_log) :
  reorganize_testapp all_tested_configs log_results (testapp, errors) = Ok log_results' ->
  dict_keys log_results'
  = if has_failure errors then set_add testapp (dict_keys log_results)
    else dict_keys log_results.
Proof.
  unfold reorganize_testapp; intro H.
  apply bind_ok in H as (r1 & H1 & H); apply bind_ok in H as (r2 & H2 & H).
  apply bind_ok in H as (r3 & H3 & H4).
  apply reorganize_category_keys_eq in H1, H2, H3, H4.
  rewrite H4, H3, H2, H1; unfold has_failure; cbn [configs_of].
  destruct (is_empty (build errors)), (is_empty (test_errors errors)),
    (is_empty (test_failures errors)), (is_empty (test_flakiness errors));
    cbn [negb orb]; rewrite ?set_add_twice; reflexivity.
Qed.

Lemma reorganize_log_keys_eq (all_tested_configs : tested_axes) (data : dict testapp_log) :
  forall log_results0 log_results,
    foldM (reorganize_testapp all_tested_configs) log_results0 data = Ok log_results ->
    dict_keys log_results
    = fold_left (fun s x => set_add x s)
                (map fst (filter (fun item => has_failure (snd item)) data))
                (dict_keys log_results0).
Proof.
  induction data as [| [a e] data IH]; simpl; intros r0 r H.
  - injection H as <-; reflexivity.
  - apply bind_ok in H as (r1 & H1 & H).
    apply reorganize_testapp_keys_eq in H1; rewrite (IH _ _ H), H1.
    destruct (has_failure e); reflexivity.
Qed.

Lemma read_build_log_ok (re : name_re) (st st' : reading) (f : log_file) :
  read_build_log re st f = Ok st' -> readable build_entries re f.
Proof.
  unfold read_build_log, readable, build_entries.
  destruct (get_configs_from_file_name (file_name f) re); [simpl | discriminate].
  destruct (has_sentinel f); [auto |].
  destruct (json f) as [data |]; [| discriminate].
  destruct (errors data); [auto | discriminate].
Qed.

Lemma read_test_log_ok (re : name_re) (st st' : reading) (f : log_file) :
  read_test_log re st f = Ok st' -> readable test_entries re f.
Proof.
  unfold read_test_log, readable, test_entries.
  destruct (get_configs_from_file_name (file_name f) re); [simpl | discriminate].
  destruct (has_sentinel f); [auto |].
  destruct (json f) as [data |]; [| discriminate].
  destruct (errors data); [| discriminate].
  destruct (failures data); [| discriminate].
  destruct (flakiness data); [auto | discriminate].
Qed.

Lemma foldM_all_ok {A B : Type} (P : B -> Prop) (f : A -> B -> result A) :
  (forall acc x acc', f acc x = Ok acc' -> P x) ->
  forall xs acc acc', foldM f acc xs = Ok acc' -> Forall P xs.
Proof.
  intros HP xs; induction xs as [| x xs IH]; simpl; intros acc acc' H; [constructor |].
  apply bind_ok in H as (mid & Hmid & H).
  constructor; [exact (HP _ _ _ Hmid) | exact (IH _ _ H)].
Qed.

Lemma read_logs_ok (dir : string) (build_log_files test_log_files : list log_file)
      (st : reading) :
  read_logs dir build_log_files test_log_files = Ok st ->
  readable_logs dir build_log_files test_log_files
  /\ st = read_state dir build_log_files test_log_files.
Proof.
  intro H.
  assert (Hread : readable_logs dir build_log_files test_log_files).
  { unfold read_logs in H; apply bind_ok in H as (mid & Hb & Ht); split.
    - revert Hb; apply foldM_all_ok; intros acc f acc'; apply read_build_log_ok.
    - revert Ht; apply foldM_all_ok; intros acc f acc'; apply read_test_log_ok. }
  split; [exact Hread |].
  rewrite (read_logs_readable Hread) in H; injection H as <-; reflexivity.
Qed.

Lemma record_entry_failures (es : list entry) :
  forall data,
    (forall testapp errors, In (testapp, errors) data -> has_failure errors = true) ->
    forall testapp errors,
      In (testapp, errors) (fold_left record_entry es data) -> has_failure errors = true.
Proof.
  assert (Happend : forall c v e, has_failure (append_config c v e) = true).
  { intros c v e; unfold has_failure; destruct c; cbn [append_config build test_errors
      test_failures test_flakiness].
    - destruct (build e); reflexivity.
    - destruct (test_errors e); simpl; rewrite ?orb_true_r; reflexivity.
    - destruct (test_failures e); simpl; rewrite ?orb_true_r; reflexivity.
    - destruct (test_flakiness e); simpl; rewrite ?orb_true_r; reflexivity. }
  induction es as [| [[c a] v] es IH]; intros data Hdata; [exact Hdata |].
  cbn [fold_left]; apply IH; intros testapp errors Hin.
  apply dict_update_In in Hin as [Hin | (-> & e0 & -> & _)];
    [exact (Hdata _ _ Hin) | apply Happend].
Qed.

(** X10.  The aggregated result lists the test applications in the order
    in which the logs first mention them: the keys of the result are the
    test applications of the recorded entries, each at its first place. *)
Theorem reorganize_log_first_mention :
  forall (dir : string) (build_log_files test_log_files : list log_file)
         (st : reading) (all_tested_configs : tested_axes) (log_results : results),
    read_logs dir build_log_files test_log_files = Ok st ->
    reorganize_log (log_data st) all_tested_configs = Ok log_results ->
    dict_keys log_results
    = set_of_list (map testapp_of (recorded dir build_log_files test_log_files)).
Proof.
  intros dir builds tests st axes log_results Hread Hlog.
  apply read_logs_ok in Hread as (_ & ->).
  unfold reorganize_log in Hlog; apply reorganize_log_keys_eq in Hlog.
  cbn [dict_keys map] in Hlog; rewrite Hlog; clear Hlog.
  unfold read_state; cbn [log_data].
  set (data := fold_left record_entry (recorded dir builds tests) []).
  assert (Hall : filter (fun item : string * testapp_log => has_failure (snd item)) data
                 = data).
  { apply forallb_filter_id, forallb_forall; intros [a e] Hin.
    apply (@record_entry_failures (recorded dir builds tests) []) with (testapp := a);
      [intros ? ? [] | exact Hin]. }
  rewrite Hall; fold (dict_keys data); fold (set_of_list (dict_keys data)).
  assert (Hkeys : dict_keys data
                  = set_of_list (map testapp_of (recorded dir builds tests))).
  { unfold data; rewrite record_entry_keys; reflexivity. }
  rewrite Hkeys; apply set_of_list_NoDup_id, set_of_list_NoDup.
Qed.

(** ** One label for each category *)

Lemma starts_with_distinct (c c' : category) (label : string) :
  c <> c' -> starts_with c label -> starts_with c' label -> False.
Proof.
  unfold starts_with; intros Hne H H'.
  apply prefix_split in H as (r & ->); apply prefix_split in H' as (r' & H').
  destruct c, c'; try contradiction; simpl in H'; discriminate H'.
Qed.

Lemma dict_update_absent {V : Type} (d : dict V) (k : string) (default : V) (f : V -> V) :
  ~ In k (dict_keys d) -> dict_update d k default f = (d ++ [(k, f default)])%list.
Proof.
  induction d as [| [k' v] d IH]; simpl; intro H; [reflexivity |].
  destruct (String.eqb_spec k' k) as [-> | _]; [exfalso; apply H; left; reflexivity |].
  rewrite IH; [reflexivity | intro Hin; apply H; right; exact Hin].
Qed.

Lemma cell_of_labels_keys (labels : list string) :
  dict_keys (cell_of_labels labels) = labels.
Proof.
  unfold dict_keys, cell_of_labels; rewrite map_map; simpl; apply map_id.
Qed.

Lemma reorganize_category_other (c : category) (testapp : string) (errors : testapp_log)
      (all_tested_configs : tested_axes) (log_results log_results' : results) :
  reorganize_category c testapp errors all_tested_configs log_results = Ok log_results' ->
  forall a, a <> testapp -> dict_get log_results' a = dict_get log_results a.
Proof.
  intros H a Ha.
  apply reorganize_category_result in H as [(_ & ->) | (_ & combined & ->)];
    [reflexivity | apply dict_get_update_other, Ha].
Qed.

Lemma reorganize_testapp_other (all_tested_configs : tested_axes)
      (log_results log_results' : results) (testapp : string) (errors : testapp_log) :
  reorganize_testapp all_tested_configs log_results (testapp, errors) = Ok log_results' ->
  forall a, a <> testapp -> dict_get log_results' a = dict_get log_results a.
Proof.
  unfold reorganize_testapp; intros H a Ha.
  apply bind_ok in H as (r1 & H1 & H); apply bind_ok in H as (r2 & H2 & H).
  apply bind_ok in H as (r3 & H3 & H4).
  rewrite (@reorganize_category_other _ _ _ _ _ _ H4 a Ha),
    (@reorganize_category_other _ _ _ _ _ _ H3 a Ha),
    (@reorganize_category_other _ _ _ _ _ _ H2 a Ha),
    (@reorganize_category_other _ _ _ _ _ _ H1 a Ha); reflexivity.
Qed.

Lemma Forall2_In_right {A B : Type} (R : A -> B -> Prop) (l : list A) (l' : list B) :
  Forall2 R l l' -> forall y, In y l' -> exists x, In x l /\ R x y.
Proof.
  induction 1 as [| x y l l' Hxy _ IH]; intros z Hz; [destruct Hz |].
  destruct Hz as [<- | Hz]; [exists x; split; [left; reflexivity | exact Hxy] |].
  destruct (IH z Hz) as (x' & Hx' & HR); exists x'; split; [right |]; assumption.
Qed.

Lemma reorganize_category_step (c : category) (testapp : string) (errors : testapp_log)
      (all_tested_configs : tested_axes) (log_results log_results' : results)
      (done : list category) (labels : list string) :
  cell_state log_results testapp labels ->
  Forall2 starts_with done labels ->
  ~ In c done ->
  reorganize_category c testapp errors all_tested_configs log_results = Ok log_results' ->
  exists labels',
    cell_state log_results' testapp labels'
    /\ Forall2 starts_with
               (done ++ if is_empty (configs_of c errors) then [] else [c])%list labels'.
Proof.
  intros Hstate Hdone Hc H.
  apply reorganize_category_result in H as [(E & ->) | (E & combined & ->)].
  - exists labels; rewrite E, app_nil_r; split; assumption.
  - destruct (configs_of c errors) as [| v failing]; [contradiction |]; cbn [is_empty].
    set (label := flat_config (category_words c ++ map PList combined)).
    assert (Hlabel : starts_with c label).
    { unfold starts_with, label; rewrite flat_config_category; apply prefix_append. }
    assert (Hnew : ~ In label labels).
    { intro Hin.
      destruct (@Forall2_In_right _ _ _ _ _ Hdone label Hin) as (c' & Hc' & Hstarts).
      apply (@starts_with_distinct c c' label); [congruence | assumption | assumption]. }
    exists (labels ++ [label])%list; split.
    + unfold cell_state in *; rewrite dict_get_update_same, Hstate.
      assert (Hcell : dict_setdefault (cell_of_labels labels) label []
                      = cell_of_labels (labels ++ [label])).
      { unfold dict_setdefault; rewrite dict_update_absent
          by (rewrite cell_of_labels_keys; exact Hnew).
        unfold cell_of_labels; rewrite map_app; reflexivity. }
      destruct labels as [| l labels]; [reflexivity |].
      rewrite Hcell; reflexivity.
    + apply Forall2_app; [exact Hdone | constructor; [exact Hlabel | constructor]].
Qed.

Lemma reorganize_testapp_cell (all_tested_configs : tested_axes)
      (log_results log_results' : results) (testapp : string) (errors : testapp_log) :
  dict_get log_results testapp = None ->
  reorganize_testapp all_tested_configs log_results (testapp, errors) = Ok log_results' ->
  exists labels,
    cell_state log_results' testapp labels
    /\ Forall2 starts_with (failed_categories errors) labels.
Proof.
  unfold reorganize_testapp; intros Hnone H.
  apply bind_ok in H as (r1 & H1 & H); apply bind_ok in H as (r2 & H2 & H).
  apply bind_ok in H as (r3 & H3 & H4).
  destruct (@reorganize_category_step BuildError testapp errors all_tested_configs
              log_results r1 [] []) as (l1 & S1 & F1);
    [exact Hnone | constructor | intros [] | exact H1 |].
  destruct (@reorganize_category_step TestError testapp errors all_tested_configs
              r1 r2 _ l1 S1 F1) as (l2 & S2 & F2); [| exact H2 |].
  { cbn [configs_of]; destruct (is_empty (build errors)); simpl; intuition discriminate. }
  destruct (@reorganize_category_step TestFailure testapp errors all_tested_configs
              r2 r3 _ l2 S2 F2) as (l3 & S3 & F3); [| exact H3 |].
  { cbn [configs_of]; destruct (is_empty (build errors)),
      (is_empty (test_errors errors)); simpl; intuition discriminate. }
  destruct (@reorganize_category_step TestFlakiness testapp errors all_tested_configs
              r3 log_results' _ l3 S3 F3) as (l4 & S4 & F4); [| exact H4 |].
  { cbn [configs_of]; destruct (is_empty (build errors)),
      (is_empty (test_errors errors)), (is_empty (test_failures errors));
      simpl; intuition discriminate. }
  exists l4; split; [exact S4 |].
  replace (failed_categories errors)
    with (((([] ++ (if is_empty (configs_of BuildError errors) then [] else [BuildError]))
              ++ (if is_empty (configs_of TestError errors) then [] else [TestError]))
             ++ (if is_empty (configs_of TestFailure errors) then [] else [TestFailure]))
            ++ (if is_empty (configs_of TestFlakiness errors) then []
                else [TestFlakiness]))%list; [exact F4 |].
  unfold failed_categories, all_categories; cbn [filter configs_of].
  destruct (is_empty (build errors)), (is_empty (test_errors errors)),
    (is_empty (test_failures errors)), (is_empty (test_flakiness errors)); reflexivity.
Qed.

Lemma reorganize_log_other (all_tested_configs : tested_axes) (data : dict testapp_log) :
  forall log_results0 log_results a,
    foldM (reorganize_testapp all_tested_configs) log_results0 data = Ok log_results ->
    ~ In a (dict_keys data) ->
    dict_get log_results a = dict_get log_results0 a.
Proof.
  induction data as [| [a0 e0] data IH]; simpl; intros r0 r a H Ha.
  - injection H as <-; reflexivity.
  - apply bind_ok in H as (r1 & H1 & H).
    rewrite (IH _ _ a H) by (intro Hin; apply Ha; right; exact Hin).
    apply (@reorganize_testapp_other _ _ _ _ _ H1); intros ->; apply Ha; left; reflexivity.
Qed.

Lemma reorganize_log_cells (all_tested_configs : tested_axes) (data : dict testapp_log) :
  forall log_results0 log_results,
    foldM (reorganize_testapp all_tested_configs) log_results0 data = Ok log_results ->
    NoDup (dict_keys data) ->
    (forall a, In a (dict_keys data) -> dict_get log_results0 a = None) ->
    forall testapp errors,
      In (testapp, errors) data ->
      exists labels,
        cell_state log_results testapp labels
        /\ Forall2 starts_with (failed_categories errors) labels.
Proof.
  induction data as [| [a0 e0] data IH]; simpl; intros r0 r H Hnd Hnone testapp errors Hin;
    [destruct Hin |].
  apply bind_ok in H as (r1 & H1 & H).
  inversion Hnd as [| ? ? Ha0 Hnd']; subst.
  destruct Hin as [Heq | Hin].
  - injection Heq as -> ->.
    destruct (@reorganize_testapp_cell all_tested_configs r0 r1 testapp errors)
      as (labels & Hstate & Hall); [apply Hnone; left; reflexivity | exact H1 |].
    exists labels; split; [| exact Hall].
    unfold cell_state in *; rewrite <- Hstate.
    apply (@reorganize_log_other _ _ _ _ _ H Ha0).
  - apply (IH _ _ H Hnd'); [| exact Hin].
    intros a Ha; rewrite (@reorganize_testapp_other _ _ _ _ _ H1).
    + apply Hnone; right; exact Ha.
    + intros ->; exact (Ha0 Ha).
Qed.

(** X11.  In the aggregated result, the cell of a test application has one
    label for each category in which it failed, in the order build error,
    test error, test failure, test flakiness; each label begins with the
    words of its category and none has a failed test. *)
Theorem reorganize_log_one_label_per_category :
  forall (data : dict testapp_log) (all_tested_configs : tested_axes)
         (log_results : results) (testapp : string) (errors : testapp_log),
    reorganize_log data all_tested_configs = Ok log_results ->
    NoDup (dict_keys data) ->
    In (testapp, errors) data ->
    has_failure errors = true ->
    exists labels,
      dict_get log_results testapp = Some (cell_of_labels labels)
      /\ Forall2 starts_with (failed_categories errors) labels.
Proof.
  intros data axes log_results testapp errors H Hnd Hin Hfail.
  destruct (@reorganize_log_cells axes data [] log_results H Hnd (fun a _ => eq_refl)
              testapp errors Hin) as (labels & Hstate & Hall).
  exists labels; split; [| exact Hall].
  unfold cell_state in Hstate; rewrite Hstate.
  destruct labels as [| l labels]; [| reflexivity].
  inversion Hall as [Hnil |]; exfalso.
  unfold failed_categories, all_categories, has_failure in *; cbn [filter configs_of] in Hnil.
  destruct (is_empty (build errors)), (is_empty (test_errors errors)),
    (is_empty (test_failures errors)), (is_empty (test_flakiness errors));
    simpl in *; discriminate.
Qed.

(** ** The table in text mode *)

Lemma sub_word_space_from_space (s : string) :
  forall prev, PyStr.sub_word_space_from " " prev s = s.
Proof.
  induction s as [| c s IH]; intro prev; [reflexivity |].
  cbn [PyStr.sub_word_space_from]; rewrite IH.
  destruct (Ascii.eqb_spec c " "%char) as [-> | _]; [| reflexivity].
  destruct (PyStr.is_word_opt prev), (PyStr.is_word_opt (PyStr.head s)); reflexivity.
Qed.

(** X12.  With a plain space for [space_char], as by default, the row that
    [print_table] makes for a test application shows its name as it is,
    padded to the width of the column. *)
Theorem print_table_plain_name :
  forall (log_results : results) (testapps_width configs_width : nat)
         (list_separator testapp : string) (cell : dict (list string)),
    dict_get log_results testapp = Some cell ->
    In (table_row (PyStr.ljust testapp testapps_width)
                  (format_result cell " " list_separator configs_width))
       (print_table log_results testapps_width configs_width " " list_separator).
Proof.
  intros log_results w1 w2 sep testapp cell Hget.
  pose proof (@print_table_row log_results w1 w2 " " sep testapp cell Hget) as H.
  unfold testapp_row, PyStr.sub_word_space in H.
  rewrite sub_word_space_from_space in H; exact H.
Qed.

(** ** The number of rows *)

Lemma filter_one_out (k : string) (l : list string) :
  NoDup l ->
  List.length (filter (fun k' => negb (k' =? k)) l) + (if set_mem k l then 1 else 0)
  = List.length l.
Proof.
  induction 1 as [| x l Hx _ IH]; [reflexivity |].
  cbn [filter set_mem existsb]; fold (set_mem k l).
  destruct (String.eqb_spec x k) as [-> | Hne].
  - rewrite String.eqb_refl; cbn [negb orb].
    apply set_mem_false in Hx; rewrite Hx in IH; simpl; lia.
  - assert (E : (k =? x) = false) by (apply String.eqb_neq; congruence).
    rewrite E; cbn [negb orb List.length]; lia.
Qed.

(** X13.  For a [space_char] without backslash, as " " and "&nbsp;" are,
    [print_table] returns two lines of heading and exactly one row for
    each test application of the result. *)
Theorem print_table_length :
  forall (log_results : results) (testapps_width configs_width : nat)
         (space_char list_separator : string),
    PyStr.has_char PyStr.backslash space_char = false ->
    NoDup (dict_keys log_results) ->
    List.length (print_table log_results testapps_width configs_width
                             space_char list_separator)
    = 2 + List.length log_results.
Proof.
  intros log_results w1 w2 sc sep _ Hnd; unfold print_table.
  rewrite length_app, length_map, (Permutation_length (sorted_perm _)), dict_keys_pop.
  pose proof (filter_one_out MISSING_LOG Hnd) as Hcount.
  assert (Hlen : List.length (dict_keys log_results) = List.length log_results)
    by apply length_map.
  destruct (dict_get log_results MISSING_LOG) as [cell |] eqn:E.
  - assert (Hin : set_mem MISSING_LOG (dict_keys log_results) = true)
      by (apply set_mem_In, dict_get_keys; exists cell; exact E).
    rewrite Hin in Hcount; rewrite length_app; simpl; lia.
  - assert (Hout : set_mem MISSING_LOG (dict_keys log_results) = false).
    { apply set_mem_false; intro Hin; apply dict_get_keys in Hin as (cell & Hcell).
      congruence. }
    rewrite Hout in Hcount; simpl; lia.
Qed.

(** ** The text of a label *)

Lemma remove_char_gone (c : ascii) (s : string) :
  PyStr.has_char c (PyStr.remove_char c s) = false.
Proof.
  induction s as [| d s IH]; [reflexivity |].
  cbn [PyStr.remove_char]; destruct (Ascii.eqb c d) eqn:E; [exact IH |].
  rewrite has_char_cons, E, IH; reflexivity.
Qed.

Lemma has_char_join (c : ascii) (sep : string) (parts : list string) :
  PyStr.has_char c sep = false ->
  Forall (fun part => PyStr.has_char c part = false) parts ->
  PyStr.has_char c (PyStr.join sep parts) = false.
Proof.
  intros Hsep; induction 1 as [| x l Hx Hl IH]; [reflexivity |].
  destruct l as [| y l]; [exact Hx |].
  rewrite join_cons2, !has_char_append, Hx, Hsep, IH; reflexivity.
Qed.

(** X14.  The text that [flat_config] returns holds no apostrophe. *)
Theorem flat_config_no_apostrophe :
  forall configs : list pyobj,
    PyStr.has_char PyStr.quote (flat_config configs) = false.
Proof.
  intro configs; unfold flat_config; apply has_char_join; [reflexivity |].
  apply Forall_forall; intros part Hin.
  apply in_map_iff in Hin as (conf & <- & _); apply remove_char_gone.
Qed.

Lemma remove_char_append (c : ascii) (a b : string) :
  PyStr.remove_char c (a ++ b) = PyStr.remove_char c a ++ PyStr.remove_char c b.
Proof.
  induction a as [| x a IH]; [reflexivity |].
  change (String x a ++ b) with (String x (a ++ b)); cbn [PyStr.remove_char].
  rewrite IH; destruct (Ascii.eqb c x); reflexivity.
Qed.

Lemma remove_char_absent (c : ascii) (s : string) :
  (forall x, In x (list_ascii_of_string s) -> x <> c) -> PyStr.remove_char c s = s.
Proof.
  induction s as [| x s IH]; intro H; [reflexivity |].
  cbn [PyStr.remove_char].
  destruct (Ascii.eqb_spec c x) as [-> | _].
  - exfalso; exact (H x (or_introl eq_refl) eq_refl).
  - rewrite IH; [reflexivity | intros y Hy; apply H; right; exact Hy].
Qed.

Lemma repr_body_simple (s : string) :
  simple_string s -> PyStr.repr_body PyStr.quote s = s.
Proof.
  induction s as [| c s IH]; intro H; [reflexivity |].
  cbn [PyStr.repr_body]; rewrite IH by (intros d Hd; apply H; right; exact Hd).
  destruct (H c (or_introl eq_refl)) as (Hp & Hq & Hb).
  unfold PyStr.repr_char.
  destruct (Ascii.eqb_spec c PyStr.quote) as [-> | _]; [contradiction |].
  destruct (Ascii.eqb_spec c PyStr.backslash) as [-> | _]; [contradiction |].
  cbn [orb].
  assert (Hcode : forall n, (n < 32)%nat -> (PyStr.code c =? n)%nat = false).
  { intros n Hn; apply Nat.eqb_neq; intro Hc.
    unfold PyStr.is_printable, PyStr.between in Hp; rewrite Hc in Hp.
    apply orb_true_iff in Hp as [Hp | Hp]; apply andb_true_iff in Hp as (Hp & _).
    - apply Nat.leb_le in Hp; lia.
    - apply andb_true_iff in Hp as (Hp & _); apply Nat.leb_le in Hp; lia. }
  rewrite (Hcode 9), (Hcode 10), (Hcode 13), Hp by lia; reflexivity.
Qed.

Lemma repr_simple (s : string) :
  simple_string s -> PyStr.remove_char PyStr.quote (PyStr.repr s) = s.
Proof.
  intro H; unfold PyStr.repr.
  assert (Hq : forall x, In x (list_ascii_of_string s) -> x <> PyStr.quote)
    by (intros x Hx; apply H, Hx).
  rewrite (has_char_absent _ Hq); cbn [andb].
  rewrite (repr_body_simple H).
  change (String PyStr.quote (s ++ String PyStr.quote EmptyString))
    with (String PyStr.quote EmptyString ++ s ++ String PyStr.quote EmptyString).
  rewrite !remove_char_append, (remove_char_absent _ Hq).
  change (PyStr.remove_char PyStr.quote (String PyStr.quote EmptyString))
    with EmptyString.
  apply append_empty_r.
Qed.

Lemma remove_char_join_repr (values : list string) :
  Forall simple_string values ->
  PyStr.remove_char PyStr.quote (PyStr.join ", " (map PyStr.repr values))
  = PyStr.join ", " values.
Proof.
  induction 1 as [| x l Hx Hl IH]; [reflexivity |].
  destruct l as [| y l]; [exact (repr_simple Hx) |].
  cbn [map] in *; rewrite !join_cons2, !remove_char_append, (repr_simple Hx), IH.
  reflexivity.
Qed.

(** X15.  For values that are made of printable characters other than the
    apostrophe and the backslash, [flat_config] writes each list as its
    values between brackets, a comma and a space between two values, and
    puts one space between two lists. *)
Theorem flat_config_brackets :
  forall configs : list (list string),
    Forall (Forall simple_string) configs ->
    flat_config (map PList configs)
    = PyStr.join " " (map (fun values => "[" ++ PyStr.join ", " values ++ "]") configs).
Proof.
  intros configs H; unfold flat_config; rewrite map_map; f_equal.
  apply map_ext_in; intros values Hin.
  rewrite Forall_forall in H; specialize (H values Hin).
  cbn [py_str]; unfold PyStr.str_of_list.
  rewrite !remove_char_append, (remove_char_join_repr H); reflexivity.
Qed.

(** ** [equals] and [contains] *)

Lemma set_eq_same_elements (a b : list string) :
  set_eq (set_of_list a) (set_of_list b) = true <-> same_elements a b.
Proof.
  unfold set_eq, same_elements; rewrite andb_true_iff, !set_subset_incl; split.
  - intros (Hab & Hba) value; rewrite <- (set_of_list_In a), <- (set_of_list_In b).
    split; [apply Hab | apply Hba].
  - intro H; split; intros value Hv; apply set_of_list_In;
      apply (proj1 (set_of_list_In _ _)) in Hv; apply H; exact Hv.
Qed.

(** X16.  [equals(configs_i, configs_j)] is [True] exactly when the lists at
    the positions of [configs_i] have the same elements as the lists at the
    same positions of [configs_j], whatever follows in [configs_j]; it
    raises only [IndexError], and only when [configs_j] is the shorter. *)
Theorem equals_compares_positions :
  forall configs_i configs_j : list (list string),
    (Configs.equals configs_i configs_j = Ok true
     <-> exists head rest,
          configs_j = (head ++ rest)%list /\ Forall2 same_elements configs_i head)
    /\ forall e, Configs.equals configs_i configs_j = Err e ->
                 e = IndexError /\ List.length configs_j < List.length configs_i.
Proof.
  induction configs_i as [| a configs_i IH]; intro configs_j.
  - split; [split |].
    + intros _; exists [], configs_j; split; [reflexivity | constructor].
    + reflexivity.
    + intros e H; discriminate H.
  - destruct configs_j as [| b configs_j]; cbn [Configs.equals].
    + split; [split |].
      * discriminate.
      * intros (head & rest & Hj & Hall); inversion Hall; subst; discriminate Hj.
      * intros e H; injection H as <-; split; [reflexivity | simpl; lia].
    + destruct (IH configs_j) as (Htrue & Herr).
      destruct (set_eq (set_of_list a) (set_of_list b)) eqn:E.
      * apply set_eq_same_elements in E.
        split; [rewrite Htrue; split |].
        -- intros (head & rest & -> & Hall).
           exists (b :: head), rest; split; [reflexivity | constructor; assumption].
        -- intros (head & rest & Hj & Hall); inversion Hall; subst.
           injection Hj as <- ->; eexists _, rest; split; [reflexivity | assumption].
        -- intros e H; destruct (Herr e H) as (-> & Hlen); split; [reflexivity |].
           simpl; lia.
      * split; [split |].
        -- discriminate.
        -- intros (head & rest & Hj & Hall); inversion Hall; subst.
           injection Hj as <- ->.
           assert (E' : set_eq (set_of_list a) (set_of_list b) = true)
             by (apply set_eq_same_elements; assumption).
           congruence.
        -- intros e H; discriminate H.
Qed.

(** X17.  [contains(configs_list, configs)] is [True] exactly when [equals]
    is [True] on one element of the list and [False] on those before it,
    and [False] exactly when [equals] is [False] on every element. *)
Theorem contains_finds_equal :
  forall (configs_list : list (list (list string))) (configs : list (list string)),
    (Configs.contains configs_list configs = Ok true
     <-> exists before configs_x after,
          configs_list = (before ++ configs_x :: after)%list
          /\ Forall (fun c => Configs.equals c configs = Ok false) before
          /\ Configs.equals configs_x configs = Ok true)
    /\ (Configs.contains configs_list configs = Ok false
        <-> Forall (fun c => Configs.equals c configs = Ok false) configs_list).
Proof.
  intros configs_list configs; induction configs_list as [| c l (IHt & IHf)].
  - split; split.
    + discriminate.
    + intros ([| ? ?] & x & after & H & _); discriminate H.
    + constructor.
    + reflexivity.
  - cbn [Configs.contains].
    destruct (Configs.equals c configs) as [[|] | e] eqn:E; cbn [bind].
    + split; split.
      * intros _; exists [], c, l; repeat split; [constructor | exact E].
      * reflexivity.
      * discriminate.
      * intro H; inversion H; congruence.
    + split; split.
      * intro H; apply IHt in H as (before & x & after & -> & Hb & Hx).
        exists (c :: before), x, after; repeat split; [constructor |]; assumption.
      * intros ([| c' before] & x & after & Hl & Hb & Hx).
        -- injection Hl as <- <-; congruence.
        -- injection Hl as <- ->; inversion Hb; subst.
           apply IHt; exists before, x, after; auto.
      * intro H; constructor; [exact E | apply IHf, H].
      * intro H; inversion H; subst; apply IHf; assumption.
    + split; split.
      * discriminate.
      * intros ([| c' before] & x & after & Hl & Hb & Hx).
        -- injection Hl as <- <-; congruence.
        -- injection Hl as <- ->; inversion Hb; congruence.
      * discriminate.
      * intro H; inversion H; congruence.
Qed.

(** ** The log for GitHub is one line *)

Lemma string_of_uint_no_newline (d : Decimal.uint) :
  PyStr.has_char PyStr.newline (DecimalString.NilEmpty.string_of_uint d) = false.
Proof. induction d; simpl DecimalString.NilEmpty.string_of_uint; try reflexivity;
         rewrite has_char_cons, IHd; reflexivity. Qed.

Lemma dec_no_newline (n : nat) : PyStr.has_char PyStr.newline (PyStr.dec n) = false.
Proof. apply string_of_uint_no_newline. Qed.

Lemma repr_char_no_newline (q c : ascii) :
  q = PyStr.quote \/ q = PyStr.dquote ->
  PyStr.has_char PyStr.newline (PyStr.repr_char q c) = false.
Proof.
  intros [-> | ->]; destruct c as [[] [] [] [] [] [] [] []]; vm_compute; reflexivity.
Qed.

Lemma repr_body_no_newline (q : ascii) (s : string) :
  q = PyStr.quote \/ q = PyStr.dquote ->
  PyStr.has_char PyStr.newline (PyStr.repr_body q s) = false.
Proof.
  intro Hq; induction s as [| c s IH]; [reflexivity |].
  cbn [PyStr.repr_body]; rewrite has_char_append, (repr_char_no_newline c Hq).
  apply IH.
Qed.

Lemma repr_no_newline (s : string) : PyStr.has_char PyStr.newline (PyStr.repr s) = false.
Proof.
  unfold PyStr.repr.
  set (q := if PyStr.has_char PyStr.quote s && negb (PyStr.has_char PyStr.dquote s)
            then PyStr.dquote else PyStr.quote).
  assert (Hq : q = PyStr.quote \/ q = PyStr.dquote)
    by (unfold q; destruct (_ && _); auto).
  rewrite has_char_cons, has_char_append, (repr_body_no_newline s Hq).
  destruct Hq as [-> | ->]; reflexivity.
Qed.

Lemma str_of_list_no_newline (l : list string) :
  PyStr.has_char PyStr.newline (PyStr.str_of_list l) = false.
Proof.
  unfold PyStr.str_of_list; rewrite !has_char_append, has_char_join; [reflexivity.. |].
  apply Forall_forall; intros part Hin; apply in_map_iff in Hin as (s & <- & _).
  apply repr_no_newline.
Qed.

Lemma print_log_no_newline (log_results : results) :
  (forall testapp cell,
      In (testapp, cell) log_results ->
      PyStr.has_char PyStr.newline testapp = false
      /\ forall label tests, In (label, tests) cell ->
                             PyStr.has_char PyStr.newline label = false) ->
  Forall (fun line => PyStr.has_char PyStr.newline line = false) (print_log log_results).
Proof.
  intro H; apply Forall_forall; intros line Hin.
  unfold print_log in Hin.
  assert (Hline : In line (flat_map testapp_lines log_results)).
  { destruct (flat_map testapp_lines log_results); [destruct Hin | right; exact Hin]. }
  apply in_flat_map in Hline as ([testapp cell] & Hitem & Hline).
  destruct (H testapp cell Hitem) as (Hname & Hlabels).
  destruct Hline as [<- | [<- | Hline]]; [reflexivity | |].
  - rewrite has_char_append, Hname; reflexivity.
  - apply in_app_iff in Hline as [Hline | Hline].
    + destruct (0 <? List.length cell)%nat; [| destruct Hline].
      destruct Hline as [<- | []].
      rewrite !has_char_append, dec_no_newline; reflexivity.
    + apply in_flat_map in Hline as ([label tests] & Hentry & Hline).
      destruct Hline as [<- | Hline].
      * rewrite has_char_append, (Hlabels label tests Hentry); reflexivity.
      * destruct (is_empty tests); [destruct Hline |].
        destruct Hline as [<- | []].
        cbn [py_str]; rewrite has_char_append, str_of_list_no_newline; reflexivity.
Qed.

(** X18.  When no name of a test application and no label holds a newline,
    [print_github_log] returns one string without newline: the lines are
    joined by "%0A" and the names of failed tests are written escaped. *)
Theorem print_github_log_one_line :
  forall log_results : results,
    (forall testapp cell,
        In (testapp, cell) log_results ->
        PyStr.has_char PyStr.newline testapp = false
        /\ forall label tests, In (label, tests) cell ->
                               PyStr.has_char PyStr.newline label = false) ->
    exists text,
      print_github_log log_results = [text]
      /\ PyStr.has_char PyStr.newline text = false.
Proof.
  intros log_results H; unfold print_github_log.
  eexists; split; [reflexivity |].
  apply has_char_join; [reflexivity |].
  apply Forall_app; split; [| apply print_log_no_newline, H].
  repeat constructor.
Qed.

(** ** The text of a cell does not depend on the order of its entries *)

Lemma leb_trans (a b c : string) :
  String.leb a b = true -> String.leb b c = true -> String.leb a c = true.
Proof.
  unfold String.leb; revert b c.
  induction a as [| x a IH]; intros [| y b] [| z c]; cbn [String.compare];
    try (intros; reflexivity); try (intros; discriminate).
  unfold Ascii.compare.
  destruct (BinNat.N.compare_spec (N_of_ascii x) (N_of_ascii y)) as [Exy | Lxy | Gxy];
    destruct (BinNat.N.compare_spec (N_of_ascii y) (N_of_ascii z)) as [Eyz | Lyz | Gyz];
    destruct (BinNat.N.compare_spec (N_of_ascii x) (N_of_ascii z)) as [Exz | Lxz | Gxz];
    intros Hab Hbc; try reflexivity; try discriminate; try lia.
  apply (IH b c Hab Hbc).
Qed.

Lemma ascending_head_least (x : string) (l : list string) :
  ascending (x :: l) -> forall y, In y l -> String.leb x y = true.
Proof.
  intro H.
  assert (Hs : StronglySorted (fun a b => String.leb a b = true) (x :: l)).
  { apply Sorted_StronglySorted; [| exact H].
    intros a b c; apply leb_trans. }
  apply StronglySorted_inv in Hs as (_ & Hall).
  intros y Hin; exact (proj1 (Forall_forall _ _) Hall y Hin).
Qed.

Lemma ascending_tail (x : string) (l : list string) : ascending (x :: l) -> ascending l.
Proof. intro H; apply Sorted_inv in H as (H & _); exact H. Qed.

Lemma ascending_unique (l1 l2 : list string) :
  ascending l1 -> ascending l2 -> Permutation l1 l2 -> l1 = l2.
Proof.
  revert l2; induction l1 as [| x l1 IH]; intros l2 H1 H2 Hp.
  - apply Permutation_nil in Hp; symmetry; exact Hp.
  - destruct l2 as [| y l2];
      [apply Permutation_sym, Permutation_nil in Hp; discriminate |].
    assert (Exy : x = y).
    { assert (Hx : In x (y :: l2))
        by (apply (Permutation_in _ Hp); left; reflexivity).
      assert (Hy : In y (x :: l1))
        by (apply (Permutation_in _ (Permutation_sym Hp)); left; reflexivity).
      destruct Hx as [Hx | Hx]; [symmetry; exact Hx |].
      destruct Hy as [Hy | Hy]; [exact Hy |].
      apply String.leb_antisym.
      - apply (ascending_head_least H1 y Hy).
      - apply (ascending_head_least H2 x Hx). }
    subst y; f_equal.
    apply IH; [apply (ascending_tail H1) | apply (ascending_tail H2) |].
    apply (Permutation_cons_inv Hp).
Qed.

Lemma sorted_permutation (l1 l2 : list string) :
  Permutation l1 l2 -> PyStr.sorted l1 = PyStr.sorted l2.
Proof.
  intro Hp; apply ascending_unique; try apply sorted_ascending.
  eapply Permutation_trans; [apply sorted_perm |].
  eapply Permutation_trans; [exact Hp |].
  apply Permutation_sym, sorted_perm.
Qed.

Lemma set_of_list_permutation (l1 l2 : list string) :
  Permutation l1 l2 -> Permutation (set_of_list l1) (set_of_list l2).
Proof.
  intro Hp; apply NoDup_Permutation; try apply set_of_list_NoDup.
  intro x; rewrite !set_of_list_In.
  split; apply Permutation_in; [exact Hp | apply Permutation_sym, Hp].
Qed.

Lemma format_entry_same_tests (space_char list_separator : string)
      (x y : string * list string) :
  same_tests x y ->
  format_entry space_char list_separator x = format_entry space_char list_separator y.
Proof.
  destruct x as [config tests], y as [config' tests']; intros (Hc & Hp).
  cbn [fst snd] in Hc, Hp; subst config'.
  unfold format_entry.
  rewrite (Permutation_length Hp).
  rewrite (@sorted_permutation
             (map (fun test => space_char ++ space_char ++ test) tests)
             (map (fun test => space_char ++ space_char ++ test) tests')
             (Permutation_map _ Hp)).
  reflexivity.
Qed.

(** X19.  The text [format_result] writes for a cell does not depend on the
    order in which the entries of the cell were recorded, nor on the order
    in which the failed tests of an entry were reported. *)
Theorem format_result_order_independent :
  forall (config_tests config_tests' : dict (list string))
         (space_char list_separator : string) (justify : nat),
    same_entries config_tests config_tests' ->
    format_result config_tests space_char list_separator justify
    = format_result config_tests' space_char list_separator justify.
Proof.
  intros config_tests config_tests' space_char list_separator justify
         (reordered & Hsame & Hp).
  unfold format_result.
  assert (Hmap : map (format_entry space_char list_separator) config_tests
                 = map (format_entry space_char list_separator) reordered).
  { clear Hp; induction Hsame as [| x y l l' Hxy _ IH]; [reflexivity |].
    cbn [map]; rewrite (format_entry_same_tests space_char list_separator Hxy), IH.
    reflexivity. }
  assert (Hset : Permutation
                   (set_of_list (map (format_entry space_char list_separator) config_tests))
                   (set_of_list (map (format_entry space_char list_separator) config_tests')))
    by (rewrite Hmap; apply set_of_list_permutation, Permutation_map, Hp).
  rewrite (Permutation_length Hset), (sorted_permutation Hset).
  reflexivity.
Qed.

End Summarize.

(** * Concrete runs *)

Lemma insertion_order_ok : iteration_order insertion_order.
Proof. intros s _; apply Permutation_refl. Qed.

(** C1, counterexample.  With the single axis "os" and one configuration
    that ran and failed, the failing values are the whole universe, of size
    1, and the axis is rendered as the bare value, not as "All 1 os". *)
Lemma combine_config_single_value :
  reorganize_configs ["os"] [["ubuntu"]] = Ok [["ubuntu"]]
  /\ combine_config ["os"] [] insertion_order ["ubuntu"] ["ubuntu"] 0 = Ok ["ubuntu"]
  /\ combine_config ["os"] [] insertion_order ["ubuntu"] ["ubuntu"] 0
     <> Ok ["All " ++ PyStr.dec 1 ++ " " ++ "os"].
Proof. repeat split; try reflexivity; discriminate. Qed.

(** Witness of [combine_config_whole_universe]: three operating systems
    ran and failed. *)
Lemma combine_config_whole_universe_witness :
  combine_config ["os"] [] insertion_order
                 ["ubuntu"; "windows"; "macos"] ["macos"; "ubuntu"; "windows"] 0
  = Ok ["All 3 os"].
Proof.
  apply (@combine_config_whole_universe ["os"] [] insertion_order
           [["ubuntu"]; ["windows"]; ["macos"]]
           [["macos"]; ["ubuntu"]; ["windows"]]
           [["ubuntu"; "windows"; "macos"]] [["macos"; "ubuntu"; "windows"]]
           0 ["ubuntu"; "windows"; "macos"] ["macos"; "ubuntu"; "windows"] "os");
    try reflexivity.
  - exact insertion_order_ok.
  - simpl; lia.
Defined.

(** C2, counterexample.  Windows and Ubuntu failed, in this order of the
    logs, and macOS ran as well: with a set iterated in insertion order the
    label lists "windows" before "ubuntu", which is not the sorted order,
    whatever separates the values. *)
Lemma combine_config_not_sorted :
  reorganize_configs ["os"] [["windows"]; ["ubuntu"]] = Ok [["windows"; "ubuntu"]]
  /\ combine_config ["os"] [] insertion_order
                    ["windows"; "ubuntu"] ["windows"; "ubuntu"; "macos"] 0
     = Ok ["2/3 os: windows ubuntu"]
  /\ ~ exists separator,
         combine_config ["os"] [] insertion_order
                        ["windows"; "ubuntu"] ["windows"; "ubuntu"; "macos"] 0
         = Ok ["2/3 os: " ++ PyStr.join separator (PyStr.sorted ["windows"; "ubuntu"])].
Proof.
  repeat split; try reflexivity.
  intros (separator & H); vm_compute in H; discriminate H.
Qed.

(** Witness of [combine_config_strict_subset]. *)
Lemma combine_config_strict_subset_witness :
  exists values,
    Permutation values ["windows"; "ubuntu"]
    /\ combine_config ["os"] [] insertion_order
                      ["windows"; "ubuntu"] ["windows"; "ubuntu"; "macos"] 0
       = Ok [PyStr.dec 2 ++ "/" ++ PyStr.dec 3 ++ " " ++ "os" ++ ": "
             ++ PyStr.join " " (map (PyStr.remove_char PyStr.quote) values)].
Proof.
  apply (@combine_config_strict_subset ["os"] [] insertion_order
           [["windows"]; ["ubuntu"]]
           [["windows"]; ["ubuntu"]; ["macos"]]
           [["windows"; "ubuntu"]] [["windows"; "ubuntu"; "macos"]]
           0 ["windows"; "ubuntu"] ["windows"; "ubuntu"; "macos"] "os");
    try reflexivity.
  - exact insertion_order_ok.
  - intros x Hx; simpl in *; tauto.
  - intro H; specialize (H "macos"); simpl in H.
    destruct H as [H | [H | []]]; [tauto | discriminate H | discriminate H].
  - simpl; lia.
  - left; discriminate.
Defined.

Ltac sample_complete :=
  split;
  [ vm_compute; lia
  | intros [| [| k]] device Hk Hd;
    [ vm_compute in Hk; discriminate Hk
    | vm_compute in Hd; injection Hd as <-;
      first [left; reflexivity | right; reflexivity]
    | destruct k; discriminate Hk ] ].

Ltac sample_usable :=
  split;
  [ vm_compute; lia
  | intros [| [| k]] device Hk Hd;
    [ vm_compute in Hk; discriminate Hk
    | vm_compute in Hd; injection Hd as <-; vm_compute;
      first [exact I | discriminate]
    | destruct k; discriminate Hk ] ].

Ltac all_usable :=
  repeat (apply Forall_cons; [sample_usable |]); apply Forall_nil.

Ltac all_complete :=
  repeat (apply Forall_cons; [sample_complete |]); apply Forall_nil.

(** Witness of [summarize_logs_nothing_to_report]. *)
Lemma summarize_logs_nothing_to_report_witness :
  summarize_logs sample_axes sample_devices insertion_order
                 "ci" [build_log_quiet] [test_log_quiet] true false
  = Ok {| printed := None; returned := (true, None) |}.
Proof.
  apply (@summarize_logs_nothing_to_report sample_axes sample_devices insertion_order
           "ci" [build_log_quiet] [test_log_quiet] true false).
  - repeat constructor.
    + exists "ubuntu-latest-emulator"; split; reflexivity.
    + eexists; split; reflexivity.
  - repeat constructor.
    + exists "ubuntu-latest-emulator"; split; reflexivity.
    + eexists; repeat split; reflexivity.
Defined.

Lemma sample_readable :
  readable_logs "ci" [build_log_quiet] [test_log_missing; test_log_flaky; test_log_quiet].
Proof. repeat constructor. Qed.

Lemma sample_complete_logs :
  complete_logs sample_axes sample_devices
                "ci" [build_log_quiet] [test_log_missing; test_log_flaky; test_log_quiet].
Proof.
  split; all_complete.
Qed.

(** Witness of [missing_log_reported]. *)
Lemma missing_log_reported_witness :
  exists st errors all_tested_configs log_results,
    read_logs "ci" [build_log_quiet] [test_log_missing; test_log_flaky; test_log_quiet]
    = Ok st
    /\ dict_get (log_data st) MISSING_LOG = Some errors
    /\ (In test_log_missing [build_log_quiet] ->
        In (config_of (log_name_re "ci" BUILD_FILE_PREFIX) test_log_missing)
           (build errors))
    /\ (In test_log_missing [test_log_missing; test_log_flaky; test_log_quiet] ->
        In (config_of (log_name_re "ci" TEST_FILE_PREFIX) test_log_missing)
           (test_errors errors))
    /\ reorganize_all_tested_configs sample_axes st = Ok all_tested_configs
    /\ reorganize_log sample_axes sample_devices insertion_order
                      (log_data st) all_tested_configs
       = Ok log_results
    /\ In MISSING_LOG (dict_keys log_results)
    /\ summarize_logs sample_axes sample_devices insertion_order
                      "ci" [build_log_quiet]
                      [test_log_missing; test_log_flaky; test_log_quiet] true false
       = Ok {| printed := Some (render true false log_results);
               returned := (false, Some (render true false log_results)) |}
    /\ contains MISSING_LOG (render true false log_results).
Proof.
  apply (@missing_log_reported sample_axes sample_devices insertion_order
           "ci" [build_log_quiet] [test_log_missing; test_log_flaky; test_log_quiet]
           true false test_log_missing).
  - exact insertion_order_ok.
  - reflexivity.
  - exact sample_readable.
  - exact sample_complete_logs.
  - reflexivity.
  - right; left; reflexivity.
Defined.

(** The Markdown table of that run. *)
Example missing_log_table :
  summarize_logs sample_axes sample_devices insertion_order
                 "ci" [build_log_quiet]
                 [test_log_missing; test_log_flaky; test_log_quiet] true false
  = let text :=
      "| Failures | Configs |" ++ line_break
        ++ "|----------|---------|" ++ line_break
        ++ "| missing_log | [TEST] [ERROR] [1/3 os: windows] [1/2 Test Device(s): pixel]<br/> |"
        ++ line_break
        ++ "| auth | [TEST] [FLAKINESS] [1/3 os: macos] [1/2 Test Device(s): pixel]<br/> |" in
    Ok {| printed := Some text; returned := (false, Some text) |}.
Proof. vm_compute; reflexivity. Qed.

(** Witness of [only_flakiness_reported]. *)
Lemma only_flakiness_reported_witness :
  exists text,
    summarize_logs sample_axes sample_devices insertion_order
                   "ci" [build_log_quiet] [test_log_flaky; test_log_quiet] false false
    = Ok {| printed := Some text; returned := (true, Some text) |}.
Proof.
  apply (@only_flakiness_reported sample_axes sample_devices insertion_order
           "ci" [build_log_quiet] [test_log_flaky; test_log_quiet] false false).
  - exact insertion_order_ok.
  - reflexivity.
  - repeat constructor.
    + exists "ubuntu-latest-emulator"; split; reflexivity.
    + eexists; split; reflexivity.
  - repeat constructor.
    + exists "macos-latest-pixel"; split; reflexivity.
    + eexists _, _; repeat split; reflexivity.
    + exists "ubuntu-latest-emulator"; split; reflexivity.
    + eexists _, _; repeat split; reflexivity.
  - left; eexists _, _, _; split; reflexivity.
  - split; all_complete.
Defined.

(** Witness of [markdown_cell_collapse]: a cell with four labels is
    rendered as one widget that states "4 items". *)
Lemma markdown_cell_collapse_witness :
  exists log_results cell,
    reorganize_log sample_axes sample_devices insertion_order sample_data sample_tested
    = Ok log_results
    /\ In ("auth", cell) log_results
    /\ List.length cell = 4
    /\ format_result cell "&nbsp;" "<br/>" 0
       = "<details><summary>(4 items)</summary>"
           ++ "[BUILD] [ERROR] [ubuntu] [emulator]<br/>"
           ++ "[TEST] [ERROR] [1/2 os: ubuntu] [1/2 Test Device(s): emulator]<br/>"
           ++ "[TEST] [FAILURE] [1/2 os: macos] [1/2 Test Device(s): pixel]<br/>"
           ++ "[TEST] [FLAKINESS] [All 2 os] [All 2 Test Device(s)]<br/>"
           ++ "</details>".
Proof.
  eexists _, _.
  split; [vm_compute; reflexivity |].
  split; [left; reflexivity |].
  split; [reflexivity |].
  pose proof (@markdown_cell_collapse sample_axes sample_devices insertion_order
                sample_data sample_tested _ "auth" _
                ltac:(vm_compute; reflexivity) ltac:(left; reflexivity)) as H.
  cbv zeta in H; destruct H as (_ & Hmore & _).
  rewrite Hmore; [vm_compute; reflexivity | simpl; lia].
Defined.

(** With three labels the entries are written one after the other. *)
Example markdown_cell_inline :
  format_result [("[BUILD] [ERROR] [ubuntu] [emulator]", []);
                 ("[TEST] [ERROR] [1/2 os: ubuntu] [1/2 Test Device(s): emulator]", []);
                 ("[TEST] [FAILURE] [1/2 os: macos] [1/2 Test Device(s): pixel]", [])]
                "&nbsp;" "<br/>" 0
  = "[BUILD] [ERROR] [ubuntu] [emulator]<br/>"
      ++ "[TEST] [ERROR] [1/2 os: ubuntu] [1/2 Test Device(s): emulator]<br/>"
      ++ "[TEST] [FAILURE] [1/2 os: macos] [1/2 Test Device(s): pixel]<br/>".
Proof. reflexivity. Qed.

(** Witness of [no_failed_tests_listed]. *)
Lemma no_failed_tests_listed_witness :
  exists log_results,
    reorganize_log sample_axes sample_devices insertion_order sample_data sample_tested
    = Ok log_results
    /\ (forall testapp cell label tests,
           In (testapp, cell) log_results -> In (label, tests) cell -> tests = [])
    /\ print_log log_results = print_log_plain log_results
    /\ forall testapp cell space_char list_separator justify,
        In (testapp, cell) log_results ->
        format_result cell space_char list_separator justify
        = format_result_plain cell list_separator justify.
Proof.
  eexists; split; [vm_compute; reflexivity |].
  apply (@no_failed_tests_listed sample_axes sample_devices insertion_order
           sample_data sample_tested).
  vm_compute; reflexivity.
Defined.

(** C6, counterexample.  The operating system "windows-latest" is one
    component of the vector; the file name made of it gives back the
    vector ["windows"], and the labels of the two vectors differ. *)
Lemma file_name_loses_latest :
  get_configs_from_file_name
    (file_name_of_configs "ci" BUILD_FILE_PREFIX ["windows-latest"])
    (log_name_re "ci" BUILD_FILE_PREFIX)
  = Ok ["windows"]
  /\ label_of ["os"] [] insertion_order BuildError [["windows-latest"]] [["windows-latest"]]
     = Ok "[BUILD] [ERROR] [windows-latest]"
  /\ label_of ["os"] [] insertion_order BuildError [["windows"]] [["windows"]]
     = Ok "[BUILD] [ERROR] [windows]"
  /\ label_of ["os"] [] insertion_order BuildError [["windows"]] [["windows"]]
     <> label_of ["os"] [] insertion_order BuildError
                 [["windows-latest"]] [["windows-latest"]].
Proof. repeat split; try reflexivity; vm_compute; discriminate. Qed.

Ltac plain_component :=
  split; [discriminate |]; split; [discriminate |];
  intros c Hc; simpl in Hc;
  repeat (destruct Hc as [<- | Hc]; [split; [discriminate | reflexivity] |]);
  destruct Hc.

(** Witness of [file_name_round_trip]. *)
Lemma file_name_round_trip_witness :
  get_configs_from_file_name
    (file_name_of_configs "ci" TEST_FILE_PREFIX ["macos"; "pixel"])
    (log_name_re "ci" TEST_FILE_PREFIX)
  = Ok ["macos"; "pixel"]
  /\ forall configs',
      get_configs_from_file_name
        (file_name_of_configs "ci" TEST_FILE_PREFIX ["macos"; "pixel"])
        (log_name_re "ci" TEST_FILE_PREFIX)
      = Ok configs' ->
      forall c failing tested,
        label_of sample_axes sample_devices insertion_order
                 c (configs' :: failing) (configs' :: tested)
        = label_of sample_axes sample_devices insertion_order
                   c (["macos"; "pixel"] :: failing) (["macos"; "pixel"] :: tested).
Proof.
  apply (@file_name_round_trip sample_axes sample_devices insertion_order
           "ci" TEST_FILE_PREFIX ["macos"; "pixel"]).
  - reflexivity.
  - right; reflexivity.
  - repeat (apply Forall_cons; [plain_component |]); apply Forall_nil.
Defined.

(** C7, counterexample.  The test application "my app" failed in one
    configuration: the Markdown table writes its name "my&nbsp;app", and
    the name itself does not occur in the table. *)
Lemma markdown_name_with_space :
  exists text,
    summarize_logs sample_axes sample_devices insertion_order
                   "ci" [] [test_log_failing] true false
    = Ok {| printed := Some text; returned := (false, Some text) |}
    /\ contains "my&nbsp;app" text
    /\ ~ contains "my app" text.
Proof.
  eexists; split; [vm_compute; reflexivity |]; split.
  - apply py_in_contains; vm_compute; reflexivity.
  - intro H; apply py_in_contains in H; vm_compute in H; discriminate H.
Qed.

(** Witness of [single_failure_named]: the one failure is on a device
    that [sample_devices] does not list. *)
Lemma single_failure_named_witness :
  exists axes_text log_text table_text,
    summarize_logs sample_axes sample_devices insertion_order
                   "ci" [build_log_quiet] [test_log_failing_desktop; test_log_quiet]
                   false false
    = Ok {| printed := Some log_text;
            returned := (is_flakiness (TestFailure, "my app", ["macos"; "desktop"]),
                         Some log_text) |}
    /\ log_text = single_log_text "my app" (category_text TestFailure ++ axes_text)
    /\ contains "my app" log_text /\ contains (category_text TestFailure) log_text
    /\ summarize_logs sample_axes sample_devices insertion_order
                      "ci" [build_log_quiet] [test_log_failing_desktop; test_log_quiet]
                      true false
       = Ok {| printed := Some table_text;
               returned := (is_flakiness (TestFailure, "my app", ["macos"; "desktop"]),
                            Some table_text) |}
    /\ table_text
       = single_table_text (PyStr.sub_word_space "&nbsp;" "my app")
                           (category_text TestFailure ++ axes_text)
    /\ contains (PyStr.sub_word_space "&nbsp;" "my app") table_text
    /\ contains (category_text TestFailure) table_text.
Proof.
  apply (@single_failure_named sample_axes sample_devices insertion_order
           "ci" [build_log_quiet] [test_log_failing_desktop; test_log_quiet]
           TestFailure "my app" ["macos"; "desktop"]).
  - exact insertion_order_ok.
  - reflexivity.
  - repeat constructor.
  - split; all_usable.
  - reflexivity.
Defined.

(** Without the hypothesis on the devices the compaction can raise: when
    two real and two virtual devices failed and a fifth value ran, the
    second group is added to what is by then a list. *)
Example combine_config_two_groups :
  combine_config
    ["Test Device(s)"]
    [("pixel", [("type", "real")]); ("galaxy", [("type", "real")]);
     ("emulator", [("type", "virtual")]); ("simulator", [("type", "virtual")])]
    insertion_order
    ["pixel"; "galaxy"; "emulator"; "simulator"]
    ["pixel"; "galaxy"; "emulator"; "simulator"; "desktop"] 0
  = Err AttributeError.
Proof. reflexivity. Qed.

Ltac distinct :=
  repeat (apply NoDup_cons;
          [ let H := fresh "H" in
            simpl; intro H;
            repeat (destruct H as [H | H]; [discriminate H |]); exact H
          | ]);
  apply NoDup_nil.

Ltac listed :=
  let x := fresh "x" in
  let H := fresh "H" in
  intros x H; simpl in H |- *;
  repeat (destruct H as [<- | H]; [tauto |]); destruct H.

(** Witness of [get_configs_from_file_name_components]. *)
Lemma get_configs_from_file_name_components_witness :
  Forall plain_component ["macos"; "pixel"].
Proof.
  apply (@get_configs_from_file_name_components
           "ci/test-results-macos-latest-pixel.log.json"
           (log_name_re "ci" TEST_FILE_PREFIX) ["macos"; "pixel"]).
  reflexivity.
Defined.

(** Witness of [reorganize_configs_short_vector]: the second vector has
    no device. *)
Lemma reorganize_configs_short_vector_witness :
  reorganize_configs sample_axes [["ubuntu"; "emulator"]; ["macos"]] = Err IndexError.
Proof.
  apply (proj1 (@reorganize_configs_short_vector sample_axes
                  [["ubuntu"; "emulator"]; ["macos"]] ltac:(discriminate))).
  exists ["macos"]; split; [right; left; reflexivity | simpl; lia].
Defined.

(** Witness of [reorganize_configs_columns]. *)
Lemma reorganize_configs_columns_witness :
  exists sets,
    reorganize_configs sample_axes
      [["ubuntu"; "emulator"]; ["macos"; "pixel"]; ["ubuntu"; "pixel"]] = Ok sets
    /\ List.length sets = List.length sample_axes
    /\ forall k, k < List.length sample_axes ->
         exists s,
           nth_error sets k = Some s /\ NoDup s /\ s <> []
           /\ forall value,
               In value s
               <-> column k [["ubuntu"; "emulator"]; ["macos"; "pixel"]; ["ubuntu"; "pixel"]]
                          value.
Proof.
  apply (@reorganize_configs_columns sample_axes
           [["ubuntu"; "emulator"]; ["macos"; "pixel"]; ["ubuntu"; "pixel"]]).
  - discriminate.
  - intros configs_i [<- | [<- | [<- | []]]]; simpl; lia.
Defined.

(** Witness of [combine_config_ftl_devices]: the two real devices and one
    of the two virtual devices failed. *)
Lemma combine_config_ftl_devices_witness :
  exists labels,
    combine_config ["Test Device(s)"] sample_farm insertion_order
                   ["pixel"; "galaxy"; "emulator"]
                   ["pixel"; "galaxy"; "emulator"; "simulator"] 0
    = Ok labels
    /\ NoDup labels
    /\ forall x,
        In x labels
        <-> x = "All " ++ PyStr.dec (List.length ["pixel"; "galaxy"]) ++ " FTL Devices"
            \/ (In x ["pixel"; "galaxy"; "emulator"] /\ ~ In x ["pixel"; "galaxy"]).
Proof.
  apply (@combine_config_ftl_devices ["Test Device(s)"] sample_farm insertion_order
           ["pixel"; "galaxy"; "emulator"] ["pixel"; "galaxy"; "emulator"; "simulator"]
           ["pixel"; "galaxy"] ["emulator"; "simulator"] 0).
  - exact insertion_order_ok.
  - reflexivity.
  - distinct.
  - distinct.
  - listed.
  - intros d Hd; simpl in Hd.
    repeat (destruct Hd as [<- | Hd]; [reflexivity |]); destruct Hd.
  - simpl; lia.
  - reflexivity.
  - reflexivity.
  - simpl; lia.
  - listed.
  - right; intro H.
    destruct (H "simulator" ltac:(right; left; reflexivity)) as [E | [E | [E | []]]];
      discriminate E.
Defined.

(** Witness of [combine_config_two_groups_raise]. *)
Lemma combine_config_two_groups_raise_witness :
  combine_config ["Test Device(s)"] sample_farm insertion_order
                 ["pixel"; "galaxy"; "emulator"; "simulator"]
                 ["pixel"; "galaxy"; "emulator"; "simulator"; "desktop"] 0
  = Err AttributeError.
Proof.
  apply (@combine_config_two_groups_raise ["Test Device(s)"] sample_farm insertion_order
           ["pixel"; "galaxy"; "emulator"; "simulator"]
           ["pixel"; "galaxy"; "emulator"; "simulator"; "desktop"]
           ["pixel"; "galaxy"] ["emulator"; "simulator"] 0).
  - exact insertion_order_ok.
  - reflexivity.
  - distinct.
  - simpl; lia.
  - reflexivity.
  - reflexivity.
  - simpl; lia.
  - listed.
  - simpl; lia.
  - listed.
  - intros d Hd Hd'; simpl in Hd, Hd'.
    repeat (destruct Hd as [<- | Hd];
            [repeat (destruct Hd' as [E | Hd']; [discriminate E |]); exact Hd' |]).
    exact Hd.
Defined.

(** Witness of [summarize_logs_outcome]. *)
Lemma summarize_logs_outcome_witness :
  exists out,
    summarize_logs sample_axes sample_devices insertion_order
                   "ci" [build_log_quiet]
                   [test_log_missing; test_log_flaky; test_log_quiet] true false
    = Ok out
    /\ fst (returned out)
       = forallb is_flakiness
                 (recorded "ci" [build_log_quiet]
                           [test_log_missing; test_log_flaky; test_log_quiet])
    /\ printed out = snd (returned out)
    /\ (snd (returned out) = None
        <-> recorded "ci" [build_log_quiet]
                     [test_log_missing; test_log_flaky; test_log_quiet] = []).
Proof.
  apply (@summarize_logs_outcome sample_axes sample_devices insertion_order
           "ci" [build_log_quiet] [test_log_missing; test_log_flaky; test_log_quiet]
           true false).
  - exact insertion_order_ok.
  - reflexivity.
  - exact sample_readable.
  - exact sample_complete_logs.
Defined.

(** Witness of [summarize_logs_bad_build_log]: the second build log is
    cut short. *)
Lemma summarize_logs_bad_build_log_witness :
  summarize_logs sample_axes sample_devices insertion_order
                 "ci" [build_log_quiet; build_log_truncated] [test_log_quiet] false false
  = Err JSONDecodeError.
Proof.
  apply (proj1 (@summarize_logs_bad_build_log sample_axes sample_devices insertion_order
                  "ci" [build_log_quiet] [] [test_log_quiet] build_log_truncated
                  false false
                  ltac:(repeat constructor) ltac:(reflexivity) ltac:(reflexivity))).
  reflexivity.
Defined.

(** Witness of [summarize_logs_bad_test_log]: the second test log has no
    key "flakiness". *)
Lemma summarize_logs_bad_test_log_witness :
  summarize_logs sample_axes sample_devices insertion_order
                 "ci" [build_log_quiet] [test_log_quiet; test_log_no_flakiness] true false
  = Err KeyError.
Proof.
  eapply (proj2 (@summarize_logs_bad_test_log sample_axes sample_devices insertion_order
                   "ci" [build_log_quiet] [test_log_quiet] [] test_log_no_flakiness
                   true false
                   ltac:(repeat constructor) ltac:(repeat constructor)
                   ltac:(reflexivity) ltac:(reflexivity))).
  - reflexivity.
  - right; right; reflexivity.
Defined.

(** Witness of [reorganize_log_first_mention]. *)
Lemma reorganize_log_first_mention_witness :
  exists st log_results,
    read_logs "ci" [build_log_quiet] [test_log_missing; test_log_flaky; test_log_quiet]
    = Ok st
    /\ reorganize_log sample_axes sample_devices insertion_order
                      (log_data st) sample_tested_all
       = Ok log_results
    /\ dict_keys log_results
       = set_of_list
           (map testapp_of
                (recorded "ci" [build_log_quiet]
                          [test_log_missing; test_log_flaky; test_log_quiet])).
Proof.
  eexists _, _.
  split; [vm_compute; reflexivity |].
  split; [vm_compute; reflexivity |].
  eapply (@reorganize_log_first_mention sample_axes sample_devices insertion_order
            "ci" [build_log_quiet] [test_log_missing; test_log_flaky; test_log_quiet]
            _ sample_tested_all _).
  - vm_compute; reflexivity.
  - vm_compute; reflexivity.
Defined.

(** Witness of [reorganize_log_one_label_per_category]. *)
Lemma reorganize_log_one_label_per_category_witness :
  exists log_results,
    reorganize_log sample_axes sample_devices insertion_order sample_data sample_tested
    = Ok log_results
    /\ exists labels,
        dict_get log_results "auth" = Some (cell_of_labels labels)
        /\ Forall2 starts_with
                   (failed_categories
                      {| build := [["ubuntu"; "emulator"]];
                         test_errors := [["ubuntu"; "emulator"]];
                         test_failures := [["macos"; "pixel"]];
                         test_flakiness := [["ubuntu"; "emulator"]; ["macos"; "pixel"]] |})
                   labels.
Proof.
  eexists; split; [vm_compute; reflexivity |].
  eapply (@reorganize_log_one_label_per_category
            sample_axes sample_devices insertion_order sample_data sample_tested
            _ "auth" _).
  - vm_compute; reflexivity.
  - distinct.
  - left; reflexivity.
  - reflexivity.
Defined.

(** Witness of [print_table_plain_name]. *)
Lemma print_table_plain_name_witness :
  In (table_row (PyStr.ljust "my app" 0)
                (format_result [("[TEST] [FAILURE] [macos] [pixel]", [])] " " ", " 0))
     (print_table sample_results 0 0 " " ", ").
Proof.
  apply (@print_table_plain_name sample_results 0 0 ", " "my app"
           [("[TEST] [FAILURE] [macos] [pixel]", [])]).
  reflexivity.
Defined.

(** Witness of [print_table_length]. *)
Lemma print_table_length_witness :
  List.length (print_table sample_results 0 0 "&nbsp;" "<br/>")
  = 2 + List.length sample_results.
Proof.
  apply (@print_table_length sample_results 0 0 "&nbsp;" "<br/>").
  - reflexivity.
  - distinct.
Defined.

Ltac simple_chars :=
  let c := fresh "c" in
  let H := fresh "H" in
  intros c H; simpl in H;
  repeat (destruct H as [<- | H];
          [split; [reflexivity | split; discriminate] |]);
  destruct H.

(** Witness of [flat_config_brackets]. *)
Lemma flat_config_brackets_witness :
  flat_config (map PList [["TEST"]; ["FAILURE"]; ["macos"]; ["pixel"; "emulator"]])
  = PyStr.join " "
      (map (fun values => "[" ++ PyStr.join ", " values ++ "]")
           [["TEST"]; ["FAILURE"]; ["macos"]; ["pixel"; "emulator"]]).
Proof.
  apply (@flat_config_brackets [["TEST"]; ["FAILURE"]; ["macos"]; ["pixel"; "emulator"]]).
  repeat (apply Forall_cons;
          [repeat (apply Forall_cons; [simple_chars |]); apply Forall_nil |]);
    apply Forall_nil.
Defined.

(** Witness of [print_github_log_one_line]. *)
Lemma print_github_log_one_line_witness :
  exists text,
    print_github_log sample_results = [text]
    /\ PyStr.has_char PyStr.newline text = false.
Proof.
  apply (@print_github_log_one_line sample_results).
  intros testapp cell [E | []]; injection E as <- <-.
  split; [reflexivity |].
  intros label tests [E | []]; injection E as <- <-; reflexivity.
Defined.

(** Witness of [format_result_order_independent]. *)
Lemma format_result_order_independent_witness :
  format_result [("[TEST] [ERROR] [macos]", ["t2"; "t1"]); ("[BUILD] [ERROR] [macos]", [])]
                " " ", " 0
  = format_result
      [("[BUILD] [ERROR] [macos]", []); ("[TEST] [ERROR] [macos]", ["t1"; "t2"])]
      " " ", " 0.
Proof.
  apply (@format_result_order_independent
           [("[TEST] [ERROR] [macos]", ["t2"; "t1"]); ("[BUILD] [ERROR] [macos]", [])]
           [("[BUILD] [ERROR] [macos]", []); ("[TEST] [ERROR] [macos]", ["t1"; "t2"])]
           " " ", " 0).
  exists [("[TEST] [ERROR] [macos]", ["t1"; "t2"]); ("[BUILD] [ERROR] [macos]", [])].
  split.
  - repeat constructor.
  - apply perm_swap.
Defined.

(** Witness of [print_table_row_order]: the Markdown table of three rows. *)
Lemma print_table_row_order_witness :
  exists header rule others,
    print_table sample_table 0 0 "&nbsp;" "<br/>"
    = (header :: rule
         :: match dict_get sample_table MISSING_LOG with
            | Some cell => [testapp_row 0 0 "&nbsp;" "<br/>" MISSING_LOG cell]
            | None => []
            end
         ++ map (fun testapp =>
                   testapp_row 0 0 "&nbsp;" "<br/>" testapp (cell_of sample_table testapp))
                others)%list
    /\ ascending others
    /\ Permutation others
         (filter (fun testapp => negb (testapp =? MISSING_LOG)) (dict_keys sample_table)).
Proof.
  apply (@print_table_row_order sample_table 0 0 "&nbsp;" "<br/>").
  reflexivity.
Defined.

(** The same table, line by line. *)
Example print_table_three_rows :
  print_table sample_table 0 0 "&nbsp;" "<br/>"
  = ["| Failures | Configs |";
     "|----------|---------|";
     "| missing_log | [TEST] [ERROR] [windows] [pixel]<br/> |";
     "| auth | [BUILD] [ERROR] [ubuntu] [emulator]<br/> |";
     "| storage | [TEST] [FAILURE] [macos] [pixel]<br/> |"].
Proof. reflexivity. Qed.

(** * The two groups of devices *)

(** C4.  The summaries of the runs on the two real and on the two virtual
    devices are missing, and a run on a fifth device has nothing to
    report: each of the four logs holds the marker, and [summarize_logs]
    raises [AttributeError] in each of its three renderings, instead of
    reporting [missing_log].  In [combine_config] the real devices are
    folded first, which leaves a list, and the fold of the virtual devices
    calls [add] on it. *)
Theorem missing_log_two_groups_raise :
  Forall (fun f => has_sentinel f = true) (map missing_log_on farm_devices)
  /\ forall markdown github_log,
      summarize_logs sample_axes sample_farm insertion_order "ci" []
                     (map missing_log_on farm_devices ++ [quiet_log_on "desktop"])
                     markdown github_log
      = Err AttributeError.
Proof.
  split; [repeat constructor |].
  intros [] []; vm_compute; reflexivity.
Qed.

Ltac flaky_on_farm :=
  split;
  [ first [ exists "ubuntu-latest-pixel"; split; reflexivity
          | exists "ubuntu-latest-galaxy"; split; reflexivity
          | exists "ubuntu-latest-emulator"; split; reflexivity
          | exists "ubuntu-latest-simulator"; split; reflexivity
          | exists "ubuntu-latest-desktop"; split; reflexivity ]
  | split; [reflexivity |]; eexists _, _; repeat split; reflexivity ].

(** C8.  "auth" was flaky on the two real and on the two virtual devices,
    no log has an entry under "errors" or "failures" and none holds the
    marker, and a run on a fifth device has nothing to report:
    [summarize_logs] raises [AttributeError] in each of its three
    renderings, instead of returning [True] with a summary.  The
    exception is that of [combine_config] on the two groups of devices. *)
Theorem only_flakiness_two_groups_raise :
  Forall (flaky_test_log "ci") (map flaky_log_on farm_devices ++ [quiet_log_on "desktop"])
  /\ Exists has_flakiness (map flaky_log_on farm_devices ++ [quiet_log_on "desktop"])
  /\ forall markdown github_log,
      summarize_logs sample_axes sample_farm insertion_order "ci" []
                     (map flaky_log_on farm_devices ++ [quiet_log_on "desktop"])
                     markdown github_log
      = Err AttributeError.
Proof.
  split; [| split].
  - cbn [map farm_devices List.app].
    repeat (apply Forall_cons; [flaky_on_farm |]); apply Forall_nil.
  - apply Exists_cons_hd; eexists _, _, _; split; reflexivity.
  - intros [] []; vm_compute; reflexivity.
Qed.
